(** * Kodefx server: the chat handler (message validation, routing, read loop,
      push notifications, channel administration)

    A shallow embedding of [service.ChatHandler] and
    [service.DefaultNotificationSender].  The relational store behind
    [*gorm.DB] is a record of tables (lists of rows kept in primary-key
    order); the Hub, the websocket transport and the push provider are
    collaborators whose calls are recorded as events or supplied by the
    environment of a call. *)

From Stdlib Require Import NArith ZArith List String Ascii Bool Lia.
From Stdlib Require Import DecimalString DecimalN.
From Stdlib Require Import Sorted Permutation.
Import ListNotations.

Local Open Scope string_scope.
Local Open Scope list_scope.
Local Open Scope N_scope.

(** Go's [uint] identifiers, [time.Time] instants (nanoseconds since the
    epoch) and [[]byte] frames. *)
Definition uint := N.
Definition Time := Z.
Definition bytes := list Byte.byte.

(** [strconv.FormatUint(n, 10)] and [t.Unix()]. *)
Definition FormatUint (n : uint) : string := NilEmpty.string_of_uint (N.to_uint n).
Definition FormatInt (z : Z) : string := NilZero.string_of_int (Z.to_int z).
Definition Unix (t : Time) : Z := (t / 1000000000)%Z.

(** ** The [models] package *)

(** Modelled from the spec: the [models] declarations of the chat layer are
    not among the sources; the two message-type constants are the envelope's
    documented ["peer"] and ["channel"] values, and the structs carry the
    fields the handler reads and writes. *)
Definition MessageType := string.
Definition PeerMessageType : MessageType := "peer".
Definition ChannelMessageType : MessageType := "channel".

Module PeerMessage.
Record t := mk {
  ID : uint;
  SenderID : uint;
  ReceiverID : uint;
  Content : string;
  CreatedAt : Time }.
End PeerMessage.

Module ChannelMessage.
Record t := mk {
  ID : uint;
  ChannelID : uint;
  SenderID : uint;
  Content : string;
  CreatedAt : Time }.
End ChannelMessage.

Record WebSocketMessage := mkWS {
  Type_ : MessageType;
  PeerMsg : option PeerMessage.t;
  ChannelMsg : option ChannelMessage.t }.

Module Client.
Record t := mk { ID : uint; UserID : uint }.
End Client.

Module Channel.
Record t := mk { ID : uint; Name : string }.
End Channel.

Module Device.
Record t := mk { UserID : string; Token : string }.
End Device.

Module NotificationHistory.
Record t := mk {
  UserID : string;
  Title : string;
  Body : string;
  Data : string;
  Status : string;
  SentAt : Time }.
End NotificationHistory.

(** [map[string]interface{}] payloads of a notification. *)
Inductive DataValue :=
| VString (s : string)
| VUint (n : uint)
| VInt (z : Z).

Definition NotificationData := list (string * DataValue).

(** ** The persisted store *)

Record Store := mkStore {
  channels : list Channel.t;
  clients : list Client.t;
  channel_clients : list (uint * uint);   (* (channel_id, client_id) *)
  channel_admins : list (uint * uint);    (* (channel_id, client_id) *)
  peer_messages : list PeerMessage.t;
  channel_messages : list ChannelMessage.t;
  devices : list Device.t;
  notification_histories : list NotificationHistory.t }.

Definition set_clients (s : Store) (v : list Client.t) : Store :=
  mkStore (channels s) v (channel_clients s) (channel_admins s)
          (peer_messages s) (channel_messages s) (devices s) (notification_histories s).

Definition set_channel_admins (s : Store) (v : list (uint * uint)) : Store :=
  mkStore (channels s) (clients s) (channel_clients s) v
          (peer_messages s) (channel_messages s) (devices s) (notification_histories s).

Definition set_peer_messages (s : Store) (v : list PeerMessage.t) : Store :=
  mkStore (channels s) (clients s) (channel_clients s) (channel_admins s)
          v (channel_messages s) (devices s) (notification_histories s).

Definition set_channel_messages (s : Store) (v : list ChannelMessage.t) : Store :=
  mkStore (channels s) (clients s) (channel_clients s) (channel_admins s)
          (peer_messages s) v (devices s) (notification_histories s).

Definition set_devices (s : Store) (v : list Device.t) : Store :=
  mkStore (channels s) (clients s) (channel_clients s) (channel_admins s)
          (peer_messages s) (channel_messages s) v (notification_histories s).

Definition set_notification_histories (s : Store) (v : list NotificationHistory.t) : Store :=
  mkStore (channels s) (clients s) (channel_clients s) (channel_admins s)
          (peer_messages s) (channel_messages s) (devices s) v.

(** The next auto-increment primary key of a table. *)
Definition nextID (ids : list uint) : uint := 1 + fold_right N.max 0 ids.

Definition pair_eqb (a b : uint * uint) : bool :=
  (fst a =? fst b) && (snd a =? snd b).

(** [db.First(&channel, id)]. *)
Definition firstChannel (s : Store) (id : uint) : option Channel.t :=
  find (fun ch => Channel.ID ch =? id) (channels s).

(** [db.Where("user_id = ?", uid).First(&client)]. *)
Definition firstClientByUser (s : Store) (uid : uint) : option Client.t :=
  find (fun cl => Client.UserID cl =? uid) (clients s).

(** [db.Model(&channel).Association("Clients").Find(&members)]: the client
    rows joined to the channel through [channel_clients]. *)
Definition channelMembers (s : Store) (cid : uint) : list Client.t :=
  filter (fun cl => existsb (pair_eqb (cid, Client.ID cl)) (channel_clients s)) (clients s).

(** [db.Model(&channel).Association("Admins").Find(&admins)]. *)
Definition channelAdmins (s : Store) (cid : uint) : list Client.t :=
  filter (fun cl => existsb (pair_eqb (cid, Client.ID cl)) (channel_admins s)) (clients s).

(** The count query of [validateMessage]: rows of
    [channels JOIN channel_admins JOIN clients] with the given channel id and
    the given user id. *)
Definition adminJoinRows (s : Store) (cid senderID : uint) : list (Channel.t * (uint * uint) * Client.t) :=
  flat_map (fun ch =>
    flat_map (fun adm =>
      flat_map (fun cl =>
        if (fst adm =? Channel.ID ch) && (snd adm =? Client.ID cl)
           && (Channel.ID ch =? cid) && (Client.UserID cl =? senderID)
        then [(ch, adm, cl)] else [])
      (clients s))
    (channel_admins s))
  (channels s).

(** A user is listed in a channel's persisted admin set when the channel row
    exists and one of its admin rows belongs to the user. *)
Definition listedAsAdmin (s : Store) (cid uid : uint) : Prop :=
  firstChannel s cid <> None /\ In uid (map Client.UserID (channelAdmins s cid)).

(** ** The environment of one loop iteration

    The clock reading of [time.Now()] and, for each store operation whose
    error the handler inspects or ignores, whether the store fails it. *)
Record Env := mkEnv {
  now : Time;
  fail_admin_count : bool;
  fail_create : bool;
  fail_channel_lookup : bool;
  fail_sender_lookup : bool;
  fail_members : bool }.

(** ** validateMessage *)

Definition validateMessage (db : Store) (env : Env) (msg : WebSocketMessage) (senderID : uint)
  : option string :=
  if (Type_ msg =? PeerMessageType)%string then
    match PeerMsg msg with
    | None => Some "peer message is nil"%string
    | Some pm =>
        if PeerMessage.ReceiverID pm =? 0 then Some "invalid receiver ID"%string
        else if (PeerMessage.Content pm =? "")%string
             then Some "message content cannot be empty"%string
             else None
    end
  else if (Type_ msg =? ChannelMessageType)%string then
    match ChannelMsg msg with
    | None => Some "channel message is nil"%string
    | Some cm =>
        if ChannelMessage.ChannelID cm =? 0 then Some "invalid channel ID"%string
        else if (ChannelMessage.Content cm =? "")%string
             then Some "message content cannot be empty"%string
             else
               let count :=
                 if fail_admin_count env then 0
                 else N.of_nat (List.length (adminJoinRows db (ChannelMessage.ChannelID cm) senderID)) in
               if count =? 0 then Some "only channel admins can send messages"%string
               else None
    end
  else Some "invalid message type"%string.

(** ** Notification previews *)

(** The body preview of a peer notification: [content] when it has at most
    100 bytes, else [content[:97] + "..."]. *)
Definition peerPreview (content : string) : string :=
  if (100 <? String.length content)%nat
  then (substring 0 97 content ++ "...")%string
  else content.

(** The content preview of a channel notification: bound 80, cut at 77. *)
Definition channelPreview (content : string) : string :=
  if (80 <? String.length content)%nat
  then (substring 0 77 content ++ "...")%string
  else content.

(** ** The connection, the events of the read pump *)

Module ClientConnection.
(** [Conn] names the transport session; [UserID] is the identity the
    connection was opened for. *)
Record t := mk { Conn : N; UserID : uint }.
End ClientConnection.

Inductive LogLine :=
| LogReadError
| LogUnmarshalError
| LogValidationFailed (err : string)
| LogMarshalErrorFrameFailed
| LogSavePeerError
| LogSaveChannelError
| LogChannelInfoError
| LogSenderInfoError
| LogMembersError.

(** What the read pump does to its collaborators, in program order.
    [DBCreatePeer]/[DBCreateChannel] record a successful [db.Create];
    [Notify] records the spawning of the goroutine that calls
    [SendUserNotification] with these arguments. *)
Inductive Event :=
| Log (l : LogLine)
| Send (c : ClientConnection.t) (frame : bytes)
| DBCreatePeer (row : PeerMessage.t)
| DBCreateChannel (row : ChannelMessage.t)
| Notify (userID title body : string) (data : NotificationData)
| BroadcastToUser (userID : uint) (frame : bytes)
| BroadcastToChannel (channelID : uint) (frame : bytes)
| Unregister (c : ClientConnection.t)
| ConnClose (c : ClientConnection.t).

(** [db.Create(wsMsg.PeerMsg)]: the row is appended, with a fresh primary key
    when the struct carries none; [None] is a store error. *)
Definition createPeerMessage (env : Env) (db : Store) (pm : PeerMessage.t)
  : option (Store * PeerMessage.t) :=
  if fail_create env then None
  else
    let id := if PeerMessage.ID pm =? 0
              then nextID (map PeerMessage.ID (peer_messages db))
              else PeerMessage.ID pm in
    let row := PeerMessage.mk id (PeerMessage.SenderID pm) (PeerMessage.ReceiverID pm)
                              (PeerMessage.Content pm) (PeerMessage.CreatedAt pm) in
    Some (set_peer_messages db (peer_messages db ++ [row]), row).

Definition createChannelMessage (env : Env) (db : Store) (cm : ChannelMessage.t)
  : option (Store * ChannelMessage.t) :=
  if fail_create env then None
  else
    let id := if ChannelMessage.ID cm =? 0
              then nextID (map ChannelMessage.ID (channel_messages db))
              else ChannelMessage.ID cm in
    let row := ChannelMessage.mk id (ChannelMessage.ChannelID cm) (ChannelMessage.SenderID cm)
                                 (ChannelMessage.Content cm) (ChannelMessage.CreatedAt cm) in
    Some (set_channel_messages db (channel_messages db ++ [row]), row).

(** The log line of the sender lookup, whose error is only reported. *)
Definition senderInfoLog (env : Env) (db : Store) (uid : uint) : list Event :=
  if fail_sender_lookup env then [Log LogSenderInfoError]
  else match firstClientByUser db uid with
       | None => [Log LogSenderInfoError]
       | Some _ => []
       end.

(** The notification goroutines of a channel message: one per member row
    whose user differs from the sender, in member order. *)
Fixpoint channelNotifications (sender : uint) (channelName senderName content : string)
    (data : NotificationData) (members : list Client.t) : list Event :=
  match members with
  | [] => []
  | member :: rest =>
      if Client.UserID member =? sender
      then channelNotifications sender channelName senderName content data rest
      else Notify (FormatUint (Client.UserID member))
                  ("New message in " ++ channelName)%string
                  (senderName ++ ": " ++ channelPreview content)%string
                  data
           :: channelNotifications sender channelName senderName content data rest
  end.

Inductive ReadResult :=
| ReadError (unexpectedClose : bool)
| ReadMessage (message : bytes).

Inductive LoopStatus :=
| Exited          (* the loop broke and the deferred calls ran *)
| AwaitingRead.   (* blocked in [ReadMessage], nothing more to read yet *)

Section ReadPump.

(** [json.Unmarshal] into a [WebSocketMessage] and [json.Marshal] of one. *)
Variable json_unmarshal : bytes -> option WebSocketMessage.
Variable json_marshal : WebSocketMessage -> option bytes.

(** [msgBytes, _ := json.Marshal(wsMsg)]. *)
Definition marshalIgnoringError (m : WebSocketMessage) : bytes :=
  match json_marshal m with
  | Some b => b
  | None => []
  end.

(** The body of the loop of [handleClientMessages] from [validateMessage]
    on, for one decoded envelope.  The store it returns is the store after
    the iteration's own operations; the goroutines it spawns are recorded as
    [Notify] events, and what they write (through [SendUserNotification]:
    notification history, device rows) is not part of it. *)
Definition routeMessage (client : ClientConnection.t) (env : Env) (db : Store)
    (wsMsg : WebSocketMessage) : Store * list Event :=
  match validateMessage db env wsMsg (ClientConnection.UserID client) with
  | Some err =>
      let errorMsg := mkWS ("error: " ++ err)%string None None in
      (db, Log (LogValidationFailed err)
           :: match json_marshal errorMsg with
              | Some msgBytes => [Send client msgBytes]
              | None => [Log LogMarshalErrorFrameFailed]
              end)
  | None =>
      if (Type_ wsMsg =? PeerMessageType)%string then
        match PeerMsg wsMsg with
        | None => (db, [])
        | Some pm0 =>
            let pm := PeerMessage.mk (PeerMessage.ID pm0) (ClientConnection.UserID client)
                        (PeerMessage.ReceiverID pm0) (PeerMessage.Content pm0) (now env) in
            match createPeerMessage env db pm with
            | None => (db, [Log LogSavePeerError])
            | Some (db', row) =>
                let receiverUserID := FormatUint (PeerMessage.ReceiverID row) in
                let senderName := ("User " ++ FormatUint (ClientConnection.UserID client))%string in
                let notificationData :=
                  [ ("messageType", VString "peer");
                    ("messageId", VUint (PeerMessage.ID row));
                    ("senderId", VUint (PeerMessage.SenderID row));
                    ("timestamp", VInt (Unix (PeerMessage.CreatedAt row))) ] in
                let sent := mkWS (Type_ wsMsg) (Some row) (ChannelMsg wsMsg) in
                (db', DBCreatePeer row
                      :: senderInfoLog env db' (ClientConnection.UserID client)
                      ++ [ Notify receiverUserID ("New message from " ++ senderName)%string
                                  (peerPreview (PeerMessage.Content row)) notificationData;
                           BroadcastToUser (PeerMessage.ReceiverID row) (marshalIgnoringError sent) ])
            end
        end
      else if (Type_ wsMsg =? ChannelMessageType)%string then
        match ChannelMsg wsMsg with
        | None => (db, [])
        | Some cm0 =>
            let cm := ChannelMessage.mk (ChannelMessage.ID cm0) (ChannelMessage.ChannelID cm0)
                        (ClientConnection.UserID client) (ChannelMessage.Content cm0) (now env) in
            match createChannelMessage env db cm with
            | None => (db, [Log LogSaveChannelError])
            | Some (db', row) =>
                match (if fail_channel_lookup env then None
                       else firstChannel db' (ChannelMessage.ChannelID row)) with
                | None => (db', [DBCreateChannel row; Log LogChannelInfoError])
                | Some channel =>
                    let senderLog := senderInfoLog env db' (ClientConnection.UserID client) in
                    if fail_members env
                    then (db', DBCreateChannel row :: senderLog ++ [Log LogMembersError])
                    else
                      let members := channelMembers db' (Channel.ID channel) in
                      let senderName := ("User " ++ FormatUint (ClientConnection.UserID client))%string in
                      let notificationData :=
                        [ ("messageType", VString "channel");
                          ("messageId", VUint (ChannelMessage.ID row));
                          ("channelId", VUint (ChannelMessage.ChannelID row));
                          ("channelName", VString (Channel.Name channel));
                          ("senderId", VUint (ChannelMessage.SenderID row));
                          ("timestamp", VInt (Unix (ChannelMessage.CreatedAt row))) ] in
                      let sent := mkWS (Type_ wsMsg) (PeerMsg wsMsg) (Some row) in
                      (db', DBCreateChannel row :: senderLog
                            ++ channelNotifications (ClientConnection.UserID client)
                                 (Channel.Name channel) senderName
                                 (ChannelMessage.Content row) notificationData members
                            ++ [BroadcastToChannel (ChannelMessage.ChannelID row)
                                                   (marshalIgnoringError sent)])
                end
            end
        end
      else (db, [])
  end.

(** [handleClientMessages]: the loop is driven by the successive results of
    [client.Conn.ReadMessage()], each with the environment of its
    iteration.  A read error breaks the loop and runs the deferred
    [Unregister] and [Conn.Close]; when the results run out the loop is
    still blocked in the next read. *)
Fixpoint handleClientMessages (client : ClientConnection.t)
    (reads : list (ReadResult * Env)) (db : Store) : Store * list Event * LoopStatus :=
  match reads with
  | [] => (db, [], AwaitingRead)
  | (ReadError unexpectedClose, _) :: _ =>
      (db, (if unexpectedClose then [Log LogReadError] else [])
           ++ [Unregister client; ConnClose client], Exited)
  | (ReadMessage message, env) :: rest =>
      match json_unmarshal message with
      | None =>
          let '(db', evs, st) := handleClientMessages client rest db in
          (db', Log LogUnmarshalError :: evs, st)
      | Some wsMsg =>
          let (db1, evs1) := routeMessage client env db wsMsg in
          let '(db', evs, st) := handleClientMessages client rest db1 in
          (db', evs1 ++ evs, st)
      end
  end.

End ReadPump.

(** ** DefaultNotificationSender *)

Module PushMessage.
Record t := mk {
  To : list string;
  Body : string;
  Title : string;
  Sound : string;
  Priority : string;
  Data : option (list (string * string)) }.
End PushMessage.

(** What [expoClient.Publish] followed by [response.ValidateResponse] can
    yield: a transport error, or a response whose validation reports an error
    or none. *)
Inductive PublishResult :=
| PublishError (err : string)
| PublishResponse (validationErr : option string).

Inductive PushEvent :=
| LogInvalidFormat (token : string)
| LogValidationError (err : string)
| LogCleanupError (token : string)
| LogCleanedUp (token : string)
| LogHistoryError
| Published (m : PushMessage.t).   (* [expoClient.Publish] was called with [m] *)

(** The environment of one [SendUserNotification] call. *)
Record PushEnv := mkPushEnv {
  sentAt : Time;
  fail_find_devices : option string;
  fail_delete_device : string -> bool;
  fail_create_history : bool }.

(** [fmt.Sprintf("%v", value)]. *)
Definition sprintv (v : DataValue) : string :=
  match v with
  | VString s => s
  | VUint n => FormatUint n
  | VInt z => FormatInt z
  end.

Section NotificationSender.

(** The push SDK: the token format check, the publish call, and
    [json.Marshal] of the payload map. *)
Variable NewExponentPushToken : string -> option string.
Variable Publish : PushMessage.t -> PublishResult.
Variable marshalData : option NotificationData -> string.

(** [cleanupInvalidTokens]. *)
Fixpoint cleanupInvalidTokens (env : PushEnv) (db : Store) (tokens : list string)
  : Store * list PushEvent :=
  match tokens with
  | [] => (db, [])
  | token :: rest =>
      if fail_delete_device env token
      then let (db', evs) := cleanupInvalidTokens env db rest in
           (db', LogCleanupError token :: evs)
      else
        let db1 := set_devices db
                     (filter (fun d => negb (Device.Token d =? token)%string) (devices db)) in
        let (db', evs) := cleanupInvalidTokens env db1 rest in
        (db', LogCleanedUp token :: evs)
  end.

(** The first loop of [sendExpoNotificationSDK]: the well-formed push
    tokens, the malformed token strings, and the log lines. *)
Fixpoint convertTokens (tokenStrings : list string)
  : list string * list string * list PushEvent :=
  match tokenStrings with
  | [] => ([], [], [])
  | tokenString :: rest =>
      let '(pushTokens, invalidTokens, evs) := convertTokens rest in
      match NewExponentPushToken tokenString with
      | None => (pushTokens, tokenString :: invalidTokens, LogInvalidFormat tokenString :: evs)
      | Some pushToken => (pushToken :: pushTokens, invalidTokens, evs)
      end
  end.

Definition sendExpoNotificationSDK (env : PushEnv) (db : Store) (tokenStrings : list string)
    (title body : string) (data : option NotificationData)
  : Store * list PushEvent * (bool * option string) :=
  let '(pushTokens, invalidTokens, evs) := convertTokens tokenStrings in
  match pushTokens with
  | [] => (db, evs, (false, Some "no valid push tokens found"))
  | _ :: _ =>
      let stringData :=
        match data with
        | None => None
        | Some kvs => Some (map (fun kv => (fst kv, sprintv (snd kv))) kvs)
        end in
      let pushMessage := PushMessage.mk pushTokens body title "default" "default" stringData in
      match Publish pushMessage with
      | PublishError err =>
          (db, evs ++ [Published pushMessage],
           (false, Some ("failed to publish notification: " ++ err)%string))
      | PublishResponse (Some validationErr) =>
          let (db', cevs) := cleanupInvalidTokens env db invalidTokens in
          (db', evs ++ [Published pushMessage; LogValidationError validationErr] ++ cevs,
           (false, Some ("notification validation failed: " ++ validationErr)%string))
      | PublishResponse None =>
          let (db', cevs) :=
            match invalidTokens with
            | [] => (db, [])
            | _ :: _ => cleanupInvalidTokens env db invalidTokens
            end in
          (db', evs ++ [Published pushMessage] ++ cevs, (true, None))
      end
  end.

Definition SendUserNotification (env : PushEnv) (db : Store) (userID title body : string)
    (data : option NotificationData)
  : Store * list PushEvent * (bool * option string) :=
  match fail_find_devices env with
  | Some dbErr => (db, [], (false, Some ("error retrieving user devices: " ++ dbErr)%string))
  | None =>
      let found := filter (fun d => (Device.UserID d =? userID)%string) (devices db) in
      match found with
      | [] => (db, [], (true, None))
      | _ :: _ =>
          let tokens := map Device.Token found in
          let '(db1, evs, (success, err)) :=
            sendExpoNotificationSDK env db tokens title body data in
          let status :=
            if negb success || (match err with Some _ => true | None => false end)
            then "failed" else "sent" in
          let history :=
            NotificationHistory.mk userID title body (marshalData data) status (sentAt env) in
          if fail_create_history env
          then (db1, evs ++ [LogHistoryError], (success, err))
          else (set_notification_histories db1 (notification_histories db1 ++ [history]),
                evs, (success, err))
      end
  end.

End NotificationSender.

(** ** AddChannelAdmin *)

Inductive ResponseBody :=
| ErrorText (msg : string)
| UpstreamError           (* [err.Error()] of a store or decoder error *)
| AdminList (admins : list Client.t).

Record Response := mkResponse { StatusCode : N; Body : ResponseBody }.

(** The request as the handler reads it: the [id] path variable and the
    decoded [user_id] of the body ([None]: the body does not decode). *)
Record AdminRequest := mkAdminRequest {
  path_id : string;
  body_user_id : option uint }.

(** Store failures of the successive operations of the handler. *)
Record AdminFaults := mkAdminFaults {
  fail_first_channel : bool;
  fail_first_or_create : bool;
  fail_count : bool;
  fail_insert : bool;
  fail_commit : bool;
  fail_find_admins : bool }.

(** [strconv.ParseUint(s, 10, 32)]. *)
Definition ParseUint32 (s : string) : option uint :=
  match s with
  | EmptyString => None
  | _ => match NilEmpty.uint_of_string s with
         | Some d => let n := N.of_uint d in
                     if n <? 4294967296 then Some n else None
         | None => None
         end
  end.

(** [tx.Where(models.Client{UserID: uid}).FirstOrCreate(&client)]: a struct
    condition keeps only its non-zero fields, so a zero [uid] selects the
    first client row whatever its user. *)
Definition firstOrCreateClient (tx : Store) (uid : uint) : Store * Client.t :=
  match (if uid =? 0 then hd_error (clients tx)
         else find (fun cl => Client.UserID cl =? uid) (clients tx)) with
  | Some cl => (tx, cl)
  | None =>
      let cl := Client.mk (nextID (map Client.ID (clients tx))) uid in
      (set_clients tx (clients tx ++ [cl]), cl)
  end.

(** The count of the "already an admin" check: the channel row joined with
    the [channel_admins] rows of this channel and this client. *)
Definition adminRowCount (tx : Store) (channel : Channel.t) (client : Client.t) : N :=
  N.of_nat (List.length
    (flat_map (fun _ : Channel.t =>
                 filter (pair_eqb (Channel.ID channel, Client.ID client)) (channel_admins tx))
              (filter (fun ch => Channel.ID ch =? Channel.ID channel) (channels tx)))).

(** [AddChannelAdmin]: [tx] is the transaction's view of the store; a
    rollback returns the store the call started from, a commit returns
    [tx]. *)
Definition AddChannelAdmin (f : AdminFaults) (db : Store) (r : AdminRequest) : Store * Response :=
  match ParseUint32 (path_id r) with
  | None => (db, mkResponse 400 (ErrorText "Invalid channel ID"))
  | Some channelID =>
      match body_user_id r with
      | None => (db, mkResponse 400 UpstreamError)
      | Some userID =>
          let tx := db in
          match (if fail_first_channel f then None else firstChannel tx channelID) with
          | None => (db, mkResponse 404 (ErrorText "Channel not found"))
          | Some channel =>
              if fail_first_or_create f then (db, mkResponse 500 UpstreamError)
              else
                let (tx1, client) := firstOrCreateClient tx userID in
                if fail_count f then (db, mkResponse 500 UpstreamError)
                else if 0 <? adminRowCount tx1 channel client
                then (db, mkResponse 400 (ErrorText "User is already an admin"))
                else if fail_insert f then (db, mkResponse 500 UpstreamError)
                else
                  let tx2 := set_channel_admins tx1
                               (channel_admins tx1 ++ [(Channel.ID channel, Client.ID client)]) in
                  if fail_commit f then (db, mkResponse 500 UpstreamError)
                  else if fail_find_admins f then (tx2, mkResponse 500 UpstreamError)
                  else (tx2, mkResponse 200 (AdminList (channelAdmins tx2 (Channel.ID channel))))
          end
      end
  end.

(** ** Observations on event lists, invariants, sample data *)

(** The bodies of the notification goroutines among some events. *)
Definition notifyBodies (evs : list Event) : list string :=
  flat_map (fun e => match e with Notify _ _ body _ => [body] | _ => [] end) evs.

(** The users notification goroutines are spawned for, in spawn order. *)
Definition notifyRecipients (evs : list Event) : list string :=
  flat_map (fun e => match e with Notify userID _ _ _ => [userID] | _ => [] end) evs.

(** Events that persist a message or fan it out (to the Hub or to the push
    notification path). *)
Definition persistsOrFansOut (e : Event) : bool :=
  match e with
  | DBCreatePeer _ | DBCreateChannel _
  | BroadcastToUser _ _ | BroadcastToChannel _ _
  | Notify _ _ _ _ => true
  | _ => false
  end.

(** Events that record a successful [db.Create] of a message. *)
Definition isCreate (e : Event) : bool :=
  match e with
  | DBCreatePeer _ | DBCreateChannel _ => true
  | _ => false
  end.

(** The envelope [m] with the sender identity and creation time of its
    payloads replaced by [sid] and [t]: what a client can put in those
    fields of the frame it sends. *)
Definition withClientStamps (sid : uint) (t : Time) (m : WebSocketMessage) : WebSocketMessage :=
  mkWS (Type_ m)
       (option_map (fun pm => PeerMessage.mk (PeerMessage.ID pm) sid (PeerMessage.ReceiverID pm)
                                             (PeerMessage.Content pm) t) (PeerMsg m))
       (option_map (fun cm => ChannelMessage.mk (ChannelMessage.ID cm) (ChannelMessage.ChannelID cm)
                                                sid (ChannelMessage.Content cm) t) (ChannelMsg m)).

(** Events that end a connection. *)
Definition endsConnection (e : Event) : bool :=
  match e with
  | Unregister _ | ConnClose _ => true
  | _ => false
  end.

(** A stand-in codec for concrete runs: an envelope is encoded as the bytes
    of its type string, and every non-empty frame decodes to one fixed
    envelope while the empty frame does not decode. *)
Definition sampleMarshal (m : WebSocketMessage) : option bytes :=
  Some (list_byte_of_string (Type_ m)).

Definition sampleUnmarshal (m : WebSocketMessage) (message : bytes) : option WebSocketMessage :=
  match message with
  | [] => None
  | _ :: _ => Some m
  end.

(** A store with one channel, three clients who are all members, the first
    of them its only admin. *)
Definition sampleStore : Store :=
  mkStore [Channel.mk 1 "general"]
          [Client.mk 1 10; Client.mk 2 20; Client.mk 3 30]
          [(1, 1); (1, 2); (1, 3)]
          [(1, 1)]
          [] [] [] [].

Definition quietEnv : Env := mkEnv 1700000000000000000%Z false false false false false.

Definition connA : ClientConnection.t := ClientConnection.mk 1 10.
Definition connB : ClientConnection.t := ClientConnection.mk 2 20.

(** An environment in which only the channel lookup that follows the
    insertion of a channel message fails. *)
Definition channelLookupFailsEnv : Env :=
  mkEnv 1700000000000000000%Z false false true false false.

(** A peer message to user 20 and a channel message to channel 1, each with
    a sender identity (99) and a creation time (5) written by the client. *)
Definition samplePeerMsg : WebSocketMessage :=
  mkWS PeerMessageType (Some (PeerMessage.mk 0 99 20 "hi" 5%Z)) None.

Definition sampleChannelMsg : WebSocketMessage :=
  mkWS ChannelMessageType None (Some (ChannelMessage.mk 0 1 99 "hello" 5%Z)).

(** Client rows are only created by [FirstOrCreate] keyed by the user: the
    table holds one row per user, and a row of the zero user, which
    [FirstOrCreate] creates in an empty table only, is the first row. *)
Definition clientsWellFormed (s : Store) : Prop :=
  NoDup (map Client.UserID (clients s)) /\
  (forall cl, In cl (tl (clients s)) -> Client.UserID cl <> 0).

(** The push SDK's format check of a token string. *)
Definition sampleTokenCheck (token : string) : option string :=
  if prefix "ExponentPushToken" token then Some token else None.

(** A provider that reports every publish as addressed to an unregistered
    device. *)
Definition rejectingProvider (m : PushMessage.t) : PublishResult :=
  PublishResponse (Some "DeviceNotRegistered").

Definition sampleMarshalData (data : option NotificationData) : string := "{}".

Definition quietPushEnv : PushEnv :=
  mkPushEnv 1700000000000000000%Z None (fun _ => false) false.

(** User 20 has one registered device, with a well-formed token. *)
Definition staleDeviceStore : Store :=
  set_devices sampleStore [Device.mk "20" "ExponentPushToken[stale]"].

(** User 20 has one registered device, with a malformed token. *)
Definition malformedDeviceStore : Store :=
  set_devices sampleStore [Device.mk "20" "not-a-token"].

Definition noFaults : AdminFaults := mkAdminFaults false false false false false false.


(** ** The other handlers of the chat routes *)

Definition set_channels (s : Store) (v : list Channel.t) : Store :=
  mkStore v (clients s) (channel_clients s) (channel_admins s)
          (peer_messages s) (channel_messages s) (devices s) (notification_histories s).

Definition set_channel_clients (s : Store) (v : list (uint * uint)) : Store :=
  mkStore (channels s) (clients s) v (channel_admins s)
          (peer_messages s) (channel_messages s) (devices s) (notification_histories s).

(** What a handler writes to its [http.ResponseWriter]. *)
Inductive Payload :=
| NoBody
| PlainText (msg : string)
| UpstreamText                       (* [err.Error()] of a store or decoder error *)
| ChannelJSON (channel : Channel.t)
| ClientsJSON (rows : list Client.t)
| PeerMessagesJSON (rows : list PeerMessage.t).

Record Reply := mkReply { Status : N; Sent : Payload }.

(** [Association(...).Append(&client)] on a many-to-many relation: the join
    row is inserted unless it is already there. *)
Definition appendAssociation (rows : list (uint * uint)) (row : uint * uint)
  : list (uint * uint) :=
  if existsb (pair_eqb row) rows then rows else rows ++ [row].

(** [Association(...).Delete(&client)]: the join rows of the pair are
    deleted. *)
Definition deleteAssociation (rows : list (uint * uint)) (row : uint * uint)
  : list (uint * uint) :=
  filter (fun r => negb (pair_eqb row r)) rows.

(** *** RemoveChannelAdmin *)

Record RemoveFaults := mkRemoveFaults {
  fail_remove_client : bool;
  fail_remove_channel : bool;
  fail_remove_delete : bool }.

Definition RemoveChannelAdmin (f : RemoveFaults) (db : Store) (r : AdminRequest)
  : Store * Reply :=
  match ParseUint32 (path_id r) with
  | None => (db, mkReply 400 (PlainText "Invalid channel ID"))
  | Some channelID =>
      match body_user_id r with
      | None => (db, mkReply 400 UpstreamText)
      | Some userID =>
          match (if fail_remove_client f then None else firstClientByUser db userID) with
          | None => (db, mkReply 404 UpstreamText)
          | Some client =>
              match (if fail_remove_channel f then None else firstChannel db channelID) with
              | None => (db, mkReply 404 UpstreamText)
              | Some channel =>
                  if fail_remove_delete f then (db, mkReply 500 UpstreamText)
                  else (set_channel_admins db
                          (deleteAssociation (channel_admins db)
                                             (Channel.ID channel, Client.ID client)),
                        mkReply 200 NoBody)
              end
          end
      end
  end.

(** *** GetChannelAdmins, GetChannelMembers *)

Definition GetChannelAdmins (failFirst failFind : bool) (db : Store) (path : string) : Reply :=
  match ParseUint32 path with
  | None => mkReply 400 (PlainText "Invalid channel ID")
  | Some channelID =>
      match (if failFirst then None else firstChannel db channelID) with
      | None => mkReply 404 (PlainText "Channel not found")
      | Some channel =>
          if failFind then mkReply 500 UpstreamText
          else mkReply 200 (ClientsJSON (channelAdmins db (Channel.ID channel)))
      end
  end.

Definition GetChannelMembers (failFirst failFind : bool) (db : Store) (path : string) : Reply :=
  match ParseUint32 path with
  | None => mkReply 400 (PlainText "Invalid channel ID")
  | Some channelID =>
      match (if failFirst then None else firstChannel db channelID) with
      | None => mkReply 404 (PlainText "Channel not found")
      | Some channel =>
          if failFind then mkReply 500 UpstreamText
          else mkReply 200 (ClientsJSON (channelMembers db (Channel.ID channel)))
      end
  end.

(** *** JoinChannel *)

(** A request behind [AuthMiddleware]: the [id] path variable and the user
    [GetUserIDFromContext] yields, if any. *)
Record AuthedRequest := mkAuthedRequest {
  route_id : string;
  context_user : option uint }.

Record JoinFaults := mkJoinFaults {
  fail_join_client : bool;
  fail_join_channel : bool;
  fail_join_append : bool }.

(** [JoinChannel] runs outside any transaction: each store operation that
    succeeded stays. *)
Definition JoinChannel (f : JoinFaults) (db : Store) (r : AuthedRequest) : Store * Reply :=
  match ParseUint32 (route_id r) with
  | None => (db, mkReply 400 (PlainText "Invalid channel ID"))
  | Some channelID =>
      match context_user r with
      | None => (db, mkReply 401 (PlainText "Unauthorized"))
      | Some userID =>
          if fail_join_client f then (db, mkReply 500 UpstreamText)
          else
            let (db1, client) := firstOrCreateClient db userID in
            match (if fail_join_channel f then None else firstChannel db1 channelID) with
            | None => (db1, mkReply 404 UpstreamText)
            | Some channel =>
                if fail_join_append f then (db1, mkReply 500 UpstreamText)
                else (set_channel_clients db1
                        (appendAssociation (channel_clients db1)
                                           (Channel.ID channel, Client.ID client)),
                      mkReply 200 NoBody)
            end
      end
  end.

(** *** CreateChannel *)

(** The decoded body ([None]: it does not decode) and the authenticated
    user.  Of the channel struct the model keeps the primary key and the
    name. *)
Record CreateRequest := mkCreateRequest {
  decoded_channel : option Channel.t;
  creator : option uint }.

Record CreateFaults := mkCreateFaults {
  fail_new_channel : bool;
  fail_new_client : bool;
  fail_new_member : bool;
  fail_new_admin : bool;
  fail_new_commit : bool }.

(** [tx.Create(&channel)]: a fresh primary key when the struct carries
    none; a key that is already taken is a store error. *)
Definition createChannelRow (fail : bool) (tx : Store) (channel : Channel.t)
  : option (Store * Channel.t) :=
  if fail then None
  else if Channel.ID channel =? 0 then
    let row := Channel.mk (nextID (map Channel.ID (channels tx))) (Channel.Name channel) in
    Some (set_channels tx (channels tx ++ [row]), row)
  else if existsb (fun ch => Channel.ID ch =? Channel.ID channel) (channels tx) then None
  else Some (set_channels tx (channels tx ++ [channel]), channel).

Definition CreateChannel (f : CreateFaults) (db : Store) (r : CreateRequest) : Store * Reply :=
  match decoded_channel r with
  | None => (db, mkReply 400 UpstreamText)
  | Some channel0 =>
      match createChannelRow (fail_new_channel f) db channel0 with
      | None => (db, mkReply 500 UpstreamText)
      | Some (tx1, channel) =>
          match creator r with
          | None => (db, mkReply 401 (PlainText "Unauthorized"))
          | Some userID =>
              if fail_new_client f then (db, mkReply 500 UpstreamText)
              else
                let (tx2, client) := firstOrCreateClient tx1 userID in
                if fail_new_member f then (db, mkReply 500 UpstreamText)
                else
                  let tx3 := set_channel_clients tx2
                               (appendAssociation (channel_clients tx2)
                                                  (Channel.ID channel, Client.ID client)) in
                  if fail_new_admin f then (db, mkReply 500 UpstreamText)
                  else
                    let tx4 := set_channel_admins tx3
                                 (appendAssociation (channel_admins tx3)
                                                    (Channel.ID channel, Client.ID client)) in
                    if fail_new_commit f then (db, mkReply 500 UpstreamText)
                    else (tx4, mkReply 200 (ChannelJSON channel))
          end
      end
  end.

(** *** GetPeerMessages *)

(** [Order("created_at asc")], as a stable insertion sort. *)
Fixpoint insertByCreatedAt (m : PeerMessage.t) (l : list PeerMessage.t) : list PeerMessage.t :=
  match l with
  | [] => [m]
  | x :: rest =>
      if (PeerMessage.CreatedAt m <=? PeerMessage.CreatedAt x)%Z then m :: l
      else x :: insertByCreatedAt m rest
  end.

Definition orderByCreatedAtAsc (l : list PeerMessage.t) : list PeerMessage.t :=
  fold_right insertByCreatedAt [] l.

(** The rows with [(sender_id = user AND receiver_id = peer) OR
    (sender_id = peer AND receiver_id = user)]. *)
Definition between (userID peerID : uint) (m : PeerMessage.t) : bool :=
  ((PeerMessage.SenderID m =? userID) && (PeerMessage.ReceiverID m =? peerID))
  || ((PeerMessage.SenderID m =? peerID) && (PeerMessage.ReceiverID m =? userID)).

(** The [userId] path variable is the peer; the caller is the authenticated
    user. *)
Definition GetPeerMessages (failFind : bool) (db : Store) (r : AuthedRequest) : Reply :=
  match ParseUint32 (route_id r) with
  | None => mkReply 400 (PlainText "Invalid user ID")
  | Some peerID =>
      match context_user r with
      | None => mkReply 401 (PlainText "Unauthorized")
      | Some userID =>
          if failFind then mkReply 500 UpstreamText
          else mkReply 200 (PeerMessagesJSON
                              (orderByCreatedAtAsc (filter (between userID peerID)
                                                           (peer_messages db))))
      end
  end.

(** *** HandleWebSocket *)

Inductive ConnEvent :=
| HttpError (code : N) (msg : string)
| UpgradeFailed
| Registered (c : ClientConnection.t)          (* [h.hub.Register <- client] *)
| WritePumpStarted (c : ClientConnection.t)
| ReadPumpStarted (c : ClientConnection.t)
| LoadChannelsFailed
| Subscribed (channelID : uint) (c : ClientConnection.t)   (* [hub.SubscribeToChannel] *)
| Queued (c : ClientConnection.t) (frame : bytes).         (* [client.Send <- frame] *)

(** [strconv.ParseUint(s, 10, 64)]. *)
Definition ParseUint64 (s : string) : option uint :=
  match s with
  | EmptyString => None
  | _ => match NilEmpty.uint_of_string s with
         | Some d => let n := N.of_uint d in
                     if n <? 18446744073709551616 then Some n else None
         | None => None
         end
  end.

(** The channels of the subscription query:
    [channels JOIN channel_clients JOIN clients WHERE clients.user_id = ?]. *)
Definition userChannels (db : Store) (userID : uint) : list Channel.t :=
  flat_map (fun ch =>
    flat_map (fun cc =>
      flat_map (fun cl =>
        if (Channel.ID ch =? fst cc) && (snd cc =? Client.ID cl)
           && (Client.UserID cl =? userID)
        then [ch] else [])
      (clients db))
    (channel_clients db))
  (channels db).

(** The goroutine [HandleWebSocket] spawns after the registration: it loads
    the user's channels, subscribes the connection to each and queues the
    confirmation frame. *)
Definition loadSubscriptions (json_marshal : WebSocketMessage -> option bytes)
    (failLoad : bool) (db : Store) (client : ClientConnection.t) : list ConnEvent :=
  if failLoad then [LoadChannelsFailed]
  else
    map (fun ch => Subscribed (Channel.ID ch) client)
        (userChannels db (ClientConnection.UserID client))
    ++ match json_marshal (mkWS "connection_established" None None) with
       | Some msgBytes => [Queued client msgBytes]
       | None => []
       end.

(** [HandleWebSocket] up to the spawning of its goroutines: [upgraded] is
    the transport session of a successful upgrade. *)
Definition HandleWebSocket (path : string) (upgraded : option N)
  : list ConnEvent * option ClientConnection.t :=
  match ParseUint64 path with
  | None => ([HttpError 400 "Invalid user ID"], None)
  | Some UserID =>
      match upgraded with
      | None => ([UpgradeFailed], None)
      | Some conn =>
          let client := ClientConnection.mk conn UserID in
          ([Registered client; WritePumpStarted client; ReadPumpStarted client], Some client)
      end
  end.

(** Calls to the Hub's two broadcast operations. *)
Definition isBroadcast (e : Event) : bool :=
  match e with
  | BroadcastToUser _ _ | BroadcastToChannel _ _ => true
  | _ => false
  end.

(** The messages [expoClient.Publish] was called with. *)
Definition publishedMessages (evs : list PushEvent) : list PushMessage.t :=
  flat_map (fun e => match e with Published m => [m] | _ => [] end) evs.

(** What is said of every frame the read pump queues on a connection: it
    goes to the pump's own connection and encodes an error envelope. *)
Definition sendsOnlyErrorsTo (jm : WebSocketMessage -> option bytes)
    (client : ClientConnection.t) (e : Event) : Prop :=
  match e with
  | Send c frame =>
      c = client /\ exists err, jm (mkWS ("error: " ++ err)%string None None) = Some frame
  | _ => True
  end.

(** The tables the store operations of the read loop itself never write
    (the notification goroutines it spawns write the last two). *)
Definition sameDirectory (a b : Store) : Prop :=
  channels a = channels b /\ clients a = clients b /\
  channel_clients a = channel_clients b /\ channel_admins a = channel_admins b /\
  devices a = devices b /\ notification_histories a = notification_histories b.

(** The push tokens among some token strings, as the SDK converts them. *)
Definition wellFormedTokens (tokenCheck : string -> option string) (tokens : list string)
  : list string :=
  flat_map (fun t => match tokenCheck t with Some p => [p] | None => [] end) tokens.

(** A provider that accepts every publish. *)
Definition acceptingProvider (m : PushMessage.t) : PublishResult := PublishResponse None.

(** User 20 has two registered devices, one with a malformed token. *)
Definition mixedDeviceStore : Store :=
  set_devices sampleStore
    [Device.mk "20" "not-a-token"; Device.mk "20" "ExponentPushToken[live]";
     Device.mk "30" "ExponentPushToken[other]"].

Definition noRemoveFaults : RemoveFaults := mkRemoveFaults false false false.
Definition noJoinFaults : JoinFaults := mkJoinFaults false false false.
Definition noCreateFaults : CreateFaults := mkCreateFaults false false false false false.

(** A user is a persisted member of a channel when the channel row exists
    and one of its member rows belongs to the user. *)
Definition memberOf (s : Store) (cid uid : uint) : Prop :=
  firstChannel s cid <> None /\ In uid (map Client.UserID (channelMembers s cid)).

(** Ascending creation times. *)
Definition createdAtLe (a b : PeerMessage.t) : Prop :=
  (PeerMessage.CreatedAt a <= PeerMessage.CreatedAt b)%Z.

(** * Properties *)

(** ** Strings *)

Lemma string_length_append (s1 s2 : string) :
  String.length (s1 ++ s2)%string = (String.length s1 + String.length s2)%nat.
Proof.
  induction s1 as [|c s1 IH]; cbn; [reflexivity|].
  now rewrite IH.
Qed.

Lemma string_length_substring_prefix (n : nat) (s : string) :
  (n <= String.length s)%nat -> String.length (substring 0 n s) = n.
Proof.
  revert s; induction n as [|n IH]; intros s Hn.
  - destruct s; reflexivity.
  - destruct s as [|c s]; cbn in Hn; [lia|].
    cbn [substring String.length]. rewrite IH; [reflexivity|lia].
Qed.

Lemma FormatUint_inj (a b : uint) : FormatUint a = FormatUint b -> a = b.
Proof.
  unfold FormatUint; intros H.
  apply (f_equal NilEmpty.uint_of_string) in H.
  rewrite !NilEmpty.usu in H.
  injection H as H.
  apply (f_equal N.of_uint) in H.
  now rewrite !DecimalN.Unsigned.of_to in H.
Qed.

Lemma notifyBodies_app (a b : list Event) :
  notifyBodies (a ++ b) = notifyBodies a ++ notifyBodies b.
Proof. apply flat_map_app. Qed.

Lemma notifyRecipients_app (a b : list Event) :
  notifyRecipients (a ++ b) = notifyRecipients a ++ notifyRecipients b.
Proof. apply flat_map_app. Qed.

Lemma senderInfoLog_no_notify env db uid :
  notifyBodies (senderInfoLog env db uid) = [] /\
  notifyRecipients (senderInfoLog env db uid) = [].
Proof.
  unfold senderInfoLog.
  destruct (fail_sender_lookup env); [now split|].
  destruct (firstClientByUser db uid); now split.
Qed.

Lemma channelNotifications_bodies sender channelName senderName content data members :
  Forall (fun b => b = (senderName ++ ": " ++ channelPreview content)%string)
         (notifyBodies (channelNotifications sender channelName senderName content data members)).
Proof.
  induction members as [|m rest IH]; cbn [channelNotifications]; [constructor|].
  destruct (Client.UserID m =? sender); [exact IH|].
  cbn. constructor; [reflexivity | exact IH].
Qed.

Lemma channelNotifications_recipients sender channelName senderName content data members :
  notifyRecipients (channelNotifications sender channelName senderName content data members)
  = map (fun m => FormatUint (Client.UserID m))
        (filter (fun m => negb (Client.UserID m =? sender)) members).
Proof.
  induction members as [|m rest IH]; cbn [channelNotifications filter]; [reflexivity|].
  destruct (Client.UserID m =? sender); cbn [negb]; [exact IH|].
  cbn. now rewrite <- IH.
Qed.

(** ** Previews *)

Lemma peerPreview_length (content : string) :
  (String.length (peerPreview content) <= 100)%nat.
Proof.
  unfold peerPreview.
  destruct (100 <? String.length content)%nat eqn:E.
  - apply Nat.ltb_lt in E.
    rewrite string_length_append, string_length_substring_prefix by lia.
    cbn. lia.
  - apply Nat.ltb_ge in E. exact E.
Qed.

Lemma channelPreview_length (content : string) :
  (String.length (channelPreview content) <= 80)%nat.
Proof.
  unfold channelPreview.
  destruct (80 <? String.length content)%nat eqn:E.
  - apply Nat.ltb_lt in E.
    rewrite string_length_append, string_length_substring_prefix by lia.
    cbn. lia.
  - apply Nat.ltb_ge in E. exact E.
Qed.

Lemma routeMessage_peer_bodies jm client env db wsMsg pm :
  Type_ wsMsg = PeerMessageType ->
  PeerMsg wsMsg = Some pm ->
  Forall (fun b => b = peerPreview (PeerMessage.Content pm))
         (notifyBodies (snd (routeMessage jm client env db wsMsg))).
Proof.
  intros HT HP. unfold routeMessage.
  destruct (validateMessage db env wsMsg (ClientConnection.UserID client)) as [err|].
  - cbn. destruct (jm _); cbn; constructor.
  - rewrite HT, HP. cbn [String.eqb Ascii.eqb Bool.eqb PeerMessageType].
    unfold createPeerMessage.
    destruct (fail_create env); [cbn; constructor|].
    cbn [snd PeerMessage.Content PeerMessage.ReceiverID].
    change (notifyBodies (?e :: ?l)) with (notifyBodies [e] ++ notifyBodies l).
    rewrite notifyBodies_app.
    rewrite (proj1 (senderInfoLog_no_notify _ _ _)).
    cbn. constructor; [reflexivity|constructor].
Qed.

Lemma routeMessage_channel_bodies jm client env db wsMsg cm :
  Type_ wsMsg = ChannelMessageType ->
  ChannelMsg wsMsg = Some cm ->
  Forall (fun b => b = ("User " ++ FormatUint (ClientConnection.UserID client) ++ ": "
                        ++ channelPreview (ChannelMessage.Content cm))%string)
         (notifyBodies (snd (routeMessage jm client env db wsMsg))).
Proof.
  intros HT HC. unfold routeMessage.
  destruct (validateMessage db env wsMsg (ClientConnection.UserID client)) as [err|].
  - cbn. destruct (jm _); cbn; constructor.
  - rewrite HT, HC. cbn [String.eqb Ascii.eqb Bool.eqb PeerMessageType ChannelMessageType].
    unfold createChannelMessage.
    destruct (fail_create env); [cbn; constructor|].
    match goal with |- context [if fail_channel_lookup env then None else ?x] =>
      destruct (if fail_channel_lookup env then None else x) as [channel|] end;
      [|cbn; constructor].
    destruct (fail_members env); cbn [snd].
    + change (notifyBodies (?e :: ?l)) with (notifyBodies [e] ++ notifyBodies l).
      rewrite notifyBodies_app, (proj1 (senderInfoLog_no_notify _ _ _)).
      cbn. constructor.
    + change (notifyBodies (?e :: ?l)) with (notifyBodies [e] ++ notifyBodies l).
      rewrite !notifyBodies_app, (proj1 (senderInfoLog_no_notify _ _ _)).
      cbn [notifyBodies flat_map app ChannelMessage.Content].
      rewrite app_nil_r.
      replace (("User " ++ FormatUint (ClientConnection.UserID client) ++ ": "
                ++ channelPreview (ChannelMessage.Content cm))%string)
        with ((("User " ++ FormatUint (ClientConnection.UserID client)) ++ ": "
                ++ channelPreview (ChannelMessage.Content cm))%string)
        by reflexivity.
      apply channelNotifications_bodies.
Qed.

(** C6: the preview put in a push notification is bounded.  For a peer
    message it has at most 100 bytes: content of at most 100 bytes is kept as
    it is, longer content becomes its first 97 bytes followed by ["..."]; for
    a channel message the bound is 80 and the cut is at 77.  Every
    notification the read pump dispatches for a peer message has the peer
    preview as its body, and for a channel message the body is the sender
    name, [": "] and the channel preview. *)
Theorem preview_bounded :
  forall content : string,
    (String.length (peerPreview content) <= 100)%nat /\
    ((String.length content <= 100)%nat -> peerPreview content = content) /\
    ((100 < String.length content)%nat ->
       peerPreview content = (substring 0 97 content ++ "...")%string /\
       String.length (peerPreview content) = 100%nat) /\
    (String.length (channelPreview content) <= 80)%nat /\
    ((String.length content <= 80)%nat -> channelPreview content = content) /\
    ((80 < String.length content)%nat ->
       channelPreview content = (substring 0 77 content ++ "...")%string /\
       String.length (channelPreview content) = 80%nat) /\
    (forall jm client env db id sid rid t cmo,
        Forall (fun b => b = peerPreview content)
          (notifyBodies (snd (routeMessage jm client env db
             (mkWS PeerMessageType (Some (PeerMessage.mk id sid rid content t)) cmo))))) /\
    (forall jm client env db id cid sid t pmo,
        Forall (fun b => b = ("User " ++ FormatUint (ClientConnection.UserID client) ++ ": "
                              ++ channelPreview content)%string)
          (notifyBodies (snd (routeMessage jm client env db
             (mkWS ChannelMessageType pmo (Some (ChannelMessage.mk id cid sid content t))))))).
Proof.
  intros content.
  split; [apply peerPreview_length|].
  split.
  { intros H. unfold peerPreview.
    destruct (100 <? String.length content)%nat eqn:E; [|reflexivity].
    apply Nat.ltb_lt in E. lia. }
  split.
  { intros H. unfold peerPreview.
    apply Nat.ltb_lt in H. rewrite H. split; [reflexivity|].
    apply Nat.ltb_lt in H.
    rewrite string_length_append, string_length_substring_prefix by lia.
    reflexivity. }
  split; [apply channelPreview_length|].
  split.
  { intros H. unfold channelPreview.
    destruct (80 <? String.length content)%nat eqn:E; [|reflexivity].
    apply Nat.ltb_lt in E. lia. }
  split.
  { intros H. unfold channelPreview.
    apply Nat.ltb_lt in H. rewrite H. split; [reflexivity|].
    apply Nat.ltb_lt in H.
    rewrite string_length_append, string_length_substring_prefix by lia.
    reflexivity. }
  split.
  - intros. apply (routeMessage_peer_bodies jm client env db _
              (PeerMessage.mk id sid rid content t)); reflexivity.
  - intros. apply (routeMessage_channel_bodies jm client env db _
              (ChannelMessage.mk id cid sid content t)); reflexivity.
Qed.

(** ** Validation failures *)

Lemma firstChannel_of_row db ch :
  In ch (channels db) -> firstChannel db (Channel.ID ch) <> None.
Proof.
  intros Hin Hnone. unfold firstChannel in Hnone.
  pose proof (find_none _ _ Hnone ch Hin) as H. cbn in H.
  now rewrite N.eqb_refl in H.
Qed.

Lemma adminJoinRows_listed db cid uid row :
  In row (adminJoinRows db cid uid) -> listedAsAdmin db cid uid.
Proof.
  unfold adminJoinRows. intros H.
  apply in_flat_map in H as (ch & Hch & H).
  apply in_flat_map in H as (adm & Hadm & H).
  apply in_flat_map in H as (cl & Hcl & H).
  destruct ((fst adm =? Channel.ID ch) && (snd adm =? Client.ID cl)
            && (Channel.ID ch =? cid) && (Client.UserID cl =? uid)) eqn:E; [|destruct H].
  apply andb_true_iff in E as [E E4]. apply andb_true_iff in E as [E E3].
  apply andb_true_iff in E as [E1 E2].
  apply N.eqb_eq in E1, E2, E3, E4. subst cid uid.
  split; [now apply firstChannel_of_row|].
  apply in_map. unfold channelAdmins. apply filter_In. split; [exact Hcl|].
  apply existsb_exists. exists adm. split; [exact Hadm|].
  unfold pair_eqb. cbn [fst snd]. rewrite <- E1, <- E2. now rewrite !N.eqb_refl.
Qed.

Lemma adminJoinRows_not_listed db cid uid :
  ~ listedAsAdmin db cid uid -> adminJoinRows db cid uid = [].
Proof.
  intros Hn. destruct (adminJoinRows db cid uid) as [|row rows] eqn:E; [reflexivity|].
  exfalso. apply Hn. apply (adminJoinRows_listed db cid uid row).
  rewrite E. now left.
Qed.

(** What [routeMessage] does once validation has failed. *)
Lemma routeMessage_invalid jm client env db wsMsg err :
  validateMessage db env wsMsg (ClientConnection.UserID client) = Some err ->
  routeMessage jm client env db wsMsg =
    (db, Log (LogValidationFailed err)
         :: match jm (mkWS ("error: " ++ err)%string None None) with
            | Some msgBytes => [Send client msgBytes]
            | None => [Log LogMarshalErrorFrameFailed]
            end).
Proof. intros H. unfold routeMessage. now rewrite H. Qed.

Lemma routeMessage_invalid_quiet jm client env db wsMsg err :
  validateMessage db env wsMsg (ClientConnection.UserID client) = Some err ->
  fst (routeMessage jm client env db wsMsg) = db /\
  forallb (fun e => negb (persistsOrFansOut e)) (snd (routeMessage jm client env db wsMsg)) = true /\
  forallb (fun e => negb (endsConnection e)) (snd (routeMessage jm client env db wsMsg)) = true.
Proof.
  intros H. rewrite (routeMessage_invalid jm client env db wsMsg err H).
  cbn [fst snd]. split; [reflexivity|].
  destruct (jm _); now split.
Qed.

(** C1: a channel-type message whose authenticated sender is not listed in
    the persisted admin set of the channel it names fails validation; the
    store is left as it was (no message row is created) and the events of the
    iteration contain no persistence and no fan-out, in particular no
    [BroadcastToChannel]. *)
Theorem non_admin_channel_message_rejected :
  forall jm client env db wsMsg,
    Type_ wsMsg = ChannelMessageType ->
    (forall cm, ChannelMsg wsMsg = Some cm ->
       ~ listedAsAdmin db (ChannelMessage.ChannelID cm) (ClientConnection.UserID client)) ->
    (exists err, validateMessage db env wsMsg (ClientConnection.UserID client) = Some err) /\
    fst (routeMessage jm client env db wsMsg) = db /\
    forallb (fun e => negb (persistsOrFansOut e))
            (snd (routeMessage jm client env db wsMsg)) = true.
Proof.
  intros jm client env db wsMsg HT Hadm.
  assert (Hv : exists err, validateMessage db env wsMsg (ClientConnection.UserID client) = Some err).
  { unfold validateMessage. rewrite HT.
    cbn [String.eqb Ascii.eqb Bool.eqb PeerMessageType ChannelMessageType].
    destruct (ChannelMsg wsMsg) as [cm|] eqn:EC; [|eauto].
    destruct (ChannelMessage.ChannelID cm =? 0); [eauto|].
    destruct (ChannelMessage.Content cm =? "")%string; [eauto|].
    rewrite (adminJoinRows_not_listed _ _ _ (Hadm cm eq_refl)).
    destruct (fail_admin_count env); cbn; eauto. }
  split; [exact Hv|].
  destruct Hv as [err Hv].
  destruct (routeMessage_invalid_quiet jm client env db wsMsg err Hv) as (H1 & H2 & _).
  now split.
Qed.

Lemma non_admin_channel_message_rejected_witness :
  (exists err, validateMessage sampleStore quietEnv
                 (mkWS ChannelMessageType None (Some (ChannelMessage.mk 0 1 0 "hello" 0%Z)))
                 (ClientConnection.UserID connB) = Some err) /\
  fst (routeMessage sampleMarshal connB quietEnv sampleStore
         (mkWS ChannelMessageType None (Some (ChannelMessage.mk 0 1 0 "hello" 0%Z)))) = sampleStore /\
  forallb (fun e => negb (persistsOrFansOut e))
          (snd (routeMessage sampleMarshal connB quietEnv sampleStore
                  (mkWS ChannelMessageType None (Some (ChannelMessage.mk 0 1 0 "hello" 0%Z))))) = true.
Proof.
  apply (non_admin_channel_message_rejected sampleMarshal connB quietEnv sampleStore
           (mkWS ChannelMessageType None (Some (ChannelMessage.mk 0 1 0 "hello" 0%Z)))).
  - reflexivity.
  - intros cm Hcm [_ Hin]. injection Hcm as <-. cbn in Hin.
    destruct Hin as [Hin|[]]. discriminate Hin.
Defined.

(** C2: a peer-type message whose content is empty fails validation; the
    iteration leaves the store as it was, logs the failure and enqueues one
    error frame on the connection the message came from, and does nothing
    else (no persistence, no [BroadcastToUser]); the loop then goes on with
    the next read.  The error frame is the encoding of an envelope that
    carries only a type string, which [json.Marshal] encodes. *)
Theorem empty_peer_message_rejected :
  forall ju jm client env db wsMsg message rest,
    Type_ wsMsg = PeerMessageType ->
    (forall pm, PeerMsg wsMsg = Some pm -> PeerMessage.Content pm = ""%string) ->
    (forall err, jm (mkWS ("error: " ++ err)%string None None) <> None) ->
    ju message = Some wsMsg ->
    exists err frame,
      validateMessage db env wsMsg (ClientConnection.UserID client) = Some err /\
      jm (mkWS ("error: " ++ err)%string None None) = Some frame /\
      routeMessage jm client env db wsMsg
        = (db, [Log (LogValidationFailed err); Send client frame]) /\
      handleClientMessages ju jm client ((ReadMessage message, env) :: rest) db
        = (let '(db', evs, st) := handleClientMessages ju jm client rest db in
           (db', Log (LogValidationFailed err) :: Send client frame :: evs, st)).
Proof.
  intros ju jm client env db wsMsg message rest HT Hempty Hjm Hju.
  assert (Hv : exists err, validateMessage db env wsMsg (ClientConnection.UserID client) = Some err).
  { unfold validateMessage. rewrite HT.
    cbn [String.eqb Ascii.eqb Bool.eqb PeerMessageType].
    destruct (PeerMsg wsMsg) as [pm|] eqn:EP; [|eauto].
    destruct (PeerMessage.ReceiverID pm =? 0); [eauto|].
    rewrite (Hempty pm eq_refl). cbn. eauto. }
  destruct Hv as [err Hv].
  destruct (jm (mkWS ("error: " ++ err)%string None None)) as [frame|] eqn:EM;
    [|exfalso; now apply (Hjm err)].
  exists err, frame.
  assert (HR : routeMessage jm client env db wsMsg
               = (db, [Log (LogValidationFailed err); Send client frame])).
  { rewrite (routeMessage_invalid jm client env db wsMsg err Hv). now rewrite EM. }
  repeat split; try assumption.
  cbn [handleClientMessages]. rewrite Hju, HR.
  destruct (handleClientMessages ju jm client rest db) as [[db' evs] st]. reflexivity.
Qed.

Lemma empty_peer_message_rejected_witness :
  exists err frame,
    validateMessage sampleStore quietEnv
      (mkWS PeerMessageType (Some (PeerMessage.mk 0 0 20 "" 0%Z)) None)
      (ClientConnection.UserID connA) = Some err /\
    sampleMarshal (mkWS ("error: " ++ err)%string None None) = Some frame /\
    routeMessage sampleMarshal connA quietEnv sampleStore
      (mkWS PeerMessageType (Some (PeerMessage.mk 0 0 20 "" 0%Z)) None)
      = (sampleStore, [Log (LogValidationFailed err); Send connA frame]) /\
    handleClientMessages
      (sampleUnmarshal (mkWS PeerMessageType (Some (PeerMessage.mk 0 0 20 "" 0%Z)) None))
      sampleMarshal connA [(ReadMessage [Byte.x7b; Byte.x7d], quietEnv)] sampleStore
      = (let '(db', evs, st) :=
           handleClientMessages
             (sampleUnmarshal (mkWS PeerMessageType (Some (PeerMessage.mk 0 0 20 "" 0%Z)) None))
             sampleMarshal connA [] sampleStore in
         (db', Log (LogValidationFailed err) :: Send connA frame :: evs, st)).
Proof.
  apply (empty_peer_message_rejected
           (sampleUnmarshal (mkWS PeerMessageType (Some (PeerMessage.mk 0 0 20 "" 0%Z)) None))
           sampleMarshal connA quietEnv sampleStore
           (mkWS PeerMessageType (Some (PeerMessage.mk 0 0 20 "" 0%Z)) None)
           [Byte.x7b; Byte.x7d] []).
  - reflexivity.
  - intros pm Hpm. injection Hpm as <-. reflexivity.
  - intros err. discriminate.
  - reflexivity.
Defined.

Lemma error_type_not_documented (err : string) :
  ("error: " ++ err)%string <> PeerMessageType /\
  ("error: " ++ err)%string <> ChannelMessageType.
Proof. split; discriminate. Qed.

(** C10: after a validation failure the error frame enqueued on the
    connection is the encoding of a [WebSocketMessage] whose [Type] is
    ["error: "] followed by the error text and whose peer and channel payloads
    are nil; that type string is neither ["peer"] nor ["channel"].  No other
    frame is sent in the iteration. *)
Theorem validation_error_frame :
  forall jm client env db wsMsg err,
    validateMessage db env wsMsg (ClientConnection.UserID client) = Some err ->
    Type_ (mkWS ("error: " ++ err)%string None None) <> PeerMessageType /\
    Type_ (mkWS ("error: " ++ err)%string None None) <> ChannelMessageType /\
    (forall frame, jm (mkWS ("error: " ++ err)%string None None) = Some frame ->
       In (Send client frame) (snd (routeMessage jm client env db wsMsg))) /\
    (forall c frame, In (Send c frame) (snd (routeMessage jm client env db wsMsg)) ->
       c = client /\ jm (mkWS ("error: " ++ err)%string None None) = Some frame).
Proof.
  intros jm client env db wsMsg err Hv.
  rewrite (routeMessage_invalid jm client env db wsMsg err Hv). cbn [snd Type_].
  destruct (error_type_not_documented err) as [Hp Hc].
  repeat split; try assumption.
  - intros frame Hf. rewrite Hf. right. now left.
  - destruct (jm _) as [b|]; destruct H as [H|[H|[]]]; try discriminate H.
    now injection H.
  - destruct (jm _) as [b|]; destruct H as [H|[H|[]]]; try discriminate H.
    injection H as _ <-. reflexivity.
Qed.

Lemma validation_error_frame_witness :
  Type_ (mkWS ("error: " ++ "invalid message type")%string None None) <> PeerMessageType /\
  Type_ (mkWS ("error: " ++ "invalid message type")%string None None) <> ChannelMessageType /\
  (forall frame,
     sampleMarshal (mkWS ("error: " ++ "invalid message type")%string None None) = Some frame ->
     In (Send connA frame)
        (snd (routeMessage sampleMarshal connA quietEnv sampleStore (mkWS "typing" None None)))) /\
  (forall c frame,
     In (Send c frame)
        (snd (routeMessage sampleMarshal connA quietEnv sampleStore (mkWS "typing" None None))) ->
     c = connA /\
     sampleMarshal (mkWS ("error: " ++ "invalid message type")%string None None) = Some frame).
Proof.
  apply (validation_error_frame sampleMarshal connA quietEnv sampleStore
           (mkWS "typing" None None) "invalid message type").
  reflexivity.
Defined.

(** ** The read loop *)

Lemma senderInfoLog_keeps_connection env db uid :
  forallb (fun e => negb (endsConnection e)) (senderInfoLog env db uid) = true.
Proof.
  unfold senderInfoLog.
  destruct (fail_sender_lookup env); [reflexivity|].
  destruct (firstClientByUser db uid); reflexivity.
Qed.

Lemma channelNotifications_keeps_connection sender channelName senderName content data members :
  forallb (fun e => negb (endsConnection e))
          (channelNotifications sender channelName senderName content data members) = true.
Proof.
  induction members as [|m rest IH]; cbn [channelNotifications]; [reflexivity|].
  destruct (Client.UserID m =? sender); [exact IH|]. cbn. exact IH.
Qed.

Lemma routeMessage_keeps_connection jm client env db wsMsg :
  forallb (fun e => negb (endsConnection e)) (snd (routeMessage jm client env db wsMsg)) = true.
Proof.
  unfold routeMessage.
  destruct (validateMessage db env wsMsg (ClientConnection.UserID client)) as [err|].
  { cbn. destruct (jm _); reflexivity. }
  destruct (Type_ wsMsg =? PeerMessageType)%string.
  { destruct (PeerMsg wsMsg) as [pm|]; [|reflexivity].
    destruct (createPeerMessage _ _ _) as [[db' row]|]; [|reflexivity].
    cbn [snd forallb endsConnection negb andb].
    rewrite forallb_app, senderInfoLog_keeps_connection. reflexivity. }
  destruct (Type_ wsMsg =? ChannelMessageType)%string; [|reflexivity].
  destruct (ChannelMsg wsMsg) as [cm|]; [|reflexivity].
  destruct (createChannelMessage _ _ _) as [[db' row]|]; [|reflexivity].
  destruct (if fail_channel_lookup env then None else _) as [channel|]; [|reflexivity].
  destruct (fail_members env); cbn [snd forallb endsConnection negb andb].
  - rewrite forallb_app, senderInfoLog_keeps_connection. reflexivity.
  - rewrite !forallb_app, senderInfoLog_keeps_connection,
      channelNotifications_keeps_connection. reflexivity.
Qed.

Lemma handleClientMessages_exit ju jm client reads :
  forall db,
    (snd (handleClientMessages ju jm client reads db) = Exited <->
       exists u env, In (ReadError u, env) reads) /\
    (snd (handleClientMessages ju jm client reads db) = Exited ->
       exists evs0,
         snd (fst (handleClientMessages ju jm client reads db))
           = evs0 ++ [Unregister client; ConnClose client] /\
         forallb (fun e => negb (endsConnection e)) evs0 = true) /\
    (snd (handleClientMessages ju jm client reads db) = AwaitingRead ->
       forallb (fun e => negb (endsConnection e))
               (snd (fst (handleClientMessages ju jm client reads db))) = true).
Proof.
  induction reads as [|[r env] rest IH]; intros db.
  - cbn. repeat split; try discriminate.
    intros (u & env & []).
  - destruct r as [u|message].
    + cbn [handleClientMessages fst snd]. repeat split; try discriminate.
      * intros _. exists u, env. now left.
      * intros _. exists (if u then [Log LogReadError] else []).
        split; [reflexivity|]. now destruct u.
    + cbn [handleClientMessages].
      destruct (ju message) as [wsMsg|].
      * pose proof (routeMessage_keeps_connection jm client env db wsMsg) as HK.
        destruct (routeMessage jm client env db wsMsg) as [db1 evs1]. cbn [snd] in HK.
        specialize (IH db1).
        destruct (handleClientMessages ju jm client rest db1) as [[db' evs] st].
        cbn [fst snd] in *. destruct IH as (IH1 & IH2 & IH3).
        repeat split.
        -- intros H. apply IH1 in H as (u & e & H). exists u, e. now right.
        -- intros (u & e & [H|H]); [discriminate H|]. apply IH1. now exists u, e.
        -- intros H. destruct (IH2 H) as (evs0 & -> & H0).
           exists (evs1 ++ evs0). split; [now rewrite app_assoc|].
           now rewrite forallb_app, HK, H0.
        -- intros H. now rewrite forallb_app, HK, (IH3 H).
      * specialize (IH db).
        destruct (handleClientMessages ju jm client rest db) as [[db' evs] st].
        cbn [fst snd] in *. destruct IH as (IH1 & IH2 & IH3).
        repeat split.
        -- intros H. apply IH1 in H as (u & e & H). exists u, e. now right.
        -- intros (u & e & [H|H]); [discriminate H|]. apply IH1. now exists u, e.
        -- intros H. destruct (IH2 H) as (evs0 & -> & H0).
           exists (Log LogUnmarshalError :: evs0). split; [reflexivity|].
           cbn. exact H0.
        -- intros H. cbn. exact (IH3 H).
Qed.

(** C3: in the read loop a frame that does not decode is logged and the loop
    goes on with the next read on the same store, without unregistering; a
    read error of the transport ends the loop, whose deferred calls
    unregister the connection from the Hub and close the transport.  Over a
    whole run: the loop has exited exactly when some read failed; when it has
    exited, its events end with [Unregister] and [ConnClose] of this
    connection and contain no other such event; while it has not, there is
    none at all. *)
Theorem read_loop_error_handling :
  forall ju jm client,
    (forall message env rest db,
        ju message = None ->
        handleClientMessages ju jm client ((ReadMessage message, env) :: rest) db
        = (let '(db', evs, st) := handleClientMessages ju jm client rest db in
           (db', Log LogUnmarshalError :: evs, st))) /\
    (forall unexpectedClose env rest db,
        handleClientMessages ju jm client ((ReadError unexpectedClose, env) :: rest) db
        = (db, (if unexpectedClose then [Log LogReadError] else [])
               ++ [Unregister client; ConnClose client], Exited)) /\
    (forall reads db,
        (snd (handleClientMessages ju jm client reads db) = Exited <->
           exists u env, In (ReadError u, env) reads) /\
        (snd (handleClientMessages ju jm client reads db) = Exited ->
           exists evs0,
             snd (fst (handleClientMessages ju jm client reads db))
               = evs0 ++ [Unregister client; ConnClose client] /\
             forallb (fun e => negb (endsConnection e)) evs0 = true) /\
        (snd (handleClientMessages ju jm client reads db) = AwaitingRead ->
           forallb (fun e => negb (endsConnection e))
                   (snd (fst (handleClientMessages ju jm client reads db))) = true)).
Proof.
  intros ju jm client. split; [|split].
  - intros message env rest db H. cbn [handleClientMessages]. now rewrite H.
  - reflexivity.
  - intros reads db. apply handleClientMessages_exit.
Qed.

(** ** Valid messages: stamping, persistence, fan-out *)

Lemma validateMessage_ok db env wsMsg uid :
  validateMessage db env wsMsg uid = None ->
  (Type_ wsMsg = PeerMessageType /\
   exists pm, PeerMsg wsMsg = Some pm /\
              PeerMessage.ReceiverID pm <> 0 /\ PeerMessage.Content pm <> ""%string)
  \/
  (Type_ wsMsg = ChannelMessageType /\
   exists cm, ChannelMsg wsMsg = Some cm /\
              ChannelMessage.ChannelID cm <> 0 /\ ChannelMessage.Content cm <> ""%string /\
              fail_admin_count env = false /\
              adminJoinRows db (ChannelMessage.ChannelID cm) uid <> []).
Proof.
  unfold validateMessage. intros H.
  destruct (Type_ wsMsg =? PeerMessageType)%string eqn:EP.
  - left. apply String.eqb_eq in EP. split; [exact EP|].
    destruct (PeerMsg wsMsg) as [pm|]; [|discriminate H].
    exists pm. split; [reflexivity|].
    destruct (PeerMessage.ReceiverID pm =? 0) eqn:ER; [discriminate H|].
    destruct (PeerMessage.Content pm =? "")%string eqn:EC; [discriminate H|].
    split; [now apply N.eqb_neq | now apply String.eqb_neq].
  - destruct (Type_ wsMsg =? ChannelMessageType)%string eqn:EC; [|discriminate H].
    right. apply String.eqb_eq in EC. split; [exact EC|].
    destruct (ChannelMsg wsMsg) as [cm|]; [|discriminate H].
    exists cm. split; [reflexivity|].
    destruct (ChannelMessage.ChannelID cm =? 0) eqn:ER; [discriminate H|].
    destruct (ChannelMessage.Content cm =? "")%string eqn:ECo; [discriminate H|].
    destruct (fail_admin_count env); [discriminate H|].
    repeat split; [now apply N.eqb_neq | now apply String.eqb_neq |].
    intros Hnil. rewrite Hnil in H. discriminate H.
Qed.

Lemma validateMessage_withClientStamps db env wsMsg uid sid t :
  validateMessage db env (withClientStamps sid t wsMsg) uid = validateMessage db env wsMsg uid.
Proof.
  unfold validateMessage, withClientStamps. cbn [Type_ PeerMsg ChannelMsg].
  destruct (Type_ wsMsg =? PeerMessageType)%string.
  - destruct (PeerMsg wsMsg); reflexivity.
  - destruct (Type_ wsMsg =? ChannelMessageType)%string; [|reflexivity].
    destruct (ChannelMsg wsMsg); reflexivity.
Qed.

Lemma routeMessage_withClientStamps_store jm client env db wsMsg sid t :
  fst (routeMessage jm client env db (withClientStamps sid t wsMsg))
  = fst (routeMessage jm client env db wsMsg).
Proof.
  unfold routeMessage. rewrite validateMessage_withClientStamps.
  destruct (validateMessage db env wsMsg (ClientConnection.UserID client)); [reflexivity|].
  unfold withClientStamps. cbn [Type_ PeerMsg ChannelMsg].
  destruct (Type_ wsMsg =? PeerMessageType)%string.
  { destruct (PeerMsg wsMsg) as [pm|]; [|reflexivity].
    cbn [option_map PeerMessage.ID PeerMessage.ReceiverID PeerMessage.Content].
    destruct (createPeerMessage _ _ _) as [[db' row]|]; reflexivity. }
  destruct (Type_ wsMsg =? ChannelMessageType)%string; [|reflexivity].
  destruct (ChannelMsg wsMsg) as [cm|]; [|reflexivity].
  cbn [option_map ChannelMessage.ID ChannelMessage.ChannelID ChannelMessage.Content].
  destruct (createChannelMessage _ _ _) as [[db' row]|]; [|reflexivity].
  destruct (if fail_channel_lookup env then None else _) as [channel|]; [|reflexivity].
  destruct (fail_members env); reflexivity.
Qed.

Lemma senderInfoLog_no_create env db uid :
  forallb (fun e => negb (isCreate e)) (senderInfoLog env db uid) = true.
Proof.
  unfold senderInfoLog.
  destruct (fail_sender_lookup env); [reflexivity|].
  destruct (firstClientByUser db uid); reflexivity.
Qed.

Lemma channelNotifications_no_create sender channelName senderName content data members :
  forallb (fun e => negb (isCreate e))
          (channelNotifications sender channelName senderName content data members) = true.
Proof.
  induction members as [|m rest IH]; cbn [channelNotifications]; [reflexivity|].
  destruct (Client.UserID m =? sender); [exact IH|]. cbn. exact IH.
Qed.

(** C4: for a message that passes validation, the sender identity and the
    creation time a client writes in the envelope have no effect on the
    store the iteration leaves; when the store refuses the row, the store is
    unchanged and nothing is fanned out; otherwise exactly one row is
    appended, whose sender is the authenticated user of the connection and
    whose creation time is the server's clock reading, and the record of that
    insertion comes before every other event of the iteration, so before any
    broadcast. *)
Theorem persisted_message_stamped_by_server :
  forall jm client env db wsMsg,
    validateMessage db env wsMsg (ClientConnection.UserID client) = None ->
    (forall sid t,
        fst (routeMessage jm client env db (withClientStamps sid t wsMsg))
        = fst (routeMessage jm client env db wsMsg)) /\
    (fail_create env = true ->
       fst (routeMessage jm client env db wsMsg) = db /\
       forallb (fun e => negb (persistsOrFansOut e))
               (snd (routeMessage jm client env db wsMsg)) = true) /\
    (fail_create env = false ->
       exists evs,
         forallb (fun e => negb (isCreate e)) evs = true /\
         ((exists pm row,
             Type_ wsMsg = PeerMessageType /\ PeerMsg wsMsg = Some pm /\
             routeMessage jm client env db wsMsg
               = (set_peer_messages db (peer_messages db ++ [row]), DBCreatePeer row :: evs) /\
             PeerMessage.SenderID row = ClientConnection.UserID client /\
             PeerMessage.CreatedAt row = now env /\
             PeerMessage.ReceiverID row = PeerMessage.ReceiverID pm /\
             PeerMessage.Content row = PeerMessage.Content pm)
          \/
          (exists cm row,
             Type_ wsMsg = ChannelMessageType /\ ChannelMsg wsMsg = Some cm /\
             routeMessage jm client env db wsMsg
               = (set_channel_messages db (channel_messages db ++ [row]),
                  DBCreateChannel row :: evs) /\
             ChannelMessage.SenderID row = ClientConnection.UserID client /\
             ChannelMessage.CreatedAt row = now env /\
             ChannelMessage.ChannelID row = ChannelMessage.ChannelID cm /\
             ChannelMessage.Content row = ChannelMessage.Content cm))).
Proof.
  intros jm client env db wsMsg Hv.
  split; [intros; apply routeMessage_withClientStamps_store|].
  destruct (validateMessage_ok _ _ _ _ Hv) as [(HT & pm & HP & _)|(HT & cm & HC & _)].
  - split.
    + intros Hf. unfold routeMessage. rewrite Hv, HT, HP.
      cbn [String.eqb Ascii.eqb Bool.eqb PeerMessageType].
      unfold createPeerMessage. rewrite Hf. now split.
    + intros Hf.
      assert (HR : exists row evs,
                 routeMessage jm client env db wsMsg
                 = (set_peer_messages db (peer_messages db ++ [row]), DBCreatePeer row :: evs) /\
                 forallb (fun e => negb (isCreate e)) evs = true /\
                 PeerMessage.SenderID row = ClientConnection.UserID client /\
                 PeerMessage.CreatedAt row = now env /\
                 PeerMessage.ReceiverID row = PeerMessage.ReceiverID pm /\
                 PeerMessage.Content row = PeerMessage.Content pm).
      { unfold routeMessage. rewrite Hv, HT, HP.
        cbn [String.eqb Ascii.eqb Bool.eqb PeerMessageType].
        unfold createPeerMessage. rewrite Hf.
        eexists; eexists. split; [reflexivity|]. split; [|cbn; repeat split].
        rewrite forallb_app, senderInfoLog_no_create. reflexivity. }
      destruct HR as (row & evs & HR & Hno & H1 & H2 & H3 & H4).
      exists evs. split; [exact Hno|]. left. exists pm, row. repeat split; assumption.
  - split.
    + intros Hf. unfold routeMessage. rewrite Hv, HT, HC.
      cbn [String.eqb Ascii.eqb Bool.eqb PeerMessageType ChannelMessageType].
      unfold createChannelMessage. rewrite Hf. now split.
    + intros Hf.
      assert (HR : exists row evs,
                 routeMessage jm client env db wsMsg
                 = (set_channel_messages db (channel_messages db ++ [row]),
                    DBCreateChannel row :: evs) /\
                 forallb (fun e => negb (isCreate e)) evs = true /\
                 ChannelMessage.SenderID row = ClientConnection.UserID client /\
                 ChannelMessage.CreatedAt row = now env /\
                 ChannelMessage.ChannelID row = ChannelMessage.ChannelID cm /\
                 ChannelMessage.Content row = ChannelMessage.Content cm).
      { unfold routeMessage. rewrite Hv, HT, HC.
        cbn [String.eqb Ascii.eqb Bool.eqb PeerMessageType ChannelMessageType].
        unfold createChannelMessage. rewrite Hf.
        destruct (if fail_channel_lookup env then None else _) as [channel|].
        - destruct (fail_members env); eexists; eexists; (split; [reflexivity|]);
            (split; [|cbn; repeat split]).
          + rewrite forallb_app, senderInfoLog_no_create. reflexivity.
          + rewrite !forallb_app, senderInfoLog_no_create, channelNotifications_no_create.
            reflexivity.
        - eexists; eexists. split; [reflexivity|]. split; [reflexivity|]. cbn. repeat split. }
      destruct HR as (row & evs & HR & Hno & H1 & H2 & H3 & H4).
      exists evs. split; [exact Hno|]. right. exists cm, row. repeat split; assumption.
Qed.

Lemma persisted_message_stamped_by_server_witness :
  validateMessage sampleStore quietEnv samplePeerMsg (ClientConnection.UserID connA) = None /\
  exists row evs,
    routeMessage sampleMarshal connA quietEnv sampleStore samplePeerMsg
      = (set_peer_messages sampleStore (peer_messages sampleStore ++ [row]),
         DBCreatePeer row :: evs) /\
    forallb (fun e => negb (isCreate e)) evs = true /\
    PeerMessage.SenderID row = 10 /\
    PeerMessage.CreatedAt row = now quietEnv.
Proof.
  split; [reflexivity|].
  destruct (persisted_message_stamped_by_server sampleMarshal connA quietEnv sampleStore
              samplePeerMsg eq_refl) as (_ & _ & H).
  destruct (H eq_refl) as (evs & Hno & [(pm & row & _ & _ & HR & HS & HC & _)
                                       |(cm & row & HT & _)]).
  - exists row, evs. repeat split; assumption.
  - discriminate HT.
Defined.

(** The row a client's own stamps cannot alter, on the sample run. *)
Example samplePeerMsg_row :
  peer_messages (fst (routeMessage sampleMarshal connA quietEnv sampleStore samplePeerMsg))
  = [PeerMessage.mk 1 10 20 "hi" 1700000000000000000%Z].
Proof. reflexivity. Qed.

(** ** Channel notifications *)

Lemma count_occ_FormatUint (members : list Client.t) (u : uint) :
  count_occ string_dec (map (fun m => FormatUint (Client.UserID m)) members) (FormatUint u)
  = List.length (filter (fun m => Client.UserID m =? u) members).
Proof.
  induction members as [|m rest IH]; [reflexivity|].
  cbn [map filter count_occ].
  destruct (string_dec (FormatUint (Client.UserID m)) (FormatUint u)) as [E|E].
  - apply FormatUint_inj in E. rewrite E, N.eqb_refl. cbn. now rewrite IH.
  - destruct (Client.UserID m =? u) eqn:E'; [|exact IH].
    apply N.eqb_eq in E'. now rewrite E' in E.
Qed.

Lemma filter_filter_user (members : list Client.t) (sender u : uint) :
  List.length (filter (fun m => Client.UserID m =? u)
                 (filter (fun m => negb (Client.UserID m =? sender)) members))
  = if u =? sender then 0%nat
    else List.length (filter (fun m => Client.UserID m =? u) members).
Proof.
  induction members as [|m rest IH]; cbn [filter].
  - now destruct (u =? sender).
  - destruct (Client.UserID m =? sender) eqn:Es; cbn [negb].
    + rewrite IH. destruct (u =? sender) eqn:Eu; [reflexivity|].
      destruct (Client.UserID m =? u) eqn:Em; [|reflexivity].
      apply N.eqb_eq in Es, Em. apply N.eqb_neq in Eu. congruence.
    + cbn [filter]. destruct (Client.UserID m =? u) eqn:Em.
      * cbn [List.length]. rewrite IH.
        destruct (u =? sender) eqn:Eu; [|reflexivity].
        apply N.eqb_eq in Eu, Em. apply N.eqb_neq in Es. congruence.
      * exact IH.
Qed.

Lemma valid_channel_message_channel_exists db env wsMsg uid cm :
  validateMessage db env wsMsg uid = None ->
  Type_ wsMsg = ChannelMessageType ->
  ChannelMsg wsMsg = Some cm ->
  exists channel,
    firstChannel db (ChannelMessage.ChannelID cm) = Some channel /\
    Channel.ID channel = ChannelMessage.ChannelID cm.
Proof.
  intros Hv HT HC.
  destruct (validateMessage_ok _ _ _ _ Hv) as [(HT' & _)|(_ & cm' & HC' & _ & _ & _ & Hrows)].
  { rewrite HT in HT'. discriminate HT'. }
  rewrite HC in HC'. injection HC' as <-.
  destruct (adminJoinRows db (ChannelMessage.ChannelID cm) uid) as [|r rs] eqn:E;
    [now contradiction Hrows|].
  assert (HL : listedAsAdmin db (ChannelMessage.ChannelID cm) uid).
  { apply (adminJoinRows_listed _ _ _ r). rewrite E. now left. }
  destruct HL as [Hch _].
  destruct (firstChannel db (ChannelMessage.ChannelID cm)) as [channel|] eqn:EF;
    [|now contradiction Hch].
  exists channel. split; [reflexivity|].
  unfold firstChannel in EF. apply find_some in EF as [_ EF]. now apply N.eqb_eq in EF.
Qed.

(** C5, as the code has it: for a channel message that was persisted and
    whose channel row and member list were then read without a store error,
    one notification goroutine is spawned for each member row whose user
    differs from the sender, in member order, and none for the sender: the
    number of dispatches to a user is 0 for the sender and the number of
    member rows of that user otherwise. *)
Theorem channel_notification_fanout :
  forall jm client env db wsMsg cm,
    validateMessage db env wsMsg (ClientConnection.UserID client) = None ->
    Type_ wsMsg = ChannelMessageType ->
    ChannelMsg wsMsg = Some cm ->
    fail_create env = false ->
    fail_channel_lookup env = false ->
    fail_members env = false ->
    (exists row,
       channel_messages (fst (routeMessage jm client env db wsMsg))
       = channel_messages db ++ [row]) /\
    notifyRecipients (snd (routeMessage jm client env db wsMsg))
    = map (fun m => FormatUint (Client.UserID m))
          (filter (fun m => negb (Client.UserID m =? ClientConnection.UserID client))
                  (channelMembers db (ChannelMessage.ChannelID cm))) /\
    (forall u,
       count_occ string_dec (notifyRecipients (snd (routeMessage jm client env db wsMsg)))
                 (FormatUint u)
       = if u =? ClientConnection.UserID client then 0%nat
         else List.length (filter (fun m => Client.UserID m =? u)
                                  (channelMembers db (ChannelMessage.ChannelID cm)))).
Proof.
  intros jm client env db wsMsg cm Hv HT HC Hcreate Hlookup Hmembers.
  destruct (valid_channel_message_channel_exists _ _ _ _ _ Hv HT HC) as (channel & Hch & Hid).
  assert (HR : exists row evs0 frame,
             routeMessage jm client env db wsMsg
             = (set_channel_messages db (channel_messages db ++ [row]),
                DBCreateChannel row
                :: senderInfoLog env (set_channel_messages db (channel_messages db ++ [row]))
                                 (ClientConnection.UserID client)
                ++ evs0 ++ [BroadcastToChannel (ChannelMessage.ChannelID cm) frame]) /\
             notifyRecipients evs0
             = map (fun m => FormatUint (Client.UserID m))
                   (filter (fun m => negb (Client.UserID m =? ClientConnection.UserID client))
                           (channelMembers db (ChannelMessage.ChannelID cm)))).
  { unfold routeMessage. rewrite Hv, HT, HC.
    cbn [String.eqb Ascii.eqb Bool.eqb PeerMessageType ChannelMessageType].
    unfold createChannelMessage. rewrite Hcreate, Hlookup, Hmembers.
    cbn [ChannelMessage.ChannelID ChannelMessage.Content].
    change (firstChannel (set_channel_messages db ?x) ?c) with (firstChannel db c).
    rewrite Hch.
    change (channelMembers (set_channel_messages db ?x) ?c) with (channelMembers db c).
    rewrite Hid.
    eexists; eexists; eexists. split; [reflexivity|].
    apply channelNotifications_recipients. }
  destruct HR as (row & evs0 & frame & HR & Hrec).
  rewrite HR. cbn [fst snd].
  assert (Hall : notifyRecipients
                   (DBCreateChannel row
                    :: senderInfoLog env (set_channel_messages db (channel_messages db ++ [row]))
                                     (ClientConnection.UserID client)
                    ++ evs0 ++ [BroadcastToChannel (ChannelMessage.ChannelID cm) frame])
                 = notifyRecipients evs0).
  { change (notifyRecipients (?e :: ?l)) with (notifyRecipients [e] ++ notifyRecipients l).
    rewrite !notifyRecipients_app, (proj2 (senderInfoLog_no_notify _ _ _)).
    cbn. now rewrite app_nil_r. }
  rewrite Hall, Hrec.
  split; [now exists row|]. split; [reflexivity|].
  intros u. now rewrite count_occ_FormatUint, filter_filter_user.
Qed.

Lemma channel_notification_fanout_witness :
  (exists row,
     channel_messages (fst (routeMessage sampleMarshal connA quietEnv sampleStore sampleChannelMsg))
     = channel_messages sampleStore ++ [row]) /\
  notifyRecipients (snd (routeMessage sampleMarshal connA quietEnv sampleStore sampleChannelMsg))
  = map (fun m => FormatUint (Client.UserID m))
        (filter (fun m => negb (Client.UserID m =? ClientConnection.UserID connA))
                (channelMembers sampleStore 1)) /\
  (forall u,
     count_occ string_dec
       (notifyRecipients (snd (routeMessage sampleMarshal connA quietEnv sampleStore sampleChannelMsg)))
       (FormatUint u)
     = if u =? ClientConnection.UserID connA then 0%nat
       else List.length (filter (fun m => Client.UserID m =? u) (channelMembers sampleStore 1))).
Proof.
  apply (channel_notification_fanout sampleMarshal connA quietEnv sampleStore sampleChannelMsg
           (ChannelMessage.mk 0 1 99 "hello" 5%Z)); reflexivity.
Defined.

(** On the sample store (admin 10, members 10, 20, 30) the dispatches go to
    20 and 30, once each. *)
Example sample_channel_dispatches :
  notifyRecipients (snd (routeMessage sampleMarshal connA quietEnv sampleStore sampleChannelMsg))
  = ["20"; "30"]%string.
Proof. reflexivity. Qed.

(** C5 as stated fails: with a store error on the channel lookup that
    follows the insertion, the message of admin 10 is persisted, user 20 is a
    member other than the sender, and no notification is dispatched to user
    20 (nor is the message broadcast). *)
Lemma channel_notification_skipped_on_lookup_error :
  validateMessage sampleStore channelLookupFailsEnv sampleChannelMsg
    (ClientConnection.UserID connA) = None /\
  channel_messages
    (fst (routeMessage sampleMarshal connA channelLookupFailsEnv sampleStore sampleChannelMsg))
  = [ChannelMessage.mk 1 1 10 "hello" 1700000000000000000%Z] /\
  In (Client.mk 2 20)
     (channelMembers
        (fst (routeMessage sampleMarshal connA channelLookupFailsEnv sampleStore sampleChannelMsg))
        1) /\
  20 <> ClientConnection.UserID connA /\
  count_occ string_dec
    (notifyRecipients
       (snd (routeMessage sampleMarshal connA channelLookupFailsEnv sampleStore sampleChannelMsg)))
    (FormatUint 20) = 0%nat /\
  snd (routeMessage sampleMarshal connA channelLookupFailsEnv sampleStore sampleChannelMsg)
  = [DBCreateChannel (ChannelMessage.mk 1 1 10 "hello" 1700000000000000000%Z);
     Log LogChannelInfoError].
Proof.
  split; [reflexivity|]. split; [reflexivity|].
  split; [cbn; tauto|]. split; [discriminate|]. split; reflexivity.
Qed.

(** ** The notification sender *)

(** C9: when the device lookup of the recipient returns no row,
    [SendUserNotification] returns [(true, nil)], calls the provider not at
    all and leaves the store as it was, so writes no history record. *)
Theorem no_devices_no_notification :
  forall tokenCheck publish marshalData env db userID title body data,
    fail_find_devices env = None ->
    filter (fun d => (Device.UserID d =? userID)%string) (devices db) = [] ->
    SendUserNotification tokenCheck publish marshalData env db userID title body data
    = (db, [], (true, None)).
Proof.
  intros tokenCheck publish marshalData env db userID title body data Hfind Hnone.
  unfold SendUserNotification. now rewrite Hfind, Hnone.
Qed.

Lemma no_devices_no_notification_witness :
  SendUserNotification sampleTokenCheck rejectingProvider sampleMarshalData quietPushEnv
    sampleStore "20" "New message from User 10" "hi" None
  = (sampleStore, [], (true, None)).
Proof.
  apply (no_devices_no_notification sampleTokenCheck rejectingProvider sampleMarshalData
           quietPushEnv sampleStore "20" "New message from User 10" "hi" None); reflexivity.
Defined.

Lemma convertTokens_all_well_formed tokenCheck tokens :
  Forall (fun t => tokenCheck t <> None) tokens ->
  snd (fst (convertTokens tokenCheck tokens)) = [].
Proof.
  induction 1 as [|t rest Ht _ IH]; [reflexivity|].
  cbn [convertTokens].
  destruct (convertTokens tokenCheck rest) as [[pushTokens invalidTokens] evs].
  cbn [fst snd] in IH. subst invalidTokens.
  destruct (tokenCheck t); [reflexivity|now contradiction Ht].
Qed.

(** Whatever the provider answers, a dispatch to well-formed tokens deletes
    no device registration. *)
Lemma well_formed_tokens_never_purged tokenCheck publish env db tokens title body data :
  Forall (fun t => tokenCheck t <> None) tokens ->
  devices (fst (fst (sendExpoNotificationSDK tokenCheck publish env db tokens title body data)))
  = devices db.
Proof.
  intros Hwf. unfold sendExpoNotificationSDK.
  pose proof (convertTokens_all_well_formed tokenCheck tokens Hwf) as Hinv.
  destruct (convertTokens tokenCheck tokens) as [[pushTokens invalidTokens] evs].
  cbn [fst snd] in Hinv. subst invalidTokens.
  destruct pushTokens as [|p ps]; [reflexivity|].
  destruct (publish _) as [err|[validationErr|]]; reflexivity.
Qed.

(** C7 fails on the code.  User 20 has one device whose token is
    well-formed; the provider reports the destination as not registered.
    [SendUserNotification] returns the validation failure and records it in
    the history, but the only tokens it hands to [cleanupInvalidTokens] are
    those that failed the local format check, so the reported token's
    registration is still in the store and the next dispatch uses it again.
    A token that fails the format check is not purged either when no token of
    the user passes it: the function returns before any cleanup. *)
Theorem stale_token_not_purged :
  (let '(db', evs, result) :=
     SendUserNotification sampleTokenCheck rejectingProvider sampleMarshalData quietPushEnv
       staleDeviceStore "20" "New message from User 10" "hi" None in
   result = (false, Some "notification validation failed: DeviceNotRegistered"%string) /\
   devices db' = [Device.mk "20" "ExponentPushToken[stale]"] /\
   evs = [Published (PushMessage.mk ["ExponentPushToken[stale]"%string] "hi"
                       "New message from User 10" "default" "default" None);
          LogValidationError "DeviceNotRegistered"] /\
   List.length (notification_histories db') = 1%nat) /\
  (let '(db', evs, result) :=
     SendUserNotification sampleTokenCheck rejectingProvider sampleMarshalData quietPushEnv
       malformedDeviceStore "20" "New message from User 10" "hi" None in
   result = (false, Some "no valid push tokens found"%string) /\
   devices db' = [Device.mk "20" "not-a-token"] /\
   evs = [LogInvalidFormat "not-a-token"]).
Proof. split; vm_compute; repeat split; reflexivity. Qed.

(** ** Channel administration *)

Lemma NoDup_map_inj {A B : Type} (f : A -> B) (l : list A) (a b : A) :
  NoDup (map f l) -> In a l -> In b l -> f a = f b -> a = b.
Proof.
  induction l as [|x l IH]; cbn [map]; intros Hnd Ha Hb Hf; [destruct Ha|].
  inversion Hnd as [|y ys Hnotin Hnd']; subst.
  destruct Ha as [->|Ha], Hb as [->|Hb].
  - reflexivity.
  - exfalso. apply Hnotin. rewrite Hf. now apply in_map.
  - exfalso. apply Hnotin. rewrite <- Hf. now apply in_map.
  - now apply IH.
Qed.

(** Under the table invariant, [FirstOrCreate] for a user who has a row
    returns that row and creates nothing. *)
Lemma firstOrCreateClient_existing db uid cl :
  clientsWellFormed db ->
  In cl (clients db) ->
  Client.UserID cl = uid ->
  firstOrCreateClient db uid = (db, cl).
Proof.
  intros [Hnd Hzero] Hin Hu. unfold firstOrCreateClient.
  destruct (uid =? 0) eqn:E0.
  - apply N.eqb_eq in E0.
    destruct (clients db) as [|c0 rest] eqn:EC; [destruct Hin|].
    cbn [hd_error]. destruct Hin as [->|Hin]; [reflexivity|].
    exfalso. apply (Hzero cl Hin). congruence.
  - destruct (find (fun c => Client.UserID c =? uid) (clients db)) as [c'|] eqn:EF.
    + apply find_some in EF as [Hin' Hu']. apply N.eqb_eq in Hu'.
      rewrite (NoDup_map_inj Client.UserID (clients db) c' cl Hnd Hin' Hin); congruence.
    + pose proof (find_none _ _ EF cl Hin) as H. cbn in H.
      rewrite Hu, N.eqb_refl in H. discriminate H.
Qed.

Lemma adminRowCount_pos db channel cl :
  In channel (channels db) ->
  existsb (pair_eqb (Channel.ID channel, Client.ID cl)) (channel_admins db) = true ->
  (0 <? adminRowCount db channel cl) = true.
Proof.
  intros Hch Hadm. apply N.ltb_lt. unfold adminRowCount.
  apply existsb_exists in Hadm as (adm & Hadm & Heq).
  assert (Hin : In adm
            (flat_map (fun _ : Channel.t =>
                         filter (pair_eqb (Channel.ID channel, Client.ID cl)) (channel_admins db))
                      (filter (fun ch => Channel.ID ch =? Channel.ID channel) (channels db)))).
  { apply in_flat_map. exists channel. split.
    - apply filter_In. split; [exact Hch|apply N.eqb_refl].
    - apply filter_In. now split. }
  destruct (flat_map _ _) as [|x xs]; [destruct Hin|]. cbn [List.length]. lia.
Qed.

(** On a clients table that holds one row per user (a row of the zero user
    being the first row), a call of [AddChannelAdmin] for a channel and a
    user already in that channel's admin set leaves the store as it was and
    does not succeed; when the three lookups of the handler meet no store
    error, the response is status 400 with the text
    ["User is already an admin"]. *)
Theorem add_existing_admin_rejected :
  forall f db r channelID userID,
    clientsWellFormed db ->
    ParseUint32 (path_id r) = Some channelID ->
    body_user_id r = Some userID ->
    listedAsAdmin db channelID userID ->
    fst (AddChannelAdmin f db r) = db /\
    List.length (channelAdmins (fst (AddChannelAdmin f db r)) channelID)
    = List.length (channelAdmins db channelID) /\
    StatusCode (snd (AddChannelAdmin f db r)) <> 200 /\
    (fail_first_channel f = false -> fail_first_or_create f = false -> fail_count f = false ->
       snd (AddChannelAdmin f db r) = mkResponse 400 (ErrorText "User is already an admin")).
Proof.
  intros f db r channelID userID Hwf Hid Hbody [Hch Hadm].
  destruct (firstChannel db channelID) as [channel|] eqn:EF; [|now contradiction Hch].
  pose proof EF as EF'. unfold firstChannel in EF'.
  apply find_some in EF' as [Hin Hcid]. apply N.eqb_eq in Hcid.
  apply in_map_iff in Hadm as (cl & Hu & Hcl).
  unfold channelAdmins in Hcl. apply filter_In in Hcl as [Hcl Hrow].
  rewrite <- Hcid in Hrow.
  pose proof (firstOrCreateClient_existing db userID cl Hwf Hcl Hu) as HFC.
  pose proof (adminRowCount_pos db channel cl Hin Hrow) as Hcount.
  assert (HS : fst (AddChannelAdmin f db r) = db /\
               StatusCode (snd (AddChannelAdmin f db r)) <> 200 /\
               (fail_first_channel f = false -> fail_first_or_create f = false ->
                fail_count f = false ->
                snd (AddChannelAdmin f db r)
                = mkResponse 400 (ErrorText "User is already an admin"))).
  { unfold AddChannelAdmin. rewrite Hid, Hbody.
    destruct (fail_first_channel f);
      [cbn; repeat split; try discriminate|].
    rewrite EF.
    destruct (fail_first_or_create f);
      [cbn; repeat split; try discriminate|].
    rewrite HFC.
    destruct (fail_count f);
      [cbn; repeat split; try discriminate|].
    rewrite Hcount. cbn. repeat split; try discriminate. }
  destruct HS as (HS1 & HS2 & HS3).
  rewrite HS1. repeat split; assumption.
Qed.

Lemma add_existing_admin_rejected_witness :
  fst (AddChannelAdmin noFaults sampleStore (mkAdminRequest "1" (Some 10))) = sampleStore /\
  List.length (channelAdmins
                 (fst (AddChannelAdmin noFaults sampleStore (mkAdminRequest "1" (Some 10)))) 1)
  = List.length (channelAdmins sampleStore 1) /\
  StatusCode (snd (AddChannelAdmin noFaults sampleStore (mkAdminRequest "1" (Some 10)))) <> 200 /\
  snd (AddChannelAdmin noFaults sampleStore (mkAdminRequest "1" (Some 10)))
  = mkResponse 400 (ErrorText "User is already an admin").
Proof.
  assert (Hwf : clientsWellFormed sampleStore).
  { split.
    - cbn. repeat constructor; cbn; intuition discriminate.
    - cbn. intros cl [<-|[<-|[]]]; discriminate. }
  assert (Hadm : listedAsAdmin sampleStore 1 10).
  { split; [discriminate|]. cbn. now left. }
  destruct (add_existing_admin_rejected noFaults sampleStore (mkAdminRequest "1" (Some 10)) 1 10
              Hwf eq_refl eq_refl Hadm) as (H1 & H2 & H3 & H4).
  split; [exact H1|]. split; [exact H2|]. split; [exact H3|].
  exact (H4 eq_refl eq_refl eq_refl).
Defined.




(** [AddChannelAdmin] keeps the invariant of the clients table. *)
Lemma firstOrCreateClient_wf db uid :
  clientsWellFormed db -> clientsWellFormed (fst (firstOrCreateClient db uid)).
Proof.
  intros [Hnd Hzero]. unfold firstOrCreateClient.
  destruct (uid =? 0) eqn:E0.
  - destruct (clients db) as [|c0 rest] eqn:EC; cbn [hd_error fst].
    + unfold clientsWellFormed. cbn.
      split; [repeat constructor; intros []|intros cl []].
    + unfold clientsWellFormed. rewrite EC. split; assumption.
  - apply N.eqb_neq in E0.
    destruct (find (fun c => Client.UserID c =? uid) (clients db)) as [c'|] eqn:EF;
      cbn [fst]; [split; assumption|].
    unfold clientsWellFormed. cbn [clients set_clients].
    split.
    + rewrite map_app. cbn [map Client.UserID].
      apply NoDup_app; [exact Hnd | repeat constructor; intros [] |].
      intros u Hin [<-|[]]. apply in_map_iff in Hin as (c & Hc & Hin).
      pose proof (find_none _ _ EF c Hin) as H. cbn in H.
      rewrite Hc, N.eqb_refl in H. discriminate H.
    + intros cl Hin. destruct (clients db) as [|c0 rest]; [destruct Hin|].
      cbn [app tl] in Hin. apply in_app_or in Hin as [Hin|[<-|[]]].
      * now apply Hzero.
      * exact E0.
Qed.

Lemma AddChannelAdmin_wf f db r :
  clientsWellFormed db -> clientsWellFormed (fst (AddChannelAdmin f db r)).
Proof.
  intros Hwf. unfold AddChannelAdmin.
  destruct (ParseUint32 (path_id r)) as [channelID|]; [|exact Hwf].
  destruct (body_user_id r) as [userID|]; [|exact Hwf].
  destruct (if fail_first_channel f then None else firstChannel db channelID) as [channel|];
    [|exact Hwf].
  destruct (fail_first_or_create f); [exact Hwf|].
  pose proof (firstOrCreateClient_wf db userID Hwf) as Hwf1.
  destruct (firstOrCreateClient db userID) as [tx1 client]. cbn [fst] in Hwf1.
  destruct (fail_count f); [exact Hwf|].
  destruct (0 <? adminRowCount tx1 channel client); [exact Hwf|].
  destruct (fail_insert f); [exact Hwf|].
  destruct (fail_commit f); [exact Hwf|].
  destruct (fail_find_admins f); exact Hwf1.
Qed.

Lemma find_app_last {A : Type} (p : A -> bool) (l : list A) (x : A) :
  find p l = None -> p x = true -> find p (l ++ [x]) = Some x.
Proof.
  induction l as [|a l IH]; cbn; intros Hn Hx; [now rewrite Hx|].
  destruct (p a); [discriminate Hn|]. now apply IH.
Qed.

(** A second [FirstOrCreate] for the same user returns the row of the
    first. *)
Lemma firstOrCreateClient_again db uid tx1 cl admins :
  firstOrCreateClient db uid = (tx1, cl) ->
  firstOrCreateClient (set_channel_admins tx1 admins) uid = (set_channel_admins tx1 admins, cl).
Proof.
  unfold firstOrCreateClient. intros H.
  destruct (uid =? 0) eqn:E0.
  - destruct (clients db) as [|c0 rest] eqn:EC; cbn [hd_error] in H;
      injection H as <- <-; cbn [clients set_channel_admins set_clients].
    + reflexivity.
    + rewrite EC. reflexivity.
  - destruct (find (fun c => Client.UserID c =? uid) (clients db)) as [c'|] eqn:EF;
      injection H as <- <-; cbn [clients set_channel_admins set_clients].
    + now rewrite EF.
    + rewrite (find_app_last _ _ _ EF); [reflexivity|]. cbn. apply N.eqb_refl.
Qed.

(** The scenario of two calls: after a call that succeeded, a second call
    with the same request whose lookups meet no store error is answered 400
    ["User is already an admin"] and leaves the store as the first call left
    it. *)
Lemma AddChannelAdmin_twice f f' db r :
  StatusCode (snd (AddChannelAdmin f db r)) = 200 ->
  fail_first_channel f' = false -> fail_first_or_create f' = false -> fail_count f' = false ->
  AddChannelAdmin f' (fst (AddChannelAdmin f db r)) r
  = (fst (AddChannelAdmin f db r), mkResponse 400 (ErrorText "User is already an admin")).
Proof.
  intros Hok H1 H2 H3. unfold AddChannelAdmin in Hok |- *.
  destruct (ParseUint32 (path_id r)) as [channelID|]; [|discriminate Hok].
  destruct (body_user_id r) as [userID|]; [|discriminate Hok].
  destruct (fail_first_channel f); [discriminate Hok|].
  destruct (firstChannel db channelID) as [channel|] eqn:EF; [|discriminate Hok].
  destruct (fail_first_or_create f); [discriminate Hok|].
  destruct (firstOrCreateClient db userID) as [tx1 client] eqn:EC.
  destruct (fail_count f); [discriminate Hok|].
  destruct (0 <? adminRowCount tx1 channel client); [discriminate Hok|].
  destruct (fail_insert f); [discriminate Hok|].
  destruct (fail_commit f); [discriminate Hok|].
  assert (Hch : firstChannel
                  (set_channel_admins tx1
                     (channel_admins tx1 ++ [(Channel.ID channel, Client.ID client)]))
                  channelID = Some channel).
  { unfold firstChannel. cbn [channels set_channel_admins].
    unfold firstOrCreateClient in EC.
    destruct (if userID =? 0 then _ else _); injection EC as <- _; exact EF. }
  assert (Hcount : (0 <? adminRowCount
                           (set_channel_admins tx1
                              (channel_admins tx1 ++ [(Channel.ID channel, Client.ID client)]))
                           channel client) = true).
  { apply adminRowCount_pos.
    - unfold firstChannel in Hch. now apply find_some in Hch as [Hin _].
    - cbn [channel_admins set_channel_admins]. rewrite existsb_app. cbn.
      unfold pair_eqb. cbn. rewrite !N.eqb_refl. cbn. apply orb_true_r. }
  destruct (fail_find_admins f); [discriminate Hok|].
  cbn [fst]. rewrite H1, Hch, H2, (firstOrCreateClient_again _ _ _ _ _ EC), H3, Hcount.
  reflexivity.
Qed.

(** ** Sample runs *)

(** A frame that does not decode, then a read error. *)
Example sample_read_loop :
  handleClientMessages (sampleUnmarshal samplePeerMsg) sampleMarshal connA
    [(ReadMessage [], quietEnv); (ReadError true, quietEnv)] sampleStore
  = (sampleStore,
     [Log LogUnmarshalError; Log LogReadError; Unregister connA; ConnClose connA],
     Exited).
Proof. reflexivity. Qed.

(** The registration the provider rejected is used again by the next
    dispatch. *)
Example stale_token_dispatched_again :
  let '(db1, _, _) :=
    SendUserNotification sampleTokenCheck rejectingProvider sampleMarshalData quietPushEnv
      staleDeviceStore "20" "New message from User 10" "hi" None in
  let '(_, evs, _) :=
    SendUserNotification sampleTokenCheck rejectingProvider sampleMarshalData quietPushEnv
      db1 "20" "New message from User 10" "again" None in
  In (Published (PushMessage.mk ["ExponentPushToken[stale]"%string] "again"
                   "New message from User 10" "default" "default" None)) evs.
Proof. vm_compute. now left. Qed.

(** * Further properties of the handlers *)

(** ** Validation, in both directions *)

Lemma listedAsAdmin_adminJoinRows db cid uid :
  listedAsAdmin db cid uid -> adminJoinRows db cid uid <> [].
Proof.
  intros [Hch Hin].
  destruct (firstChannel db cid) as [ch|] eqn:EF; [|now contradiction Hch].
  unfold firstChannel in EF. apply find_some in EF as [Hchin Hid]. apply N.eqb_eq in Hid.
  apply in_map_iff in Hin as (cl & Hu & Hcl).
  unfold channelAdmins in Hcl. apply filter_In in Hcl as [Hcl Hrow].
  apply existsb_exists in Hrow as ([a b] & Hadm & Heq).
  unfold pair_eqb in Heq. cbn [fst snd] in Heq.
  apply andb_true_iff in Heq as [E1 E2]. apply N.eqb_eq in E1, E2.
  assert (Hrowin : In (ch, (a, b), cl) (adminJoinRows db cid uid)).
  { unfold adminJoinRows.
    apply in_flat_map. exists ch. split; [exact Hchin|].
    apply in_flat_map. exists (a, b). split; [exact Hadm|].
    apply in_flat_map. exists cl. split; [exact Hcl|].
    cbn [fst snd]. rewrite <- E1, <- E2, Hid, Hu, !N.eqb_refl. now left. }
  intros Hnil. rewrite Hnil in Hrowin. destruct Hrowin.
Qed.

Lemma listedAsAdmin_iff_rows db cid uid :
  listedAsAdmin db cid uid <-> adminJoinRows db cid uid <> [].
Proof.
  split; [apply listedAsAdmin_adminJoinRows|].
  intros Hne. destruct (adminJoinRows db cid uid) as [|row rows] eqn:E; [now contradiction Hne|].
  apply (adminJoinRows_listed db cid uid row). rewrite E. now left.
Qed.

Lemma validateMessage_accepts db env wsMsg uid :
  validateMessage db env wsMsg uid = None <->
  ((Type_ wsMsg = PeerMessageType /\
    exists pm, PeerMsg wsMsg = Some pm /\
               PeerMessage.ReceiverID pm <> 0 /\ PeerMessage.Content pm <> ""%string)
   \/
   (Type_ wsMsg = ChannelMessageType /\
    exists cm, ChannelMsg wsMsg = Some cm /\
               ChannelMessage.ChannelID cm <> 0 /\ ChannelMessage.Content cm <> ""%string /\
               fail_admin_count env = false /\
               listedAsAdmin db (ChannelMessage.ChannelID cm) uid)).
Proof.
  split.
  - intros H. destruct (validateMessage_ok _ _ _ _ H)
      as [Hp|(HT & cm & HC & H1 & H2 & H3 & H4)]; [now left|].
    right. split; [exact HT|]. exists cm.
    refine (conj HC (conj H1 (conj H2 (conj H3 _)))).
    now apply listedAsAdmin_iff_rows.
  - intros [(HT & pm & HP & H1 & H2)|(HT & cm & HC & H1 & H2 & H3 & H4)];
      unfold validateMessage; rewrite HT.
    + cbn [String.eqb Ascii.eqb Bool.eqb PeerMessageType]. rewrite HP.
      apply N.eqb_neq in H1. apply String.eqb_neq in H2. now rewrite H1, H2.
    + cbn [String.eqb Ascii.eqb Bool.eqb PeerMessageType ChannelMessageType]. rewrite HC.
      apply N.eqb_neq in H1. apply String.eqb_neq in H2. rewrite H1, H2, H3.
      apply listedAsAdmin_adminJoinRows in H4.
      destruct (adminJoinRows db (ChannelMessage.ChannelID cm) uid); [now contradiction H4|].
      reflexivity.
Qed.

(** X1: [validateMessage] accepts exactly the peer envelopes that carry a
    payload with a non-zero receiver and a non-empty content, and the channel
    envelopes that carry a payload with a non-zero channel and a non-empty
    content whose sender is listed in the channel's persisted admin set, the
    admin count query having met no store error. *)
Theorem validateMessage_accepts_exactly :
  forall db env wsMsg uid,
    validateMessage db env wsMsg uid = None <->
    ((Type_ wsMsg = PeerMessageType /\
      exists pm, PeerMsg wsMsg = Some pm /\
                 PeerMessage.ReceiverID pm <> 0 /\ PeerMessage.Content pm <> ""%string)
     \/
     (Type_ wsMsg = ChannelMessageType /\
      exists cm, ChannelMsg wsMsg = Some cm /\
                 ChannelMessage.ChannelID cm <> 0 /\ ChannelMessage.Content cm <> ""%string /\
                 fail_admin_count env = false /\
                 listedAsAdmin db (ChannelMessage.ChannelID cm) uid)).
Proof. exact validateMessage_accepts. Qed.

(** ** What a valid message sets off *)

Lemma senderInfoLog_quiet env db uid :
  filter persistsOrFansOut (senderInfoLog env db uid) = [] /\
  forallb (fun e => negb (isBroadcast e)) (senderInfoLog env db uid) = true /\
  (forall jm client, Forall (sendsOnlyErrorsTo jm client) (senderInfoLog env db uid)).
Proof.
  unfold senderInfoLog.
  destruct (fail_sender_lookup env);
    [|destruct (firstClientByUser db uid)];
    (split; [reflexivity|split; [reflexivity|intros; repeat constructor]]).
Qed.

Lemma channelNotifications_quiet sender channelName senderName content data members :
  forallb (fun e => negb (isBroadcast e))
          (channelNotifications sender channelName senderName content data members) = true /\
  (forall jm client,
      Forall (sendsOnlyErrorsTo jm client)
             (channelNotifications sender channelName senderName content data members)).
Proof.
  induction members as [|m rest [IH1 IH2]]; cbn [channelNotifications].
  - split; [reflexivity|constructor].
  - destruct (Client.UserID m =? sender); [now split|].
    split; [exact IH1|]. intros jm client. constructor; [exact I|apply IH2].
Qed.

Lemma routeMessage_peer_ok jm client env db wsMsg pm :
  validateMessage db env wsMsg (ClientConnection.UserID client) = None ->
  Type_ wsMsg = PeerMessageType ->
  PeerMsg wsMsg = Some pm ->
  fail_create env = false ->
  exists row data,
    PeerMessage.SenderID row = ClientConnection.UserID client /\
    PeerMessage.ReceiverID row = PeerMessage.ReceiverID pm /\
    PeerMessage.Content row = PeerMessage.Content pm /\
    PeerMessage.CreatedAt row = now env /\
    routeMessage jm client env db wsMsg
    = (set_peer_messages db (peer_messages db ++ [row]),
       DBCreatePeer row
       :: senderInfoLog env (set_peer_messages db (peer_messages db ++ [row]))
                        (ClientConnection.UserID client)
       ++ [Notify (FormatUint (PeerMessage.ReceiverID pm))
                  ("New message from User " ++ FormatUint (ClientConnection.UserID client))%string
                  (peerPreview (PeerMessage.Content pm)) data;
           BroadcastToUser (PeerMessage.ReceiverID pm)
             (marshalIgnoringError jm (mkWS PeerMessageType (Some row) (ChannelMsg wsMsg)))]).
Proof.
  intros Hv HT HP Hf. unfold routeMessage. rewrite Hv, HT, HP.
  cbn [String.eqb Ascii.eqb Bool.eqb PeerMessageType].
  unfold createPeerMessage. rewrite Hf.
  eexists; eexists. split; [|split; [|split; [|split]]]; [| | | |reflexivity]; reflexivity.
Qed.

Lemma routeMessage_channel_ok jm client env db wsMsg cm :
  validateMessage db env wsMsg (ClientConnection.UserID client) = None ->
  Type_ wsMsg = ChannelMessageType ->
  ChannelMsg wsMsg = Some cm ->
  fail_create env = false ->
  exists row,
    ChannelMessage.SenderID row = ClientConnection.UserID client /\
    ChannelMessage.ChannelID row = ChannelMessage.ChannelID cm /\
    ChannelMessage.Content row = ChannelMessage.Content cm /\
    ChannelMessage.CreatedAt row = now env /\
    fst (routeMessage jm client env db wsMsg)
    = set_channel_messages db (channel_messages db ++ [row]) /\
    ((fail_channel_lookup env = true ->
        snd (routeMessage jm client env db wsMsg)
        = [DBCreateChannel row; Log LogChannelInfoError]) /\
     (fail_channel_lookup env = false -> fail_members env = true ->
        snd (routeMessage jm client env db wsMsg)
        = DBCreateChannel row
          :: senderInfoLog env (set_channel_messages db (channel_messages db ++ [row]))
                           (ClientConnection.UserID client)
          ++ [Log LogMembersError]) /\
     (fail_channel_lookup env = false -> fail_members env = false ->
        exists channelName data,
          snd (routeMessage jm client env db wsMsg)
          = DBCreateChannel row
            :: senderInfoLog env (set_channel_messages db (channel_messages db ++ [row]))
                             (ClientConnection.UserID client)
            ++ channelNotifications (ClientConnection.UserID client) channelName
                 ("User " ++ FormatUint (ClientConnection.UserID client))%string
                 (ChannelMessage.Content cm) data
                 (channelMembers db (ChannelMessage.ChannelID cm))
            ++ [BroadcastToChannel (ChannelMessage.ChannelID cm)
                  (marshalIgnoringError jm
                     (mkWS ChannelMessageType (PeerMsg wsMsg) (Some row)))])).
Proof.
  intros Hv HT HC Hf.
  destruct (valid_channel_message_channel_exists _ _ _ _ _ Hv HT HC) as (channel & Hch & Hid).
  unfold routeMessage. rewrite Hv, HT, HC.
  cbn [String.eqb Ascii.eqb Bool.eqb PeerMessageType ChannelMessageType].
  unfold createChannelMessage. rewrite Hf.
  cbn [ChannelMessage.ChannelID ChannelMessage.Content].
  change (firstChannel (set_channel_messages db ?x) ?c) with (firstChannel db c).
  rewrite Hch.
  change (channelMembers (set_channel_messages db ?x) ?c) with (channelMembers db c).
  destruct (fail_channel_lookup env) eqn:El; [|destruct (fail_members env) eqn:Em];
    cbv beta iota; try rewrite Hid;
    (eexists; refine (conj _ (conj _ (conj _ (conj _ (conj _ (conj _ (conj _ _)))))));
     [ | | | | cbn [fst snd]; reflexivity | | | ]).
  all: cbn [fst snd]; intros; try congruence; try reflexivity.
  eexists; eexists. reflexivity.
Qed.

(** X2: a valid peer message that the store accepts is persisted once, with
    the connection's user as sender; then one notification goroutine is
    spawned for the receiver, titled with the sender and carrying the
    preview, and the envelope with the stored row is handed to
    [BroadcastToUser] for the receiver, in this order and with no other
    persistence or fan-out. *)
Theorem valid_peer_message_fanout :
  forall jm client env db wsMsg pm,
    validateMessage db env wsMsg (ClientConnection.UserID client) = None ->
    Type_ wsMsg = PeerMessageType ->
    PeerMsg wsMsg = Some pm ->
    fail_create env = false ->
    exists row data,
      PeerMessage.SenderID row = ClientConnection.UserID client /\
      PeerMessage.ReceiverID row = PeerMessage.ReceiverID pm /\
      PeerMessage.Content row = PeerMessage.Content pm /\
      peer_messages (fst (routeMessage jm client env db wsMsg)) = peer_messages db ++ [row] /\
      filter persistsOrFansOut (snd (routeMessage jm client env db wsMsg))
      = [DBCreatePeer row;
         Notify (FormatUint (PeerMessage.ReceiverID pm))
                ("New message from User " ++ FormatUint (ClientConnection.UserID client))%string
                (peerPreview (PeerMessage.Content pm)) data;
         BroadcastToUser (PeerMessage.ReceiverID pm)
           (marshalIgnoringError jm (mkWS PeerMessageType (Some row) (ChannelMsg wsMsg)))].
Proof.
  intros jm client env db wsMsg pm Hv HT HP Hf.
  destruct (routeMessage_peer_ok jm client env db wsMsg pm Hv HT HP Hf)
    as (row & data & H1 & H2 & H3 & _ & HR).
  exists row, data. rewrite HR. cbn [fst snd].
  repeat (split; [assumption|]). split; [reflexivity|].
  cbn [filter persistsOrFansOut]. rewrite filter_app.
  rewrite (proj1 (senderInfoLog_quiet _ _ _)). reflexivity.
Qed.

Lemma valid_peer_message_fanout_witness :
  exists row data,
    PeerMessage.SenderID row = 10 /\
    PeerMessage.ReceiverID row = 20 /\
    PeerMessage.Content row = "hi"%string /\
    peer_messages (fst (routeMessage sampleMarshal connA quietEnv sampleStore samplePeerMsg))
    = peer_messages sampleStore ++ [row] /\
    filter persistsOrFansOut
           (snd (routeMessage sampleMarshal connA quietEnv sampleStore samplePeerMsg))
    = [DBCreatePeer row;
       Notify (FormatUint 20) ("New message from User " ++ FormatUint 10)%string
              (peerPreview "hi") data;
       BroadcastToUser 20
         (marshalIgnoringError sampleMarshal (mkWS PeerMessageType (Some row) None))].
Proof.
  exact (valid_peer_message_fanout sampleMarshal connA quietEnv sampleStore samplePeerMsg
           (PeerMessage.mk 0 99 20 "hi" 5%Z) eq_refl eq_refl eq_refl eq_refl).
Defined.

(** X3: a valid channel message that is persisted and whose channel row and
    member list are read without a store error is handed to
    [BroadcastToChannel] exactly once, for the channel it names, as the last
    event of the iteration (so after every notification goroutine was
    spawned); the broadcast frame encodes the envelope with the stored row,
    whose sender is the connection's user. *)
Theorem valid_channel_message_broadcast :
  forall jm client env db wsMsg cm,
    validateMessage db env wsMsg (ClientConnection.UserID client) = None ->
    Type_ wsMsg = ChannelMessageType ->
    ChannelMsg wsMsg = Some cm ->
    fail_create env = false ->
    fail_channel_lookup env = false ->
    fail_members env = false ->
    exists row evs0,
      ChannelMessage.SenderID row = ClientConnection.UserID client /\
      ChannelMessage.Content row = ChannelMessage.Content cm /\
      snd (routeMessage jm client env db wsMsg)
      = DBCreateChannel row :: evs0
        ++ [BroadcastToChannel (ChannelMessage.ChannelID cm)
              (marshalIgnoringError jm (mkWS ChannelMessageType (PeerMsg wsMsg) (Some row)))] /\
      forallb (fun e => negb (isBroadcast e)) evs0 = true.
Proof.
  intros jm client env db wsMsg cm Hv HT HC Hf Hl Hm.
  destruct (routeMessage_channel_ok jm client env db wsMsg cm Hv HT HC Hf)
    as (row & H1 & _ & H3 & _ & _ & _ & _ & Hok).
  destruct (Hok Hl Hm) as (channelName & data & HR).
  exists row. eexists. split; [exact H1|]. split; [exact H3|].
  rewrite HR. split; [rewrite app_assoc; reflexivity|].
  rewrite forallb_app, (proj1 (proj2 (senderInfoLog_quiet _ _ _))).
  now rewrite (proj1 (channelNotifications_quiet _ _ _ _ _ _)).
Qed.

Lemma valid_channel_message_broadcast_witness :
  exists row evs0,
    ChannelMessage.SenderID row = 10 /\
    ChannelMessage.Content row = "hello"%string /\
    snd (routeMessage sampleMarshal connA quietEnv sampleStore sampleChannelMsg)
    = DBCreateChannel row :: evs0
      ++ [BroadcastToChannel 1
            (marshalIgnoringError sampleMarshal (mkWS ChannelMessageType None (Some row)))] /\
    forallb (fun e => negb (isBroadcast e)) evs0 = true.
Proof.
  exact (valid_channel_message_broadcast sampleMarshal connA quietEnv sampleStore
           sampleChannelMsg (ChannelMessage.mk 0 1 99 "hello" 5%Z)
           eq_refl eq_refl eq_refl eq_refl eq_refl eq_refl).
Defined.

(** X4: when the channel lookup or the member lookup that follows the
    insertion of a valid channel message meets a store error, the row stays
    in the store and the iteration ends there: no notification goroutine is
    spawned and nothing is broadcast. *)
Theorem channel_message_persisted_without_fanout :
  forall jm client env db wsMsg cm,
    validateMessage db env wsMsg (ClientConnection.UserID client) = None ->
    Type_ wsMsg = ChannelMessageType ->
    ChannelMsg wsMsg = Some cm ->
    fail_create env = false ->
    fail_channel_lookup env = true \/ fail_members env = true ->
    exists row,
      ChannelMessage.Content row = ChannelMessage.Content cm /\
      channel_messages (fst (routeMessage jm client env db wsMsg))
      = channel_messages db ++ [row] /\
      filter persistsOrFansOut (snd (routeMessage jm client env db wsMsg))
      = [DBCreateChannel row].
Proof.
  intros jm client env db wsMsg cm Hv HT HC Hf Hfail.
  destruct (routeMessage_channel_ok jm client env db wsMsg cm Hv HT HC Hf)
    as (row & _ & _ & H3 & _ & Hfst & Hl & Hm & _).
  exists row. split; [exact H3|]. rewrite Hfst. split; [reflexivity|].
  destruct (fail_channel_lookup env) eqn:El.
  - now rewrite (Hl eq_refl).
  - destruct Hfail as [Hfail|Hfail]; [discriminate Hfail|].
    rewrite (Hm eq_refl Hfail). cbn [filter persistsOrFansOut]. rewrite filter_app.
    now rewrite (proj1 (senderInfoLog_quiet _ _ _)).
Qed.

Lemma channel_message_persisted_without_fanout_witness :
  exists row,
    ChannelMessage.Content row = "hello"%string /\
    channel_messages
      (fst (routeMessage sampleMarshal connA channelLookupFailsEnv sampleStore sampleChannelMsg))
    = channel_messages sampleStore ++ [row] /\
    filter persistsOrFansOut
      (snd (routeMessage sampleMarshal connA channelLookupFailsEnv sampleStore sampleChannelMsg))
    = [DBCreateChannel row].
Proof.
  exact (channel_message_persisted_without_fanout sampleMarshal connA channelLookupFailsEnv
           sampleStore sampleChannelMsg (ChannelMessage.mk 0 1 99 "hello" 5%Z)
           eq_refl eq_refl eq_refl eq_refl (or_introl eq_refl)).
Defined.

(** ** The read loop as a whole *)

Lemma sameDirectory_refl db : sameDirectory db db.
Proof. repeat split. Qed.

Lemma sameDirectory_trans a b c : sameDirectory a b -> sameDirectory b c -> sameDirectory a c.
Proof.
  intros (A1 & A2 & A3 & A4 & A5 & A6) (B1 & B2 & B3 & B4 & B5 & B6).
  repeat split; congruence.
Qed.

Lemma routeMessage_appends jm client env db wsMsg :
  sameDirectory (fst (routeMessage jm client env db wsMsg)) db /\
  exists ps cs,
    peer_messages (fst (routeMessage jm client env db wsMsg)) = peer_messages db ++ ps /\
    channel_messages (fst (routeMessage jm client env db wsMsg)) = channel_messages db ++ cs /\
    Forall (fun row => PeerMessage.SenderID row = ClientConnection.UserID client) ps /\
    Forall (fun row => ChannelMessage.SenderID row = ClientConnection.UserID client) cs.
Proof.
  assert (Hsame : sameDirectory db db /\
                  exists ps cs,
                    peer_messages db = peer_messages db ++ ps /\
                    channel_messages db = channel_messages db ++ cs /\
                    Forall (fun row => PeerMessage.SenderID row = ClientConnection.UserID client) ps /\
                    Forall (fun row => ChannelMessage.SenderID row = ClientConnection.UserID client) cs).
  { split; [apply sameDirectory_refl|]. exists [], []. rewrite !app_nil_r. repeat split; constructor. }
  unfold routeMessage.
  destruct (validateMessage db env wsMsg (ClientConnection.UserID client)); [exact Hsame|].
  destruct (Type_ wsMsg =? PeerMessageType)%string.
  { destruct (PeerMsg wsMsg) as [pm|]; [|exact Hsame].
    unfold createPeerMessage. destruct (fail_create env); [exact Hsame|].
    cbn [fst]. split; [repeat split|].
    eexists; exists []. cbn [peer_messages channel_messages set_peer_messages].
    split; [reflexivity|]. split; [symmetry; apply app_nil_r|].
    split; repeat constructor. }
  destruct (Type_ wsMsg =? ChannelMessageType)%string; [|exact Hsame].
  destruct (ChannelMsg wsMsg) as [cm|]; [|exact Hsame].
  unfold createChannelMessage. destruct (fail_create env); [exact Hsame|].
  assert (Hrow : forall evs,
             sameDirectory (fst (set_channel_messages db (channel_messages db ++
               [ChannelMessage.mk
                  (if ChannelMessage.ID cm =? 0
                   then nextID (map ChannelMessage.ID (channel_messages db))
                   else ChannelMessage.ID cm)
                  (ChannelMessage.ChannelID cm) (ClientConnection.UserID client)
                  (ChannelMessage.Content cm) (now env)]), evs : list Event)) db /\
             exists ps cs,
               peer_messages (fst (set_channel_messages db (channel_messages db ++
                 [ChannelMessage.mk
                    (if ChannelMessage.ID cm =? 0
                     then nextID (map ChannelMessage.ID (channel_messages db))
                     else ChannelMessage.ID cm)
                    (ChannelMessage.ChannelID cm) (ClientConnection.UserID client)
                    (ChannelMessage.Content cm) (now env)]), evs)) = peer_messages db ++ ps /\
               channel_messages (fst (set_channel_messages db (channel_messages db ++
                 [ChannelMessage.mk
                    (if ChannelMessage.ID cm =? 0
                     then nextID (map ChannelMessage.ID (channel_messages db))
                     else ChannelMessage.ID cm)
                    (ChannelMessage.ChannelID cm) (ClientConnection.UserID client)
                    (ChannelMessage.Content cm) (now env)]), evs)) = channel_messages db ++ cs /\
               Forall (fun row => PeerMessage.SenderID row = ClientConnection.UserID client) ps /\
               Forall (fun row => ChannelMessage.SenderID row = ClientConnection.UserID client) cs).
  { intros evs. cbn [fst]. split; [repeat split|].
    exists []; eexists. cbn [peer_messages channel_messages set_channel_messages].
    split; [symmetry; apply app_nil_r|]. split; [reflexivity|].
    split; repeat constructor. }
  cbn [ChannelMessage.ID ChannelMessage.ChannelID ChannelMessage.Content].
  destruct (if fail_channel_lookup env then None else _) as [channel|]; [|apply Hrow].
  destruct (fail_members env); apply Hrow.
Qed.

(** The store operations of the read loop itself (the goroutines it spawns
    apart) only append to the two message tables, and every row they add has
    the connection's user as sender. *)
Lemma handleClientMessages_appends :
  forall ju jm client reads db,
    sameDirectory (fst (fst (handleClientMessages ju jm client reads db))) db /\
    exists ps cs,
      peer_messages (fst (fst (handleClientMessages ju jm client reads db)))
      = peer_messages db ++ ps /\
      channel_messages (fst (fst (handleClientMessages ju jm client reads db)))
      = channel_messages db ++ cs /\
      Forall (fun row => PeerMessage.SenderID row = ClientConnection.UserID client) ps /\
      Forall (fun row => ChannelMessage.SenderID row = ClientConnection.UserID client) cs.
Proof.
  intros ju jm client reads.
  induction reads as [|[r env] rest IH]; intros db.
  - cbn. split; [apply sameDirectory_refl|].
    exists [], []. rewrite !app_nil_r. repeat split; constructor.
  - destruct r as [u|message].
    + cbn. split; [apply sameDirectory_refl|].
      exists [], []. rewrite !app_nil_r. repeat split; constructor.
    + cbn [handleClientMessages].
      destruct (ju message) as [wsMsg|].
      * pose proof (routeMessage_appends jm client env db wsMsg) as HR.
        destruct (routeMessage jm client env db wsMsg) as [db1 evs1]. cbn [fst] in HR.
        specialize (IH db1).
        destruct (handleClientMessages ju jm client rest db1) as [[db' evs] st].
        cbn [fst] in *.
        destruct HR as (HS1 & ps1 & cs1 & HP1 & HC1 & HFp1 & HFc1).
        destruct IH as (HS2 & ps2 & cs2 & HP2 & HC2 & HFp2 & HFc2).
        split; [exact (sameDirectory_trans _ _ _ HS2 HS1)|].
        exists (ps1 ++ ps2), (cs1 ++ cs2).
        rewrite HP2, HC2, HP1, HC1, <- !app_assoc.
        repeat split; apply Forall_app; now split.
      * specialize (IH db).
        destruct (handleClientMessages ju jm client rest db) as [[db' evs] st].
        exact IH.
Qed.

(** X6: the loop handles its reads one after the other and stops at the
    first read error: a run over [reads1 ++ reads2] is the run over [reads1]
    when that run has exited, whatever [reads2] holds, and otherwise the run
    over [reads1] followed, from the store it left, by the run over
    [reads2]. *)
Theorem read_pump_sequential :
  forall ju jm client reads1 reads2 db,
    handleClientMessages ju jm client (reads1 ++ reads2) db
    = (let '(db1, evs1, st1) := handleClientMessages ju jm client reads1 db in
       match st1 with
       | Exited => (db1, evs1, Exited)
       | AwaitingRead =>
           let '(db2, evs2, st2) := handleClientMessages ju jm client reads2 db1 in
           (db2, evs1 ++ evs2, st2)
       end).
Proof.
  intros ju jm client reads1 reads2.
  induction reads1 as [|[r env] rest IH]; intros db.
  - cbn. now destruct (handleClientMessages ju jm client reads2 db) as [[db2 evs2] st2].
  - destruct r as [u|message]; [reflexivity|].
    cbn [app handleClientMessages].
    destruct (ju message) as [wsMsg|].
    + destruct (routeMessage jm client env db wsMsg) as [dbr evsr].
      rewrite IH.
      destruct (handleClientMessages ju jm client rest dbr) as [[db1 evs1] st1].
      destruct st1; [reflexivity|].
      destruct (handleClientMessages ju jm client reads2 db1) as [[db2 evs2] st2].
      now rewrite app_assoc.
    + rewrite IH.
      destruct (handleClientMessages ju jm client rest db) as [[db1 evs1] st1].
      destruct st1; [reflexivity|].
      now destruct (handleClientMessages ju jm client reads2 db1) as [[db2 evs2] st2].
Qed.

Lemma routeMessage_sends jm client env db wsMsg :
  Forall (sendsOnlyErrorsTo jm client) (snd (routeMessage jm client env db wsMsg)).
Proof.
  unfold routeMessage.
  destruct (validateMessage db env wsMsg (ClientConnection.UserID client)) as [err|].
  { cbn [snd]. constructor; [exact I|].
    destruct (jm (mkWS ("error: " ++ err)%string None None)) as [b|] eqn:E.
    - constructor; [|constructor]. split; [reflexivity|]. now exists err.
    - repeat constructor. }
  destruct (Type_ wsMsg =? PeerMessageType)%string.
  { destruct (PeerMsg wsMsg) as [pm|]; [|constructor].
    destruct (createPeerMessage _ _ _) as [[db' row]|]; [|repeat constructor].
    cbn [snd]. constructor; [exact I|].
    apply Forall_app. split; [apply senderInfoLog_quiet|repeat constructor]. }
  destruct (Type_ wsMsg =? ChannelMessageType)%string; [|constructor].
  destruct (ChannelMsg wsMsg) as [cm|]; [|constructor].
  destruct (createChannelMessage _ _ _) as [[db' row]|]; [|repeat constructor].
  destruct (if fail_channel_lookup env then None else _) as [channel|]; [|repeat constructor].
  destruct (fail_members env); cbn [snd]; (constructor; [exact I|]).
  - apply Forall_app. split; [apply senderInfoLog_quiet|repeat constructor].
  - apply Forall_app. split; [apply senderInfoLog_quiet|].
    apply Forall_app. split; [apply channelNotifications_quiet|repeat constructor].
Qed.

(** X7: the only frames the read pump itself queues are error frames for
    its own connection: every [Send] among its events targets the pump's
    connection and carries the encoding of an envelope whose type is
    ["error: "] followed by an error text and whose payloads are nil.
    Messages reach other connections through the Hub only. *)
Theorem read_pump_sends_only_error_frames :
  forall ju jm client reads db,
    Forall (sendsOnlyErrorsTo jm client)
           (snd (fst (handleClientMessages ju jm client reads db))).
Proof.
  intros ju jm client reads.
  induction reads as [|[r env] rest IH]; intros db; [constructor|].
  destruct r as [u|message].
  - cbn. destruct u; repeat constructor.
  - cbn [handleClientMessages].
    destruct (ju message) as [wsMsg|].
    + pose proof (routeMessage_sends jm client env db wsMsg) as HR.
      destruct (routeMessage jm client env db wsMsg) as [db1 evs1]. cbn [snd] in HR.
      specialize (IH db1).
      destruct (handleClientMessages ju jm client rest db1) as [[db' evs] st].
      cbn [fst snd] in *. apply Forall_app. now split.
    + specialize (IH db).
      destruct (handleClientMessages ju jm client rest db) as [[db' evs] st].
      cbn [fst snd] in *. constructor; [exact I|exact IH].
Qed.

(** ** The notification sender: publishing, cleanup, history *)

Lemma filter_filter {A : Type} (p q : A -> bool) (l : list A) :
  filter p (filter q l) = filter (fun x => q x && p x) l.
Proof.
  induction l as [|a l IH]; [reflexivity|]. cbn [filter].
  destruct (q a); cbn [filter andb]; [destruct (p a)|]; now rewrite IH.
Qed.

Lemma cleanupInvalidTokens_store env tokens :
  forall db,
    fst (cleanupInvalidTokens env db tokens)
    = set_devices db
        (filter (fun d => negb (existsb (fun t => (Device.Token d =? t)%string
                                                  && negb (fail_delete_device env t)) tokens))
                (devices db)).
Proof.
  induction tokens as [|t rest IH]; intros db.
  - cbn. rewrite forallb_filter_id by (apply forallb_forall; reflexivity).
    now destruct db.
  - cbn [cleanupInvalidTokens existsb].
    destruct (fail_delete_device env t) eqn:Ef.
    + specialize (IH db). destruct (cleanupInvalidTokens env db rest) as [db' evs].
      cbn [fst] in *. rewrite IH. f_equal. apply filter_ext. intros d.
      now rewrite andb_false_r.
    + specialize (IH (set_devices db
                        (filter (fun d => negb (Device.Token d =? t)%string) (devices db)))).
      destruct (cleanupInvalidTokens env _ rest) as [db' evs].
      cbn [fst] in *. rewrite IH. cbn [devices set_devices]. unfold set_devices at 1.
      cbn [channels clients channel_clients channel_admins peer_messages channel_messages
           notification_histories].
      unfold set_devices. f_equal. rewrite filter_filter. apply filter_ext. intros d.
      rewrite andb_true_r. now rewrite negb_orb.
Qed.

Lemma kept_device_iff env tokens (d : Device.t) :
  negb (existsb (fun t => (Device.Token d =? t)%string && negb (fail_delete_device env t)) tokens)
  = true
  <-> (forall t, In t tokens -> fail_delete_device env t = false -> Device.Token d <> t).
Proof.
  rewrite negb_true_iff. split.
  - intros H t Hin Hf Heq.
    assert (Hex : existsb (fun t => (Device.Token d =? t)%string
                                    && negb (fail_delete_device env t)) tokens = true).
    { apply existsb_exists. exists t. split; [exact Hin|].
      rewrite Hf. cbn. rewrite andb_true_r. now apply String.eqb_eq. }
    rewrite Hex in H. discriminate H.
  - intros H. destruct (existsb _ tokens) eqn:E; [|reflexivity].
    apply existsb_exists in E as (t & Hin & Ht).
    apply andb_true_iff in Ht as [Ht1 Ht2]. apply String.eqb_eq in Ht1.
    apply negb_true_iff in Ht2. now contradiction (H t Hin Ht2).
Qed.

Lemma cleanup_deletes_listed_tokens_aux env db tokens d :
  In d (devices (fst (cleanupInvalidTokens env db tokens))) <->
  In d (devices db) /\
  (forall t, In t tokens -> fail_delete_device env t = false -> Device.Token d <> t).
Proof.
  rewrite cleanupInvalidTokens_store. cbn [devices set_devices].
  rewrite filter_In. now rewrite kept_device_iff.
Qed.

(** X8: [cleanupInvalidTokens] touches the devices table only; a device row
    survives exactly when its token is none of the listed tokens whose
    deletion the store carried out.  A deletion the store fails is logged and
    skipped, the remaining tokens are still processed. *)
Theorem cleanup_deletes_listed_tokens :
  forall env db tokens,
    fst (cleanupInvalidTokens env db tokens)
    = set_devices db (devices (fst (cleanupInvalidTokens env db tokens))) /\
    (forall d,
        In d (devices (fst (cleanupInvalidTokens env db tokens))) <->
        In d (devices db) /\
        (forall t, In t tokens -> fail_delete_device env t = false -> Device.Token d <> t)).
Proof.
  intros env db tokens. rewrite cleanupInvalidTokens_store. cbn [devices set_devices].
  split; [reflexivity|].
  intros d. rewrite filter_In. now rewrite kept_device_iff.
Qed.

Lemma convertTokens_spec tokenCheck tokens :
  fst (fst (convertTokens tokenCheck tokens)) = wellFormedTokens tokenCheck tokens /\
  (forall t, In t (snd (fst (convertTokens tokenCheck tokens)))
             <-> In t tokens /\ tokenCheck t = None) /\
  publishedMessages (snd (convertTokens tokenCheck tokens)) = [].
Proof.
  induction tokens as [|t0 rest (IH1 & IH2 & IH3)]; cbn [convertTokens].
  - split; [reflexivity|]. split; [|reflexivity].
    intros t. split; [intros []|intros [[] _]].
  - destruct (convertTokens tokenCheck rest) as [[pushTokens invalidTokens] evs].
    cbn [fst snd] in *. unfold wellFormedTokens. cbn [flat_map].
    destruct (tokenCheck t0) as [p|] eqn:E; cbn [fst snd].
    + split; [cbn; now rewrite IH1|]. split; [|exact IH3].
      intros t. rewrite IH2. split.
      * intros [H1 H2]. split; [now right|exact H2].
      * intros [[<-|H1] H2]; [congruence|now split].
    + split; [cbn; exact IH1|]. split; [|exact IH3].
      intros t. cbn [In]. rewrite IH2. split.
      * intros [<-|[H1 H2]]; [split; [now left|exact E]|split; [now right|exact H2]].
      * intros [[<-|H1] H2]; [now left|right; now split].
Qed.

Lemma cleanupInvalidTokens_no_publish env tokens :
  forall db, publishedMessages (snd (cleanupInvalidTokens env db tokens)) = [].
Proof.
  induction tokens as [|t rest IH]; intros db; [reflexivity|].
  cbn [cleanupInvalidTokens].
  destruct (fail_delete_device env t).
  - specialize (IH db). destruct (cleanupInvalidTokens env db rest) as [db' evs]. exact IH.
  - specialize (IH (set_devices db
                      (filter (fun d => negb (Device.Token d =? t)%string) (devices db)))).
    destruct (cleanupInvalidTokens env _ rest) as [db' evs]. exact IH.
Qed.

Lemma publishedMessages_app (a b : list PushEvent) :
  publishedMessages (a ++ b) = publishedMessages a ++ publishedMessages b.
Proof. apply flat_map_app. Qed.

(** What one call of [sendExpoNotificationSDK] publishes, returns and leaves
    in the store. *)
Lemma sendExpoNotificationSDK_spec tokenCheck publish env db tokens title body data :
  publishedMessages
    (snd (fst (sendExpoNotificationSDK tokenCheck publish env db tokens title body data)))
  = match wellFormedTokens tokenCheck tokens with
    | [] => []
    | _ :: _ =>
        [PushMessage.mk (wellFormedTokens tokenCheck tokens) body title "default" "default"
           (option_map (map (fun kv => (fst kv, sprintv (snd kv)))) data)]
    end /\
  (snd (sendExpoNotificationSDK tokenCheck publish env db tokens title body data) = (true, None)
   \/ exists e,
        snd (sendExpoNotificationSDK tokenCheck publish env db tokens title body data)
        = (false, Some e)) /\
  (fst (fst (sendExpoNotificationSDK tokenCheck publish env db tokens title body data)) = db
   \/ fst (fst (sendExpoNotificationSDK tokenCheck publish env db tokens title body data))
      = fst (cleanupInvalidTokens env db (snd (fst (convertTokens tokenCheck tokens))))) /\
  (wellFormedTokens tokenCheck tokens <> [] ->
   (forall m, exists v, publish m = PublishResponse v) ->
   fst (fst (sendExpoNotificationSDK tokenCheck publish env db tokens title body data))
   = fst (cleanupInvalidTokens env db (snd (fst (convertTokens tokenCheck tokens))))).
Proof.
  unfold sendExpoNotificationSDK.
  destruct (convertTokens_spec tokenCheck tokens) as (Hpush & _ & Hev).
  destruct (convertTokens tokenCheck tokens) as [[pushTokens invalidTokens] evs].
  cbn [fst snd] in *. rewrite <- Hpush.
  destruct pushTokens as [|p ps].
  { cbn [fst snd]. split; [exact Hev|]. split; [right; eauto|]. split; [now left|].
    intros H. now contradiction H. }
  replace (match data with
           | Some kvs => Some (map (fun kv => (fst kv, sprintv (snd kv))) kvs)
           | None => None
           end)
    with (option_map (map (fun kv : string * DataValue => (fst kv, sprintv (snd kv)))) data)
    by (now destruct data).
  destruct (publish _) as [err|[validationErr|]] eqn:EP.
  - cbn [fst snd]. rewrite publishedMessages_app, Hev.
    split; [reflexivity|]. split; [right; eauto|]. split; [now left|].
    intros _ Hresp. destruct (Hresp (PushMessage.mk (p :: ps) body title "default" "default"
      (option_map (map (fun kv : string * DataValue => (fst kv, sprintv (snd kv)))) data)))
      as [v Hv]. rewrite EP in Hv. discriminate Hv.
  - pose proof (cleanupInvalidTokens_no_publish env invalidTokens db) as Hc.
    destruct (cleanupInvalidTokens env db invalidTokens) as [db' cevs].
    cbn [fst snd] in *. rewrite !publishedMessages_app, Hev.
    cbn [publishedMessages flat_map app]. rewrite Hc.
    split; [reflexivity|]. split; [right; eauto|]. split; [now right|]. reflexivity.
  - destruct invalidTokens as [|i others].
    + cbn [fst snd]. rewrite !publishedMessages_app, Hev.
      split; [reflexivity|]. split; [now left|]. split; [now left|]. reflexivity.
    + pose proof (cleanupInvalidTokens_no_publish env (i :: others) db) as Hc.
      destruct (cleanupInvalidTokens env db (i :: others)) as [db' cevs].
      cbn [fst snd] in *. rewrite !publishedMessages_app, Hev.
      cbn [publishedMessages flat_map app]. rewrite Hc.
      split; [reflexivity|]. split; [now left|]. split; [now right|]. reflexivity.
Qed.

(** X9: [sendExpoNotificationSDK] calls the provider at most once: not at
    all when no token string passes the format check, and otherwise once,
    with the well-formed tokens in the order of the input, the title and the
    body it was given, sound and priority ["default"], and the payload with
    every value rendered as a string. *)
Theorem publish_once_to_well_formed_tokens :
  forall tokenCheck publish env db tokens title body data,
    publishedMessages
      (snd (fst (sendExpoNotificationSDK tokenCheck publish env db tokens title body data)))
    = match wellFormedTokens tokenCheck tokens with
      | [] => []
      | _ :: _ =>
          [PushMessage.mk (wellFormedTokens tokenCheck tokens) body title "default" "default"
             (option_map (map (fun kv => (fst kv, sprintv (snd kv)))) data)]
      end.
Proof. intros. apply sendExpoNotificationSDK_spec. Qed.

(** X10: when at least one token string is well-formed and the provider
    answers the publish with a response (validated or not), the device rows
    that are left are exactly those whose token is not one of the malformed
    token strings of the call, up to deletions the store failed: malformed
    registrations are purged, well-formed ones are all kept. *)
Theorem malformed_tokens_purged_after_response :
  forall tokenCheck publish env db tokens title body data d,
    wellFormedTokens tokenCheck tokens <> [] ->
    (forall m, exists v, publish m = PublishResponse v) ->
    In d (devices (fst (fst (sendExpoNotificationSDK tokenCheck publish env db tokens
                               title body data))))
    <-> In d (devices db) /\
        (forall t, In t tokens -> tokenCheck t = None -> fail_delete_device env t = false ->
                   Device.Token d <> t).
Proof.
  intros tokenCheck publish env db tokens title body data d Hwf Hresp.
  destruct (sendExpoNotificationSDK_spec tokenCheck publish env db tokens title body data)
    as (_ & _ & _ & Hstore).
  rewrite (Hstore Hwf Hresp).
  destruct (cleanup_deletes_listed_tokens_aux env db
              (snd (fst (convertTokens tokenCheck tokens))) d) as [H1 H2].
  destruct (convertTokens_spec tokenCheck tokens) as (_ & Hinv & _).
  split.
  - intros H. destruct (H1 H) as [Hin Hk]. split; [exact Hin|].
    intros t Ht Hnone Hf. apply Hk; [|exact Hf]. apply Hinv. now split.
  - intros [Hin Hk]. apply H2. split; [exact Hin|].
    intros t Ht Hf. apply Hinv in Ht as [Ht Hnone]. now apply Hk.
Qed.

Lemma malformed_tokens_purged_after_response_witness :
  In (Device.mk "20" "not-a-token")
     (devices (fst (fst (sendExpoNotificationSDK sampleTokenCheck acceptingProvider quietPushEnv
                           mixedDeviceStore ["not-a-token"; "ExponentPushToken[live]"]%string
                           "New message from User 10" "hi" None))))
  <-> In (Device.mk "20" "not-a-token") (devices mixedDeviceStore) /\
      (forall t, In t ["not-a-token"; "ExponentPushToken[live]"]%string ->
                 sampleTokenCheck t = None -> fail_delete_device quietPushEnv t = false ->
                 Device.Token (Device.mk "20" "not-a-token") <> t).
Proof.
  apply (malformed_tokens_purged_after_response sampleTokenCheck acceptingProvider quietPushEnv
           mixedDeviceStore ["not-a-token"; "ExponentPushToken[live]"]%string
           "New message from User 10" "hi" None (Device.mk "20" "not-a-token")).
  - vm_compute. discriminate.
  - intros m. exists None. reflexivity.
Defined.

(** On the sample store the malformed registration of user 20 is gone
    after a dispatch the provider accepted; the two well-formed ones stay. *)
Example sample_dispatch_purges_malformed :
  devices (fst (fst (SendUserNotification sampleTokenCheck acceptingProvider sampleMarshalData
                       quietPushEnv mixedDeviceStore "20" "New message from User 10" "hi" None)))
  = [Device.mk "20" "ExponentPushToken[live]"; Device.mk "30" "ExponentPushToken[other]"].
Proof. vm_compute. reflexivity. Qed.

Lemma sendExpoNotificationSDK_histories tokenCheck publish env db tokens title body data :
  notification_histories
    (fst (fst (sendExpoNotificationSDK tokenCheck publish env db tokens title body data)))
  = notification_histories db.
Proof.
  destruct (sendExpoNotificationSDK_spec tokenCheck publish env db tokens title body data)
    as (_ & _ & [H|H] & _); rewrite H; [reflexivity|].
  now rewrite cleanupInvalidTokens_store.
Qed.

(** X11: when the device lookup succeeds and finds a device of the user,
    and the history insert meets no store error, [SendUserNotification]
    appends exactly one history record, with the user, title, body and
    encoded payload of the call and the time of the call, whose status is
    ["sent"] when the dispatch succeeded and ["failed"] otherwise; the call
    returns the dispatch's result, in which success and a nil error go
    together. *)
Theorem notification_history_recorded :
  forall tokenCheck publish marshalData env db userID title body data,
    fail_find_devices env = None ->
    filter (fun d => (Device.UserID d =? userID)%string) (devices db) <> [] ->
    fail_create_history env = false ->
    exists success err,
      snd (SendUserNotification tokenCheck publish marshalData env db userID title body data)
      = (success, err) /\
      (success = true <-> err = None) /\
      notification_histories
        (fst (fst (SendUserNotification tokenCheck publish marshalData env db userID
                     title body data)))
      = notification_histories db
        ++ [NotificationHistory.mk userID title body (marshalData data)
              (if success then "sent" else "failed") (sentAt env)].
Proof.
  intros tokenCheck publish marshalData env db userID title body data Hfind Hdev Hhist.
  unfold SendUserNotification. rewrite Hfind, Hhist.
  destruct (filter (fun d => (Device.UserID d =? userID)%string) (devices db))
    as [|d0 found] eqn:EF; [now contradiction Hdev|].
  pose proof (sendExpoNotificationSDK_histories tokenCheck publish env db
                (map Device.Token (d0 :: found)) title body data) as Hh.
  destruct (sendExpoNotificationSDK_spec tokenCheck publish env db
              (map Device.Token (d0 :: found)) title body data) as (_ & Hres & _).
  destruct (sendExpoNotificationSDK tokenCheck publish env db
              (map Device.Token (d0 :: found)) title body data) as [[db1 evs] [success err]].
  cbn [fst snd] in *. exists success, err. split; [reflexivity|].
  destruct Hres as [Hres|[e Hres]]; injection Hres as -> ->.
  - split; [now split|]. cbn. now rewrite Hh.
  - split; [split; discriminate|]. cbn. now rewrite Hh.
Qed.

Lemma notification_history_recorded_witness :
  exists success err,
    snd (SendUserNotification sampleTokenCheck rejectingProvider sampleMarshalData quietPushEnv
           staleDeviceStore "20" "New message from User 10" "hi" None)
    = (success, err) /\
    (success = true <-> err = None) /\
    notification_histories
      (fst (fst (SendUserNotification sampleTokenCheck rejectingProvider sampleMarshalData
                   quietPushEnv staleDeviceStore "20" "New message from User 10" "hi" None)))
    = notification_histories staleDeviceStore
      ++ [NotificationHistory.mk "20" "New message from User 10" "hi" (sampleMarshalData None)
            (if success then "sent" else "failed") (sentAt quietPushEnv)].
Proof.
  apply (notification_history_recorded sampleTokenCheck rejectingProvider sampleMarshalData
           quietPushEnv staleDeviceStore "20" "New message from User 10" "hi" None).
  - reflexivity.
  - vm_compute. discriminate.
  - reflexivity.
Defined.

(** X12: [SendUserNotification] publishes at most one push message, and
    every token it is addressed to is the converted token of a device row of
    the user the call names: no other user's device is ever notified. *)
Theorem notification_addressed_to_user_devices :
  forall tokenCheck publish marshalData env db userID title body data,
    (List.length
       (publishedMessages
          (snd (fst (SendUserNotification tokenCheck publish marshalData env db userID
                       title body data)))) <= 1)%nat /\
    Forall (fun m =>
              Forall (fun p => exists d, In d (devices db) /\ Device.UserID d = userID /\
                                         tokenCheck (Device.Token d) = Some p)
                     (PushMessage.To m))
           (publishedMessages
              (snd (fst (SendUserNotification tokenCheck publish marshalData env db userID
                           title body data)))).
Proof.
  intros tokenCheck publish marshalData env db userID title body data.
  unfold SendUserNotification.
  destruct (fail_find_devices env); [cbn; split; [lia|constructor]|].
  destruct (filter (fun d => (Device.UserID d =? userID)%string) (devices db))
    as [|d0 found] eqn:EF; [cbn; split; [lia|constructor]|].
  pose proof (sendExpoNotificationSDK_spec tokenCheck publish env db
                (map Device.Token (d0 :: found)) title body data) as (Hpub & _).
  destruct (sendExpoNotificationSDK tokenCheck publish env db
              (map Device.Token (d0 :: found)) title body data) as [[db1 evs] [success err]].
  cbn [fst snd] in Hpub.
  assert (Hevs : publishedMessages
                   (snd (fst (if fail_create_history env
                              then (db1, evs ++ [LogHistoryError], (success, err))
                              else (set_notification_histories db1
                                      (notification_histories db1 ++
                                       [NotificationHistory.mk userID title body
                                          (marshalData data)
                                          (if negb success
                                              || match err with Some _ => true | None => false end
                                           then "failed" else "sent") (sentAt env)]),
                                    evs, (success, err)))))
                 = publishedMessages evs).
  { destruct (fail_create_history env); cbn [fst snd]; [|reflexivity].
    rewrite publishedMessages_app. cbn. apply app_nil_r. }
  rewrite Hevs, Hpub.
  destruct (wellFormedTokens tokenCheck (map Device.Token (d0 :: found))) as [|p ps] eqn:EW;
    [cbn; split; [lia|constructor]|].
  split; [cbn; lia|]. constructor; [|constructor].
  cbn [PushMessage.To]. rewrite <- EW. apply Forall_forall. intros q Hq.
  unfold wellFormedTokens in Hq. apply in_flat_map in Hq as (t & Ht & Hq).
  apply in_map_iff in Ht as (d & <- & Hd). rewrite <- EF in Hd.
  apply filter_In in Hd as [Hd Hu]. apply String.eqb_eq in Hu.
  exists d. split; [exact Hd|]. split; [exact Hu|].
  destruct (tokenCheck (Device.Token d)) as [p'|]; [|destruct Hq].
  destruct Hq as [<-|[]]. reflexivity.
Qed.

(** ** Channel administration: adding and removing admins *)

Lemma firstOrCreateClient_result db uid tx1 cl :
  firstOrCreateClient db uid = (tx1, cl) ->
  In cl (clients tx1) /\
  (uid <> 0 -> Client.UserID cl = uid) /\
  (tx1 = db \/ tx1 = set_clients db (clients db ++ [cl])).
Proof.
  unfold firstOrCreateClient. intros H.
  destruct (uid =? 0) eqn:E0.
  - apply N.eqb_eq in E0.
    destruct (clients db) as [|c0 rest] eqn:EC; cbn [hd_error] in H; injection H as <- <-.
    + cbn. split; [now left|]. split; [intros Hn; now contradiction Hn|now right].
    + rewrite EC. split; [now left|]. split; [intros Hn; now contradiction Hn|now left].
  - destruct (find (fun c => Client.UserID c =? uid) (clients db)) as [c'|] eqn:EF;
      injection H as <- <-.
    + apply find_some in EF as [Hin Hu]. apply N.eqb_eq in Hu.
      split; [exact Hin|]. split; [intros _; exact Hu|now left].
    + cbn [clients set_clients]. split; [apply in_or_app; right; now left|].
      split; [reflexivity|now right].
Qed.

(** The course of a call of [AddChannelAdmin] that answered 200. *)
Lemma AddChannelAdmin_ok f db r :
  StatusCode (snd (AddChannelAdmin f db r)) = 200 ->
  exists channelID userID channel client tx1,
    ParseUint32 (path_id r) = Some channelID /\
    body_user_id r = Some userID /\
    firstChannel db channelID = Some channel /\
    firstOrCreateClient db userID = (tx1, client) /\
    adminRowCount tx1 channel client = 0 /\
    AddChannelAdmin f db r
    = (set_channel_admins tx1 (channel_admins tx1 ++ [(Channel.ID channel, Client.ID client)]),
       mkResponse 200
         (AdminList (channelAdmins
                       (set_channel_admins tx1
                          (channel_admins tx1 ++ [(Channel.ID channel, Client.ID client)]))
                       (Channel.ID channel)))).
Proof.
  unfold AddChannelAdmin. intros Hok.
  destruct (ParseUint32 (path_id r)) as [channelID|]; [|discriminate Hok].
  destruct (body_user_id r) as [userID|]; [|discriminate Hok].
  destruct (fail_first_channel f); [discriminate Hok|].
  destruct (firstChannel db channelID) as [channel|] eqn:EF; [|discriminate Hok].
  destruct (fail_first_or_create f); [discriminate Hok|].
  destruct (firstOrCreateClient db userID) as [tx1 client] eqn:EC.
  destruct (fail_count f); [discriminate Hok|].
  destruct (0 <? adminRowCount tx1 channel client) eqn:Ecount; [discriminate Hok|].
  destruct (fail_insert f); [discriminate Hok|].
  destruct (fail_commit f); [discriminate Hok|].
  destruct (fail_find_admins f); [discriminate Hok|].
  exists channelID, userID, channel, client, tx1.
  apply N.ltb_ge in Ecount. apply N.le_0_r in Ecount.
  repeat split; try reflexivity; assumption.
Qed.

Lemma firstChannel_id db cid channel :
  firstChannel db cid = Some channel -> In channel (channels db) /\ Channel.ID channel = cid.
Proof.
  unfold firstChannel. intros H. apply find_some in H as [Hin Hid].
  apply N.eqb_eq in Hid. now split.
Qed.

Lemma firstChannel_same_channels a b cid :
  channels a = channels b -> firstChannel a cid = firstChannel b cid.
Proof. unfold firstChannel. now intros ->. Qed.

Lemma firstOrCreateClient_channels db uid :
  channels (fst (firstOrCreateClient db uid)) = channels db /\
  channel_clients (fst (firstOrCreateClient db uid)) = channel_clients db /\
  channel_admins (fst (firstOrCreateClient db uid)) = channel_admins db /\
  peer_messages (fst (firstOrCreateClient db uid)) = peer_messages db /\
  channel_messages (fst (firstOrCreateClient db uid)) = channel_messages db /\
  devices (fst (firstOrCreateClient db uid)) = devices db /\
  notification_histories (fst (firstOrCreateClient db uid)) = notification_histories db.
Proof.
  destruct (firstOrCreateClient db uid) as [tx1 cl] eqn:E.
  destruct (firstOrCreateClient_result _ _ _ _ E) as (_ & _ & [->| ->]); cbn; repeat split.
Qed.

Lemma listedAsAdmin_intro db cid channel cl :
  In channel (channels db) -> Channel.ID channel = cid ->
  In cl (clients db) ->
  In (cid, Client.ID cl) (channel_admins db) ->
  listedAsAdmin db cid (Client.UserID cl).
Proof.
  intros Hch Hid Hcl Hrow. split.
  - rewrite <- Hid. now apply firstChannel_of_row.
  - apply in_map. unfold channelAdmins. apply filter_In. split; [exact Hcl|].
    apply existsb_exists. exists (cid, Client.ID cl). split; [exact Hrow|].
    unfold pair_eqb. cbn. now rewrite !N.eqb_refl.
Qed.

(** X13: after a call of [AddChannelAdmin] that answered 200 for a non-zero
    user, the user is listed in the channel's admin set, and a channel
    message of that user to that channel with a non-empty content passes
    [validateMessage] (the admin count query permitting). *)
Theorem added_admin_can_post :
  forall f db r channelID userID,
    ParseUint32 (path_id r) = Some channelID ->
    body_user_id r = Some userID ->
    userID <> 0 ->
    StatusCode (snd (AddChannelAdmin f db r)) = 200 ->
    listedAsAdmin (fst (AddChannelAdmin f db r)) channelID userID /\
    (forall env wsMsg cm,
        Type_ wsMsg = ChannelMessageType ->
        ChannelMsg wsMsg = Some cm ->
        ChannelMessage.ChannelID cm = channelID ->
        channelID <> 0 ->
        ChannelMessage.Content cm <> ""%string ->
        fail_admin_count env = false ->
        validateMessage (fst (AddChannelAdmin f db r)) env wsMsg userID = None).
Proof.
  intros f db r channelID userID Hid Hbody Hnz Hok.
  destruct (AddChannelAdmin_ok f db r Hok)
    as (cid' & uid' & channel & client & tx1 & Hid' & Hbody' & Hch & Hfc & _ & HR).
  rewrite Hid in Hid'. injection Hid' as <-. rewrite Hbody in Hbody'. injection Hbody' as <-.
  destruct (firstChannel_id _ _ _ Hch) as [Hchin Hcid].
  destruct (firstOrCreateClient_result _ _ _ _ Hfc) as (Hcl & Hu & _).
  pose proof (firstOrCreateClient_channels db userID) as (Hchs & _). rewrite Hfc in Hchs.
  cbn [fst] in Hchs.
  assert (HL : listedAsAdmin (fst (AddChannelAdmin f db r)) channelID userID).
  { rewrite HR. cbn [fst]. rewrite <- (Hu Hnz).
    apply (listedAsAdmin_intro _ _ channel).
    - cbn [channels set_channel_admins]. now rewrite Hchs.
    - exact Hcid.
    - exact Hcl.
    - cbn [channel_admins set_channel_admins]. apply in_or_app. right. left. now rewrite Hcid. }
  split; [exact HL|].
  intros env wsMsg cm HT HC Hcm Hcnz Hcontent Hcount.
  apply validateMessage_accepts. right. split; [exact HT|]. exists cm.
  rewrite Hcm. now refine (conj HC (conj Hcnz (conj Hcontent (conj Hcount HL)))).
Qed.

Lemma added_admin_can_post_witness :
  listedAsAdmin (fst (AddChannelAdmin noFaults sampleStore (mkAdminRequest "1" (Some 20)))) 1 20 /\
  (forall env wsMsg cm,
      Type_ wsMsg = ChannelMessageType ->
      ChannelMsg wsMsg = Some cm ->
      ChannelMessage.ChannelID cm = 1 ->
      1 <> 0 ->
      ChannelMessage.Content cm <> ""%string ->
      fail_admin_count env = false ->
      validateMessage (fst (AddChannelAdmin noFaults sampleStore (mkAdminRequest "1" (Some 20))))
                      env wsMsg 20 = None).
Proof.
  apply (added_admin_can_post noFaults sampleStore (mkAdminRequest "1" (Some 20)) 1 20).
  - reflexivity.
  - reflexivity.
  - discriminate.
  - reflexivity.
Defined.

Lemma adminRowCount_zero db channel cl :
  In channel (channels db) ->
  adminRowCount db channel cl = 0 ->
  filter (pair_eqb (Channel.ID channel, Client.ID cl)) (channel_admins db) = [].
Proof.
  intros Hch H0.
  destruct (filter (pair_eqb (Channel.ID channel, Client.ID cl)) (channel_admins db))
    as [|row rows] eqn:E; [reflexivity|].
  exfalso.
  assert (Hpos : (0 <? adminRowCount db channel cl) = true).
  { apply adminRowCount_pos; [exact Hch|].
    apply existsb_exists. exists row.
    assert (Hin : In row (filter (pair_eqb (Channel.ID channel, Client.ID cl))
                                 (channel_admins db))) by (rewrite E; now left).
    now apply filter_In in Hin. }
  rewrite H0 in Hpos. discriminate Hpos.
Qed.

Lemma pair_eqb_eq (a b : uint * uint) : pair_eqb a b = true <-> a = b.
Proof.
  destruct a as [a1 a2], b as [b1 b2]. unfold pair_eqb. cbn [fst snd].
  rewrite andb_true_iff, !N.eqb_eq. split; [intros [-> ->]; reflexivity|].
  intros H. injection H as -> ->. now split.
Qed.

Lemma filter_nil_not_in (rows : list (uint * uint)) (row : uint * uint) :
  filter (pair_eqb row) rows = [] -> ~ In row rows.
Proof.
  intros Hf Hin.
  assert (H : In row (filter (pair_eqb row) rows)).
  { apply filter_In. split; [exact Hin|]. now apply pair_eqb_eq. }
  rewrite Hf in H. destruct H.
Qed.

(** X14: [AddChannelAdmin] never writes a duplicate admin row and writes
    nothing but client and admin rows: if the admin table has no repeated
    row before the call it has none after it, on every path, and the
    channels, the memberships, the messages, the devices and the
    notification history are left as they were. *)
Theorem AddChannelAdmin_no_duplicate_admin :
  forall f db r,
    NoDup (channel_admins db) ->
    NoDup (channel_admins (fst (AddChannelAdmin f db r))) /\
    channels (fst (AddChannelAdmin f db r)) = channels db /\
    channel_clients (fst (AddChannelAdmin f db r)) = channel_clients db /\
    peer_messages (fst (AddChannelAdmin f db r)) = peer_messages db /\
    channel_messages (fst (AddChannelAdmin f db r)) = channel_messages db /\
    devices (fst (AddChannelAdmin f db r)) = devices db /\
    notification_histories (fst (AddChannelAdmin f db r)) = notification_histories db.
Proof.
  intros f db r Hnd.
  assert (Hsame : NoDup (channel_admins db) /\ channels db = channels db /\
                  channel_clients db = channel_clients db /\
                  peer_messages db = peer_messages db /\
                  channel_messages db = channel_messages db /\
                  devices db = devices db /\
                  notification_histories db = notification_histories db)
    by (repeat split; assumption).
  unfold AddChannelAdmin.
  destruct (ParseUint32 (path_id r)) as [channelID|]; [|exact Hsame].
  destruct (body_user_id r) as [userID|]; [|exact Hsame].
  destruct (fail_first_channel f); [exact Hsame|].
  destruct (firstChannel db channelID) as [channel|] eqn:EF; [|exact Hsame].
  destruct (fail_first_or_create f); [exact Hsame|].
  pose proof (firstOrCreateClient_channels db userID) as (H1 & H2 & H3 & H4 & H5 & H6 & H7).
  destruct (firstOrCreateClient db userID) as [tx1 client] eqn:EC. cbn [fst] in *.
  destruct (fail_count f); [exact Hsame|].
  destruct (0 <? adminRowCount tx1 channel client) eqn:Ecount; [exact Hsame|].
  destruct (fail_insert f); [exact Hsame|].
  destruct (fail_commit f); [exact Hsame|].
  assert (Hnew : NoDup (channel_admins tx1 ++ [(Channel.ID channel, Client.ID client)])).
  { apply N.ltb_ge in Ecount. apply N.le_0_r in Ecount.
    destruct (firstChannel_id _ _ _ EF) as [Hchin _]. rewrite <- H1 in Hchin.
    pose proof (filter_nil_not_in _ _ (adminRowCount_zero tx1 channel client Hchin Ecount))
      as Hnot.
    apply NoDup_app; [now rewrite H3|repeat constructor; intros []|].
    intros x Hx [<-|[]]. now apply Hnot. }
  destruct (fail_find_admins f); cbn [fst channel_admins channels channel_clients peer_messages
    channel_messages devices notification_histories set_channel_admins];
    repeat split; assumption.
Qed.

Lemma AddChannelAdmin_no_duplicate_admin_witness :
  NoDup (channel_admins (fst (AddChannelAdmin noFaults sampleStore
                                (mkAdminRequest "1" (Some 20))))) /\
  channels (fst (AddChannelAdmin noFaults sampleStore (mkAdminRequest "1" (Some 20))))
  = channels sampleStore /\
  channel_clients (fst (AddChannelAdmin noFaults sampleStore (mkAdminRequest "1" (Some 20))))
  = channel_clients sampleStore /\
  peer_messages (fst (AddChannelAdmin noFaults sampleStore (mkAdminRequest "1" (Some 20))))
  = peer_messages sampleStore /\
  channel_messages (fst (AddChannelAdmin noFaults sampleStore (mkAdminRequest "1" (Some 20))))
  = channel_messages sampleStore /\
  devices (fst (AddChannelAdmin noFaults sampleStore (mkAdminRequest "1" (Some 20))))
  = devices sampleStore /\
  notification_histories
    (fst (AddChannelAdmin noFaults sampleStore (mkAdminRequest "1" (Some 20))))
  = notification_histories sampleStore.
Proof.
  apply (AddChannelAdmin_no_duplicate_admin noFaults sampleStore (mkAdminRequest "1" (Some 20))).
  cbn. repeat constructor. intros [].
Defined.

(** The course of a call of [RemoveChannelAdmin] that answered 200. *)
Lemma RemoveChannelAdmin_ok f db r :
  Status (snd (RemoveChannelAdmin f db r)) = 200 ->
  exists channelID userID channel client,
    ParseUint32 (path_id r) = Some channelID /\
    body_user_id r = Some userID /\
    firstClientByUser db userID = Some client /\
    firstChannel db channelID = Some channel /\
    fst (RemoveChannelAdmin f db r)
    = set_channel_admins db
        (deleteAssociation (channel_admins db) (Channel.ID channel, Client.ID client)).
Proof.
  unfold RemoveChannelAdmin. intros Hok.
  destruct (ParseUint32 (path_id r)) as [channelID|]; [|discriminate Hok].
  destruct (body_user_id r) as [userID|]; [|discriminate Hok].
  destruct (fail_remove_client f); [discriminate Hok|].
  destruct (firstClientByUser db userID) as [client|] eqn:ECl; [|discriminate Hok].
  destruct (fail_remove_channel f); [discriminate Hok|].
  destruct (firstChannel db channelID) as [channel|] eqn:EF; [|discriminate Hok].
  destruct (fail_remove_delete f); [discriminate Hok|].
  exists channelID, userID, channel, client. repeat split; try reflexivity; assumption.
Qed.

Lemma deleteAssociation_In rows row x :
  In x (deleteAssociation rows row) <-> In x rows /\ x <> row.
Proof.
  unfold deleteAssociation. rewrite filter_In, negb_true_iff. split.
  - intros [Hin Hne]. split; [exact Hin|]. intros ->.
    now rewrite (proj2 (pair_eqb_eq row row) eq_refl) in Hne.
  - intros [Hin Hne]. split; [exact Hin|].
    destruct (pair_eqb row x) eqn:E; [|reflexivity].
    apply pair_eqb_eq in E. now contradiction Hne.
Qed.

Lemma existsb_pair_In rows row :
  existsb (pair_eqb row) rows = true <-> In row rows.
Proof.
  rewrite existsb_exists. split.
  - intros (x & Hin & Heq). apply pair_eqb_eq in Heq. now subst x.
  - intros Hin. exists row. split; [exact Hin|]. now apply pair_eqb_eq.
Qed.

(** X15: after a call of [RemoveChannelAdmin] that answered 200, on a
    clients table with one row per user, the user is no longer listed in the
    channel's admin set, so [validateMessage] rejects the user's messages to
    that channel; the admin lists of all other channels are what they
    were. *)
Theorem removed_admin_cannot_post :
  forall f db r channelID userID,
    clientsWellFormed db ->
    ParseUint32 (path_id r) = Some channelID ->
    body_user_id r = Some userID ->
    Status (snd (RemoveChannelAdmin f db r)) = 200 ->
    ~ listedAsAdmin (fst (RemoveChannelAdmin f db r)) channelID userID /\
    (forall env wsMsg cm,
        Type_ wsMsg = ChannelMessageType ->
        ChannelMsg wsMsg = Some cm ->
        ChannelMessage.ChannelID cm = channelID ->
        validateMessage (fst (RemoveChannelAdmin f db r)) env wsMsg userID <> None) /\
    (forall c, c <> channelID ->
               channelAdmins (fst (RemoveChannelAdmin f db r)) c = channelAdmins db c).
Proof.
  intros f db r channelID userID [Hnd _] Hid Hbody Hok.
  destruct (RemoveChannelAdmin_ok f db r Hok)
    as (cid' & uid' & channel & client & Hid' & Hbody' & Hcl & Hch & HR).
  rewrite Hid in Hid'. injection Hid' as <-. rewrite Hbody in Hbody'. injection Hbody' as <-.
  destruct (firstChannel_id _ _ _ Hch) as [_ Hcid].
  unfold firstClientByUser in Hcl. apply find_some in Hcl as [Hclin Hu]. apply N.eqb_eq in Hu.
  assert (HN : ~ listedAsAdmin (fst (RemoveChannelAdmin f db r)) channelID userID).
  { rewrite HR. intros [_ Hin]. apply in_map_iff in Hin as (cl & Hucl & Hin).
    unfold channelAdmins in Hin. cbn [clients channel_admins set_channel_admins] in Hin.
    apply filter_In in Hin as [Hin Hrow].
    apply existsb_pair_In in Hrow. apply deleteAssociation_In in Hrow as [_ Hne].
    apply Hne.
    rewrite (NoDup_map_inj Client.UserID (clients db) cl client Hnd Hin Hclin)
      by congruence.
    now rewrite Hcid. }
  split; [exact HN|]. split.
  - intros env wsMsg cm HT HC Hcm Hv.
    apply validateMessage_accepts in Hv as [(HT' & _)|(_ & cm' & HC' & _ & _ & _ & HL)].
    + rewrite HT in HT'. discriminate HT'.
    + rewrite HC in HC'. injection HC' as <-. rewrite Hcm in HL. now apply HN.
  - intros c Hc. rewrite HR. unfold channelAdmins.
    cbn [clients channel_admins set_channel_admins].
    apply filter_ext. intros cl.
    destruct (existsb (pair_eqb (c, Client.ID cl)) (channel_admins db)) eqn:E.
    + apply existsb_pair_In. apply deleteAssociation_In.
      apply existsb_pair_In in E. split; [exact E|].
      intros Heq. injection Heq as Heq _. apply Hc. now rewrite Heq, Hcid.
    + destruct (existsb (pair_eqb (c, Client.ID cl)) (deleteAssociation _ _)) eqn:E';
        [|reflexivity].
      apply existsb_pair_In in E'. apply deleteAssociation_In in E' as [E' _].
      apply existsb_pair_In in E'. rewrite E' in E. discriminate E.
Qed.

Lemma removed_admin_cannot_post_witness :
  ~ listedAsAdmin (fst (RemoveChannelAdmin noRemoveFaults sampleStore
                          (mkAdminRequest "1" (Some 10)))) 1 10 /\
  (forall env wsMsg cm,
      Type_ wsMsg = ChannelMessageType ->
      ChannelMsg wsMsg = Some cm ->
      ChannelMessage.ChannelID cm = 1 ->
      validateMessage (fst (RemoveChannelAdmin noRemoveFaults sampleStore
                              (mkAdminRequest "1" (Some 10)))) env wsMsg 10 <> None) /\
  (forall c, c <> 1 ->
             channelAdmins (fst (RemoveChannelAdmin noRemoveFaults sampleStore
                                   (mkAdminRequest "1" (Some 10)))) c
             = channelAdmins sampleStore c).
Proof.
  apply (removed_admin_cannot_post noRemoveFaults sampleStore (mkAdminRequest "1" (Some 10)) 1 10).
  - split.
    + cbn. repeat constructor; cbn; intuition discriminate.
    + cbn. intros cl [<-|[<-|[]]]; discriminate.
  - reflexivity.
  - reflexivity.
  - reflexivity.
Defined.

Lemma firstOrCreateClient_then_first db uid tx1 cl :
  uid <> 0 ->
  firstOrCreateClient db uid = (tx1, cl) ->
  firstClientByUser tx1 uid = Some cl.
Proof.
  intros Hnz. unfold firstOrCreateClient, firstClientByUser.
  apply N.eqb_neq in Hnz. rewrite Hnz.
  destruct (find (fun c => Client.UserID c =? uid) (clients db)) as [c'|] eqn:EF;
    intros H; injection H as <- <-.
  - exact EF.
  - cbn [clients set_clients]. apply find_app_last; [exact EF|]. cbn. apply N.eqb_refl.
Qed.

Lemma deleteAssociation_fresh rows row :
  filter (pair_eqb row) rows = [] -> deleteAssociation rows row = rows.
Proof.
  intros Hf. unfold deleteAssociation. apply forallb_filter_id. apply forallb_forall.
  intros x Hx. apply negb_true_iff.
  destruct (pair_eqb row x) eqn:E; [|reflexivity].
  assert (H : In x (filter (pair_eqb row) rows)) by (apply filter_In; now split).
  rewrite Hf in H. destruct H.
Qed.

Lemma deleteAssociation_last rows row :
  filter (pair_eqb row) rows = [] -> deleteAssociation (rows ++ [row]) row = rows.
Proof.
  intros Hf. unfold deleteAssociation. rewrite filter_app. cbn [filter].
  rewrite (proj2 (pair_eqb_eq row row) eq_refl). cbn [negb].
  rewrite app_nil_r. now apply deleteAssociation_fresh.
Qed.

(** X16: adding a non-zero user as admin and then removing that user is a
    round trip on the admin table: when [AddChannelAdmin] answered 200 and
    the removal that follows meets no store error, it answers 200 and the
    admin rows are those from before the addition.  (A client row the
    addition created stays.) *)
Theorem add_then_remove_admin_round_trip :
  forall f f' db r userID,
    body_user_id r = Some userID ->
    userID <> 0 ->
    StatusCode (snd (AddChannelAdmin f db r)) = 200 ->
    fail_remove_client f' = false ->
    fail_remove_channel f' = false ->
    fail_remove_delete f' = false ->
    Status (snd (RemoveChannelAdmin f' (fst (AddChannelAdmin f db r)) r)) = 200 /\
    channel_admins (fst (RemoveChannelAdmin f' (fst (AddChannelAdmin f db r)) r))
    = channel_admins db.
Proof.
  intros f f' db r userID Hbody Hnz Hok H1 H2 H3.
  destruct (AddChannelAdmin_ok f db r Hok)
    as (channelID & uid' & channel & client & tx1 & Hid & Hbody' & Hch & Hfc & Hcount & HR).
  rewrite Hbody in Hbody'. injection Hbody' as <-.
  pose proof (firstOrCreateClient_channels db userID) as (Hchs & _ & Hadm & _).
  rewrite Hfc in Hchs, Hadm. cbn [fst] in Hchs, Hadm.
  pose proof (firstOrCreateClient_then_first db userID tx1 client Hnz Hfc) as Hfirst.
  destruct (firstChannel_id _ _ _ Hch) as [Hchin _].
  assert (Hnone : filter (pair_eqb (Channel.ID channel, Client.ID client)) (channel_admins tx1)
                  = []).
  { apply adminRowCount_zero; [now rewrite Hchs|exact Hcount]. }
  rewrite HR. cbn [fst]. unfold RemoveChannelAdmin.
  rewrite Hid, Hbody, H1, H2, H3.
  change (firstClientByUser (set_channel_admins tx1 ?x) ?u) with (firstClientByUser tx1 u).
  rewrite Hfirst.
  rewrite (firstChannel_same_channels (set_channel_admins tx1 _) db channelID)
    by (cbn; exact Hchs).
  rewrite Hch. cbn [fst snd Status channel_admins set_channel_admins].
  split; [reflexivity|].
  now rewrite deleteAssociation_last.
Qed.

Lemma add_then_remove_admin_round_trip_witness :
  Status (snd (RemoveChannelAdmin noRemoveFaults
                 (fst (AddChannelAdmin noFaults sampleStore (mkAdminRequest "1" (Some 20))))
                 (mkAdminRequest "1" (Some 20)))) = 200 /\
  channel_admins (fst (RemoveChannelAdmin noRemoveFaults
                         (fst (AddChannelAdmin noFaults sampleStore
                                 (mkAdminRequest "1" (Some 20))))
                         (mkAdminRequest "1" (Some 20))))
  = channel_admins sampleStore.
Proof.
  apply (add_then_remove_admin_round_trip noFaults noRemoveFaults sampleStore
           (mkAdminRequest "1" (Some 20)) 20); try reflexivity.
  discriminate.
Defined.

(** X17: removing a user who has a client row but is not an admin of the
    (existing) channel is no error: the call answers 200 and the store is
    the one it started from. *)
Theorem remove_non_admin_is_noop :
  forall f db r channelID userID client channel,
    ParseUint32 (path_id r) = Some channelID ->
    body_user_id r = Some userID ->
    fail_remove_client f = false ->
    fail_remove_channel f = false ->
    fail_remove_delete f = false ->
    firstClientByUser db userID = Some client ->
    firstChannel db channelID = Some channel ->
    ~ In (channelID, Client.ID client) (channel_admins db) ->
    RemoveChannelAdmin f db r = (db, mkReply 200 NoBody).
Proof.
  intros f db r channelID userID client channel Hid Hbody H1 H2 H3 Hcl Hch Hnot.
  unfold RemoveChannelAdmin. rewrite Hid, Hbody, H1, H2, H3, Hcl, Hch.
  destruct (firstChannel_id _ _ _ Hch) as [_ Hcid]. rewrite Hcid.
  rewrite deleteAssociation_fresh.
  - now destruct db.
  - destruct (filter _ _) as [|x xs] eqn:E; [reflexivity|]. exfalso. apply Hnot.
    assert (H : In x (filter (pair_eqb (channelID, Client.ID client)) (channel_admins db)))
      by (rewrite E; now left).
    apply filter_In in H as [Hin Heq]. apply pair_eqb_eq in Heq. now subst x.
Qed.

Lemma remove_non_admin_is_noop_witness :
  RemoveChannelAdmin noRemoveFaults sampleStore (mkAdminRequest "1" (Some 20))
  = (sampleStore, mkReply 200 NoBody).
Proof.
  apply (remove_non_admin_is_noop noRemoveFaults sampleStore (mkAdminRequest "1" (Some 20))
           1 20 (Client.mk 2 20) (Channel.mk 1 "general")); try reflexivity.
  cbn. intros [H|[]]. discriminate H.
Defined.

(** ** Joining a channel and subscribing to it *)

Lemma appendAssociation_In rows row x :
  In x (appendAssociation rows row) <-> In x rows \/ x = row.
Proof.
  unfold appendAssociation.
  destruct (existsb (pair_eqb row) rows) eqn:E.
  - apply existsb_pair_In in E. split; [now left|]. intros [H| ->]; assumption.
  - rewrite in_app_iff. cbn. split; intros [H|H]; try (now left).
    + destruct H as [<-|[]]. now right.
    + right. now left.
Qed.

Lemma memberOf_intro db cid channel cl :
  In channel (channels db) -> Channel.ID channel = cid ->
  In cl (clients db) ->
  In (cid, Client.ID cl) (channel_clients db) ->
  memberOf db cid (Client.UserID cl).
Proof.
  intros Hch Hid Hcl Hrow. split.
  - rewrite <- Hid. now apply firstChannel_of_row.
  - apply in_map. unfold channelMembers. apply filter_In. split; [exact Hcl|].
    now apply existsb_pair_In.
Qed.

Lemma userChannels_memberOf db uid cid :
  In cid (map Channel.ID (userChannels db uid)) <-> memberOf db cid uid.
Proof.
  split.
  - intros H. apply in_map_iff in H as (ch & Hid & H).
    unfold userChannels in H.
    apply in_flat_map in H as (ch' & Hch & H).
    apply in_flat_map in H as ([a b] & Hcc & H).
    apply in_flat_map in H as (cl & Hcl & H).
    cbn [fst snd] in H.
    destruct ((Channel.ID ch' =? a) && (b =? Client.ID cl) && (Client.UserID cl =? uid)) eqn:E;
      [|destruct H].
    destruct H as [<-|[]].
    apply andb_true_iff in E as [E E3]. apply andb_true_iff in E as [E1 E2].
    apply N.eqb_eq in E1, E2, E3. subst a b uid cid.
    now apply (memberOf_intro db _ ch').
  - intros [Hch Hin].
    destruct (firstChannel db cid) as [ch|] eqn:EF; [|now contradiction Hch].
    destruct (firstChannel_id _ _ _ EF) as [Hchin Hid].
    apply in_map_iff in Hin as (cl & Hu & Hcl).
    unfold channelMembers in Hcl. apply filter_In in Hcl as [Hcl Hrow].
    apply existsb_pair_In in Hrow.
    apply in_map_iff. exists ch. split; [exact Hid|].
    unfold userChannels.
    apply in_flat_map. exists ch. split; [exact Hchin|].
    apply in_flat_map. exists (cid, Client.ID cl). split; [exact Hrow|].
    apply in_flat_map. exists cl. split; [exact Hcl|].
    cbn [fst snd]. rewrite Hid, Hu, !N.eqb_refl. now left.
Qed.

Lemma loadSubscriptions_subscribed jm db client cid c :
  In (Subscribed cid c) (loadSubscriptions jm false db client)
  <-> c = client /\ memberOf db cid (ClientConnection.UserID client).
Proof.
  unfold loadSubscriptions. rewrite in_app_iff. split.
  - intros [H|H].
    + apply in_map_iff in H as (ch & Heq & H). injection Heq as <- <-.
      split; [reflexivity|]. apply userChannels_memberOf. now apply in_map.
    + destruct (jm _); [destruct H as [H|[]]; discriminate H|destruct H].
  - intros [-> H]. left. apply userChannels_memberOf in H.
    apply in_map_iff in H as (ch & <- & H). apply in_map_iff. now exists ch.
Qed.

(** X18: the goroutine that follows a registration subscribes the
    connection to a channel exactly when the connection's user is a persisted
    member of that channel (and never subscribes another connection); when
    the channel query fails it subscribes to nothing and queues no
    confirmation frame. *)
Theorem subscriptions_follow_membership :
  forall jm db client,
    (forall cid c,
        In (Subscribed cid c) (loadSubscriptions jm false db client)
        <-> c = client /\ memberOf db cid (ClientConnection.UserID client)) /\
    loadSubscriptions jm true db client = [LoadChannelsFailed].
Proof.
  intros jm db client. split; [|reflexivity].
  intros cid c. apply loadSubscriptions_subscribed.
Qed.

(** The course of a call of [JoinChannel] that answered 200. *)
Lemma JoinChannel_ok f db r :
  Status (snd (JoinChannel f db r)) = 200 ->
  exists channelID userID channel client db1,
    ParseUint32 (route_id r) = Some channelID /\
    context_user r = Some userID /\
    firstOrCreateClient db userID = (db1, client) /\
    firstChannel db1 channelID = Some channel /\
    fst (JoinChannel f db r)
    = set_channel_clients db1
        (appendAssociation (channel_clients db1) (Channel.ID channel, Client.ID client)).
Proof.
  unfold JoinChannel. intros Hok.
  destruct (ParseUint32 (route_id r)) as [channelID|]; [|discriminate Hok].
  destruct (context_user r) as [userID|]; [|discriminate Hok].
  destruct (fail_join_client f); [discriminate Hok|].
  destruct (firstOrCreateClient db userID) as [db1 client] eqn:EC.
  destruct (fail_join_channel f); [discriminate Hok|].
  destruct (firstChannel db1 channelID) as [channel|] eqn:EF; [|discriminate Hok].
  destruct (fail_join_append f); [discriminate Hok|].
  exists channelID, userID, channel, client, db1. repeat split; try reflexivity; assumption.
Qed.

(** X19: after a call of [JoinChannel] that answered 200 for a non-zero
    user, the user is a persisted member of the channel: [GetChannelMembers]
    lists a client row of the user, and a connection the user opens
    afterwards is subscribed to the channel.  The admin table is left as it
    was, so joining gives no right to post. *)
Theorem joined_user_is_member :
  forall f db r channelID userID,
    ParseUint32 (route_id r) = Some channelID ->
    context_user r = Some userID ->
    userID <> 0 ->
    Status (snd (JoinChannel f db r)) = 200 ->
    (exists rows,
        GetChannelMembers false false (fst (JoinChannel f db r)) (route_id r)
        = mkReply 200 (ClientsJSON rows) /\
        In userID (map Client.UserID rows)) /\
    (forall jm conn,
        In (Subscribed channelID (ClientConnection.mk conn userID))
           (loadSubscriptions jm false (fst (JoinChannel f db r))
                              (ClientConnection.mk conn userID))) /\
    channel_admins (fst (JoinChannel f db r)) = channel_admins db.
Proof.
  intros f db r channelID userID Hid Huser Hnz Hok.
  destruct (JoinChannel_ok f db r Hok)
    as (cid' & uid' & channel & client & db1 & Hid' & Huser' & Hfc & Hch & HR).
  rewrite Hid in Hid'. injection Hid' as <-. rewrite Huser in Huser'. injection Huser' as <-.
  destruct (firstChannel_id _ _ _ Hch) as [Hchin Hcid].
  destruct (firstOrCreateClient_result _ _ _ _ Hfc) as (Hcl & Hu & _).
  pose proof (firstOrCreateClient_channels db userID) as (_ & _ & Hadm & _).
  rewrite Hfc in Hadm. cbn [fst] in Hadm.
  assert (HM : memberOf (fst (JoinChannel f db r)) channelID userID).
  { rewrite HR, <- (Hu Hnz). apply (memberOf_intro _ _ channel); try assumption.
    cbn [channel_clients set_channel_clients]. apply appendAssociation_In. right.
    now rewrite Hcid. }
  split; [|split].
  - unfold GetChannelMembers. rewrite Hid.
    rewrite (firstChannel_same_channels (fst (JoinChannel f db r)) db1 channelID)
      by (rewrite HR; reflexivity).
    rewrite Hch. eexists. split; [reflexivity|]. rewrite Hcid. apply HM.
  - intros jm conn. apply loadSubscriptions_subscribed. now split.
  - rewrite HR. exact Hadm.
Qed.

Lemma joined_user_is_member_witness :
  (exists rows,
      GetChannelMembers false false
        (fst (JoinChannel noJoinFaults sampleStore (mkAuthedRequest "1" (Some 40)))) "1"
      = mkReply 200 (ClientsJSON rows) /\
      In 40 (map Client.UserID rows)) /\
  (forall jm conn,
      In (Subscribed 1 (ClientConnection.mk conn 40))
         (loadSubscriptions jm false
            (fst (JoinChannel noJoinFaults sampleStore (mkAuthedRequest "1" (Some 40))))
            (ClientConnection.mk conn 40))) /\
  channel_admins (fst (JoinChannel noJoinFaults sampleStore (mkAuthedRequest "1" (Some 40))))
  = channel_admins sampleStore.
Proof.
  apply (joined_user_is_member noJoinFaults sampleStore (mkAuthedRequest "1" (Some 40)) 1 40);
    try reflexivity.
  discriminate.
Defined.

(** X20: [JoinChannel] runs outside a transaction.  When the user has no
    client row yet and the channel lookup fails (the channel does not exist,
    or the store fails the read), the call answers 404 and creates no
    membership, but the client row [FirstOrCreate] inserted for the user
    stays in the store. *)
Theorem failed_join_leaves_client_row :
  forall f db r channelID userID,
    ParseUint32 (route_id r) = Some channelID ->
    context_user r = Some userID ->
    userID <> 0 ->
    fail_join_client f = false ->
    firstClientByUser db userID = None ->
    fail_join_channel f = true \/ firstChannel db channelID = None ->
    Status (snd (JoinChannel f db r)) = 404 /\
    clients (fst (JoinChannel f db r))
    = clients db ++ [Client.mk (nextID (map Client.ID (clients db))) userID] /\
    channel_clients (fst (JoinChannel f db r)) = channel_clients db.
Proof.
  intros f db r channelID userID Hid Huser Hnz Hf Hnone Hfail.
  unfold JoinChannel. rewrite Hid, Huser, Hf.
  unfold firstOrCreateClient. apply N.eqb_neq in Hnz. rewrite Hnz.
  unfold firstClientByUser in Hnone. rewrite Hnone.
  change (firstChannel (set_clients db ?x) ?c) with (firstChannel db c).
  destruct (fail_join_channel f) eqn:Ej; [now repeat split|].
  destruct Hfail as [Hfail|Hfail]; [discriminate Hfail|].
  rewrite Hfail. now repeat split.
Qed.

Lemma failed_join_leaves_client_row_witness :
  Status (snd (JoinChannel noJoinFaults sampleStore (mkAuthedRequest "7" (Some 40)))) = 404 /\
  clients (fst (JoinChannel noJoinFaults sampleStore (mkAuthedRequest "7" (Some 40))))
  = clients sampleStore ++ [Client.mk (nextID (map Client.ID (clients sampleStore))) 40] /\
  channel_clients (fst (JoinChannel noJoinFaults sampleStore (mkAuthedRequest "7" (Some 40))))
  = channel_clients sampleStore.
Proof.
  apply (failed_join_leaves_client_row noJoinFaults sampleStore (mkAuthedRequest "7" (Some 40))
           7 40); try reflexivity.
  - discriminate.
  - right. reflexivity.
Defined.

(** ** Creating a channel *)

Lemma createChannelRow_result fail tx channel0 tx1 channel :
  createChannelRow fail tx channel0 = Some (tx1, channel) ->
  tx1 = set_channels tx (channels tx ++ [channel]).
Proof.
  unfold createChannelRow. destruct fail; [discriminate|].
  destruct (Channel.ID channel0 =? 0).
  - intros H. now injection H as <- <-.
  - destruct (existsb _ _); [discriminate|]. intros H. now injection H as <- <-.
Qed.

(** The course of a call of [CreateChannel] that answered 200. *)
Lemma CreateChannel_ok f db r :
  Status (snd (CreateChannel f db r)) = 200 ->
  exists userID channel client tx2,
    creator r = Some userID /\
    firstOrCreateClient (set_channels db (channels db ++ [channel])) userID = (tx2, client) /\
    CreateChannel f db r
    = (set_channel_admins
         (set_channel_clients tx2
            (appendAssociation (channel_clients tx2) (Channel.ID channel, Client.ID client)))
         (appendAssociation (channel_admins tx2) (Channel.ID channel, Client.ID client)),
       mkReply 200 (ChannelJSON channel)).
Proof.
  unfold CreateChannel. intros Hok.
  destruct (decoded_channel r) as [channel0|]; [|discriminate Hok].
  destruct (createChannelRow (fail_new_channel f) db channel0) as [[tx1 channel]|] eqn:ER;
    [|discriminate Hok].
  apply createChannelRow_result in ER. subst tx1.
  destruct (creator r) as [userID|]; [|discriminate Hok].
  destruct (fail_new_client f); [discriminate Hok|].
  destruct (firstOrCreateClient _ userID) as [tx2 client] eqn:EC.
  destruct (fail_new_member f); [discriminate Hok|].
  destruct (fail_new_admin f); [discriminate Hok|].
  destruct (fail_new_commit f); [discriminate Hok|].
  exists userID, channel, client, tx2. repeat split; try reflexivity; assumption.
Qed.

(** X21: after a call of [CreateChannel] that answered 200 for a non-zero
    user, the creator is both a persisted member and a listed admin of the
    channel the reply carries, so the creator's messages to it pass
    [validateMessage]. *)
Theorem channel_creator_is_member_and_admin :
  forall f db r userID,
    creator r = Some userID ->
    userID <> 0 ->
    Status (snd (CreateChannel f db r)) = 200 ->
    exists channel,
      Sent (snd (CreateChannel f db r)) = ChannelJSON channel /\
      memberOf (fst (CreateChannel f db r)) (Channel.ID channel) userID /\
      listedAsAdmin (fst (CreateChannel f db r)) (Channel.ID channel) userID /\
      (forall env wsMsg cm,
          Type_ wsMsg = ChannelMessageType ->
          ChannelMsg wsMsg = Some cm ->
          ChannelMessage.ChannelID cm = Channel.ID channel ->
          Channel.ID channel <> 0 ->
          ChannelMessage.Content cm <> ""%string ->
          fail_admin_count env = false ->
          validateMessage (fst (CreateChannel f db r)) env wsMsg userID = None).
Proof.
  intros f db r userID Hcreator Hnz Hok.
  destruct (CreateChannel_ok f db r Hok) as (uid' & channel & client & tx2 & Hc' & Hfc & HR).
  rewrite Hcreator in Hc'. injection Hc' as <-.
  destruct (firstOrCreateClient_result _ _ _ _ Hfc) as (Hcl & Hu & _).
  pose proof (firstOrCreateClient_channels (set_channels db (channels db ++ [channel])) userID)
    as (Hchs & _).
  rewrite Hfc in Hchs. cbn [fst channels set_channels] in Hchs.
  assert (Hchin : In channel (channels tx2)).
  { rewrite Hchs. apply in_or_app. right. now left. }
  exists channel. rewrite HR. cbn [fst snd Sent].
  assert (HM : memberOf
                 (set_channel_admins
                    (set_channel_clients tx2
                       (appendAssociation (channel_clients tx2)
                                          (Channel.ID channel, Client.ID client)))
                    (appendAssociation (channel_admins tx2)
                                       (Channel.ID channel, Client.ID client)))
                 (Channel.ID channel) userID).
  { rewrite <- (Hu Hnz). apply (memberOf_intro _ _ channel); try assumption; try reflexivity.
    cbn [channel_clients set_channel_clients set_channel_admins].
    apply appendAssociation_In. now right. }
  assert (HL : listedAsAdmin
                 (set_channel_admins
                    (set_channel_clients tx2
                       (appendAssociation (channel_clients tx2)
                                          (Channel.ID channel, Client.ID client)))
                    (appendAssociation (channel_admins tx2)
                                       (Channel.ID channel, Client.ID client)))
                 (Channel.ID channel) userID).
  { rewrite <- (Hu Hnz). apply (listedAsAdmin_intro _ _ channel); try assumption;
      try reflexivity.
    cbn [channel_admins set_channel_admins].
    apply appendAssociation_In. now right. }
  split; [reflexivity|]. split; [exact HM|]. split; [exact HL|].
  intros env wsMsg cm HT HC Hcm Hcnz Hcontent Hcount.
  apply validateMessage_accepts. right. split; [exact HT|]. exists cm.
  rewrite Hcm. now refine (conj HC (conj Hcnz (conj Hcontent (conj Hcount HL)))).
Qed.

Lemma channel_creator_is_member_and_admin_witness :
  exists channel,
    Sent (snd (CreateChannel noCreateFaults sampleStore
                 (mkCreateRequest (Some (Channel.mk 0 "signals")) (Some 20))))
    = ChannelJSON channel /\
    memberOf (fst (CreateChannel noCreateFaults sampleStore
                     (mkCreateRequest (Some (Channel.mk 0 "signals")) (Some 20))))
             (Channel.ID channel) 20 /\
    listedAsAdmin (fst (CreateChannel noCreateFaults sampleStore
                          (mkCreateRequest (Some (Channel.mk 0 "signals")) (Some 20))))
                  (Channel.ID channel) 20 /\
    (forall env wsMsg cm,
        Type_ wsMsg = ChannelMessageType ->
        ChannelMsg wsMsg = Some cm ->
        ChannelMessage.ChannelID cm = Channel.ID channel ->
        Channel.ID channel <> 0 ->
        ChannelMessage.Content cm <> ""%string ->
        fail_admin_count env = false ->
        validateMessage (fst (CreateChannel noCreateFaults sampleStore
                                (mkCreateRequest (Some (Channel.mk 0 "signals")) (Some 20))))
                        env wsMsg 20 = None).
Proof.
  apply (channel_creator_is_member_and_admin noCreateFaults sampleStore
           (mkCreateRequest (Some (Channel.mk 0 "signals")) (Some 20)) 20); try reflexivity.
  discriminate.
Defined.

(** On the sample store the new channel gets the next primary key and its
    creator, user 20, as only member and admin. *)
Example sample_create_channel :
  let db' := fst (CreateChannel noCreateFaults sampleStore
                    (mkCreateRequest (Some (Channel.mk 0 "signals")) (Some 20))) in
  channels db' = [Channel.mk 1 "general"; Channel.mk 2 "signals"] /\
  channelMembers db' 2 = [Client.mk 2 20] /\
  channelAdmins db' 2 = [Client.mk 2 20].
Proof. vm_compute. repeat split. Qed.

(** X22: [CreateChannel] is all or nothing: whenever it answers anything but
    200 the store is the one the call started from, also for the
    [Unauthorized] answer, which comes after the channel row was inserted in
    the transaction. *)
Theorem CreateChannel_failure_rolls_back :
  forall f db r,
    Status (snd (CreateChannel f db r)) <> 200 ->
    fst (CreateChannel f db r) = db.
Proof.
  intros f db r. unfold CreateChannel.
  destruct (decoded_channel r) as [channel0|]; [|reflexivity].
  destruct (createChannelRow (fail_new_channel f) db channel0) as [[tx1 channel]|];
    [|reflexivity].
  destruct (creator r) as [userID|]; [|reflexivity].
  destruct (fail_new_client f); [reflexivity|].
  destruct (firstOrCreateClient tx1 userID) as [tx2 client].
  destruct (fail_new_member f); [reflexivity|].
  destruct (fail_new_admin f); [reflexivity|].
  destruct (fail_new_commit f); [reflexivity|].
  cbn. intros H. now contradiction H.
Qed.

Lemma CreateChannel_failure_rolls_back_witness :
  fst (CreateChannel noCreateFaults sampleStore
         (mkCreateRequest (Some (Channel.mk 0 "signals")) None)) = sampleStore.
Proof.
  apply (CreateChannel_failure_rolls_back noCreateFaults sampleStore
           (mkCreateRequest (Some (Channel.mk 0 "signals")) None)).
  discriminate.
Defined.

(** ** Listing a conversation *)

Lemma insertByCreatedAt_perm m l : Permutation (insertByCreatedAt m l) (m :: l).
Proof.
  induction l as [|x rest IH]; cbn [insertByCreatedAt]; [apply Permutation_refl|].
  destruct (PeerMessage.CreatedAt m <=? PeerMessage.CreatedAt x)%Z; [apply Permutation_refl|].
  eapply Permutation_trans; [apply perm_skip, IH|apply perm_swap].
Qed.

Lemma orderByCreatedAtAsc_perm l : Permutation (orderByCreatedAtAsc l) l.
Proof.
  induction l as [|m rest IH]; [apply Permutation_refl|].
  cbn [orderByCreatedAtAsc fold_right].
  eapply Permutation_trans; [apply insertByCreatedAt_perm|]. now apply perm_skip.
Qed.

Lemma insertByCreatedAt_sorted m l :
  Sorted createdAtLe l -> Sorted createdAtLe (insertByCreatedAt m l).
Proof.
  induction l as [|x rest IH]; intros Hs; cbn [insertByCreatedAt].
  - repeat constructor.
  - destruct (PeerMessage.CreatedAt m <=? PeerMessage.CreatedAt x)%Z eqn:E.
    + apply Z.leb_le in E. constructor; [exact Hs|]. now constructor.
    + apply Z.leb_gt in E. inversion Hs as [|y ys Hs' Hhd]; subst.
      constructor; [now apply IH|].
      destruct rest as [|z rest']; cbn [insertByCreatedAt].
      * constructor. unfold createdAtLe. lia.
      * destruct (PeerMessage.CreatedAt m <=? PeerMessage.CreatedAt z)%Z.
        -- constructor. unfold createdAtLe. lia.
        -- constructor. now inversion Hhd.
Qed.

Lemma orderByCreatedAtAsc_sorted l : Sorted createdAtLe (orderByCreatedAtAsc l).
Proof.
  induction l as [|m rest IH]; [constructor|].
  cbn [orderByCreatedAtAsc fold_right]. now apply insertByCreatedAt_sorted.
Qed.

Lemma between_spec userID peerID m :
  between userID peerID m = true <->
  (PeerMessage.SenderID m = userID /\ PeerMessage.ReceiverID m = peerID) \/
  (PeerMessage.SenderID m = peerID /\ PeerMessage.ReceiverID m = userID).
Proof.
  unfold between. rewrite orb_true_iff, !andb_true_iff, !N.eqb_eq. reflexivity.
Qed.

Lemma between_sym userID peerID m : between userID peerID m = between peerID userID m.
Proof. unfold between. apply orb_comm. Qed.

(** X23: for an authenticated caller and a peer id that parses,
    [GetPeerMessages] answers 200 with the persisted peer messages exchanged
    between the two users, in either direction, each exactly once, and no
    other message, in ascending order of creation time. *)
Theorem peer_conversation_listing :
  forall db r peerID userID,
    ParseUint32 (route_id r) = Some peerID ->
    context_user r = Some userID ->
    exists rows,
      GetPeerMessages false db r = mkReply 200 (PeerMessagesJSON rows) /\
      Sorted createdAtLe rows /\
      Permutation rows (filter (between userID peerID) (peer_messages db)) /\
      (forall m, In m rows <->
                 In m (peer_messages db) /\
                 ((PeerMessage.SenderID m = userID /\ PeerMessage.ReceiverID m = peerID) \/
                  (PeerMessage.SenderID m = peerID /\ PeerMessage.ReceiverID m = userID))).
Proof.
  intros db r peerID userID Hid Huser.
  unfold GetPeerMessages. rewrite Hid, Huser.
  eexists. split; [reflexivity|]. split; [apply orderByCreatedAtAsc_sorted|].
  split; [apply orderByCreatedAtAsc_perm|].
  intros m. rewrite <- between_spec, <- filter_In. split.
  - apply Permutation_in, orderByCreatedAtAsc_perm.
  - apply Permutation_in, Permutation_sym, orderByCreatedAtAsc_perm.
Qed.

Lemma peer_conversation_listing_witness :
  exists rows,
    GetPeerMessages false
      (fst (routeMessage sampleMarshal connA quietEnv sampleStore samplePeerMsg))
      (mkAuthedRequest "20" (Some 10))
    = mkReply 200 (PeerMessagesJSON rows) /\
    Sorted createdAtLe rows /\
    Permutation rows
      (filter (between 10 20)
         (peer_messages (fst (routeMessage sampleMarshal connA quietEnv sampleStore
                                samplePeerMsg)))) /\
    (forall m, In m rows <->
               In m (peer_messages (fst (routeMessage sampleMarshal connA quietEnv sampleStore
                                           samplePeerMsg))) /\
               ((PeerMessage.SenderID m = 10 /\ PeerMessage.ReceiverID m = 20) \/
                (PeerMessage.SenderID m = 20 /\ PeerMessage.ReceiverID m = 10))).
Proof.
  apply (peer_conversation_listing
           (fst (routeMessage sampleMarshal connA quietEnv sampleStore samplePeerMsg))
           (mkAuthedRequest "20" (Some 10)) 20 10); reflexivity.
Defined.

(** X24: a conversation looks the same from both ends: the listing a user
    gets for a peer is the listing the peer gets for that user. *)
Theorem peer_conversation_symmetric :
  forall db r r' userID peerID,
    ParseUint32 (route_id r) = Some peerID ->
    context_user r = Some userID ->
    ParseUint32 (route_id r') = Some userID ->
    context_user r' = Some peerID ->
    GetPeerMessages false db r = GetPeerMessages false db r'.
Proof.
  intros db r r' userID peerID H1 H2 H3 H4.
  unfold GetPeerMessages. rewrite H1, H2, H3, H4.
  do 3 f_equal. apply filter_ext. intros m. apply between_sym.
Qed.

Lemma peer_conversation_symmetric_witness :
  GetPeerMessages false
    (fst (routeMessage sampleMarshal connA quietEnv sampleStore samplePeerMsg))
    (mkAuthedRequest "20" (Some 10))
  = GetPeerMessages false
      (fst (routeMessage sampleMarshal connA quietEnv sampleStore samplePeerMsg))
      (mkAuthedRequest "10" (Some 20)).
Proof.
  apply (peer_conversation_symmetric
           (fst (routeMessage sampleMarshal connA quietEnv sampleStore samplePeerMsg))
           (mkAuthedRequest "20" (Some 10)) (mkAuthedRequest "10" (Some 20)) 10 20);
    reflexivity.
Defined.

(** X25: a peer message the read pump persisted is found by
    [GetPeerMessages]: the sender's listing for the receiver contains a row
    with the sender, the receiver and the content of the message, created at
    the server's clock reading. *)
Theorem persisted_peer_message_listed :
  forall jm client env db wsMsg pm r,
    validateMessage db env wsMsg (ClientConnection.UserID client) = None ->
    Type_ wsMsg = PeerMessageType ->
    PeerMsg wsMsg = Some pm ->
    fail_create env = false ->
    ParseUint32 (route_id r) = Some (PeerMessage.ReceiverID pm) ->
    context_user r = Some (ClientConnection.UserID client) ->
    exists rows row,
      GetPeerMessages false (fst (routeMessage jm client env db wsMsg)) r
      = mkReply 200 (PeerMessagesJSON rows) /\
      In row rows /\
      PeerMessage.SenderID row = ClientConnection.UserID client /\
      PeerMessage.ReceiverID row = PeerMessage.ReceiverID pm /\
      PeerMessage.Content row = PeerMessage.Content pm /\
      PeerMessage.CreatedAt row = now env.
Proof.
  intros jm client env db wsMsg pm r Hv HT HP Hf Hid Huser.
  destruct (routeMessage_peer_ok jm client env db wsMsg pm Hv HT HP Hf)
    as (row & data & H1 & H2 & H3 & H4 & HR).
  rewrite HR. cbn [fst]. unfold GetPeerMessages. rewrite Hid, Huser.
  eexists. exists row. split; [reflexivity|].
  split; [|now repeat split].
  apply (Permutation_in _ (Permutation_sym (orderByCreatedAtAsc_perm _))).
  apply filter_In. split.
  - cbn [peer_messages set_peer_messages]. apply in_or_app. right. now left.
  - apply between_spec. left. now split.
Qed.

Lemma persisted_peer_message_listed_witness :
  exists rows row,
    GetPeerMessages false
      (fst (routeMessage sampleMarshal connA quietEnv sampleStore samplePeerMsg))
      (mkAuthedRequest "20" (Some 10))
    = mkReply 200 (PeerMessagesJSON rows) /\
    In row rows /\
    PeerMessage.SenderID row = ClientConnection.UserID connA /\
    PeerMessage.ReceiverID row = PeerMessage.ReceiverID (PeerMessage.mk 0 99 20 "hi" 5%Z) /\
    PeerMessage.Content row = PeerMessage.Content (PeerMessage.mk 0 99 20 "hi" 5%Z) /\
    PeerMessage.CreatedAt row = now quietEnv.
Proof.
  apply (persisted_peer_message_listed sampleMarshal connA quietEnv sampleStore samplePeerMsg
           (PeerMessage.mk 0 99 20 "hi" 5%Z) (mkAuthedRequest "20" (Some 10)));
    reflexivity.
Defined.

(** X26: the admin list a successful [AddChannelAdmin] answers with is the
    list [GetChannelAdmins] answers with on the store the call left. *)
Theorem added_admin_reply_is_current_list :
  forall f db r,
    StatusCode (snd (AddChannelAdmin f db r)) = 200 ->
    exists admins,
      snd (AddChannelAdmin f db r) = mkResponse 200 (AdminList admins) /\
      GetChannelAdmins false false (fst (AddChannelAdmin f db r)) (path_id r)
      = mkReply 200 (ClientsJSON admins).
Proof.
  intros f db r Hok.
  destruct (AddChannelAdmin_ok f db r Hok)
    as (channelID & userID & channel & client & tx1 & Hid & _ & Hch & Hfc & _ & HR).
  pose proof (firstOrCreateClient_channels db userID) as (Hchs & _).
  rewrite Hfc in Hchs. cbn [fst] in Hchs.
  rewrite HR. cbn [fst snd]. eexists. split; [reflexivity|].
  unfold GetChannelAdmins. rewrite Hid.
  rewrite (firstChannel_same_channels (set_channel_admins tx1 _) db channelID)
    by (cbn; exact Hchs).
  now rewrite Hch.
Qed.

Lemma added_admin_reply_is_current_list_witness :
  exists admins,
    snd (AddChannelAdmin noFaults sampleStore (mkAdminRequest "1" (Some 20)))
    = mkResponse 200 (AdminList admins) /\
    GetChannelAdmins false false
      (fst (AddChannelAdmin noFaults sampleStore (mkAdminRequest "1" (Some 20)))) "1"
    = mkReply 200 (ClientsJSON admins).
Proof.
  apply (added_admin_reply_is_current_list noFaults sampleStore (mkAdminRequest "1" (Some 20))).
  reflexivity.
Defined.

(** ** What the read pump and its goroutines write *)

Lemma SendUserNotification_frame tokenCheck publish marshalData env db userID title body data :
  channels (fst (fst (SendUserNotification tokenCheck publish marshalData env db userID
                        title body data))) = channels db /\
  clients (fst (fst (SendUserNotification tokenCheck publish marshalData env db userID
                       title body data))) = clients db /\
  channel_clients (fst (fst (SendUserNotification tokenCheck publish marshalData env db userID
                               title body data))) = channel_clients db /\
  channel_admins (fst (fst (SendUserNotification tokenCheck publish marshalData env db userID
                              title body data))) = channel_admins db /\
  peer_messages (fst (fst (SendUserNotification tokenCheck publish marshalData env db userID
                             title body data))) = peer_messages db /\
  channel_messages (fst (fst (SendUserNotification tokenCheck publish marshalData env db userID
                                title body data))) = channel_messages db.
Proof.
  unfold SendUserNotification.
  destruct (fail_find_devices env); [repeat split|].
  destruct (filter (fun d => (Device.UserID d =? userID)%string) (devices db))
    as [|d0 found]; [repeat split|].
  destruct (sendExpoNotificationSDK_spec tokenCheck publish env db
              (map Device.Token (d0 :: found)) title body data) as (_ & _ & Hstore & _).
  rewrite cleanupInvalidTokens_store in Hstore.
  destruct (sendExpoNotificationSDK tokenCheck publish env db
              (map Device.Token (d0 :: found)) title body data) as [[db1 evs] [success err]].
  cbn [fst snd] in Hstore.
  destruct (fail_create_history env); cbn [fst snd];
    destruct Hstore as [-> | ->]; repeat split.
Qed.

(** X5: the store operations of the read loop of a connection only append
    to the two message tables: the channels, clients, memberships and admin
    rows are left as they were, every message row that was there stays in
    place, and every row the loop adds has the connection's user as sender.
    The notification dispatch its goroutines run, [SendUserNotification],
    leaves those four tables and the two message tables as they are (it
    writes device rows and the notification history only), so neither the
    loop nor its goroutines ever change a channel, a client, a membership or
    an admin row, or an existing message. *)
Theorem read_pump_writes_only_messages :
  forall ju jm client reads db,
    (channels (fst (fst (handleClientMessages ju jm client reads db))) = channels db /\
     clients (fst (fst (handleClientMessages ju jm client reads db))) = clients db /\
     channel_clients (fst (fst (handleClientMessages ju jm client reads db)))
     = channel_clients db /\
     channel_admins (fst (fst (handleClientMessages ju jm client reads db)))
     = channel_admins db) /\
    (exists ps cs,
        peer_messages (fst (fst (handleClientMessages ju jm client reads db)))
        = peer_messages db ++ ps /\
        channel_messages (fst (fst (handleClientMessages ju jm client reads db)))
        = channel_messages db ++ cs /\
        Forall (fun row => PeerMessage.SenderID row = ClientConnection.UserID client) ps /\
        Forall (fun row => ChannelMessage.SenderID row = ClientConnection.UserID client) cs) /\
    (forall tokenCheck publish marshalData penv s userID title body data,
        channels (fst (fst (SendUserNotification tokenCheck publish marshalData penv s userID
                              title body data))) = channels s /\
        clients (fst (fst (SendUserNotification tokenCheck publish marshalData penv s userID
                             title body data))) = clients s /\
        channel_clients (fst (fst (SendUserNotification tokenCheck publish marshalData penv s
                                     userID title body data))) = channel_clients s /\
        channel_admins (fst (fst (SendUserNotification tokenCheck publish marshalData penv s
                                    userID title body data))) = channel_admins s /\
        peer_messages (fst (fst (SendUserNotification tokenCheck publish marshalData penv s
                                   userID title body data))) = peer_messages s /\
        channel_messages (fst (fst (SendUserNotification tokenCheck publish marshalData penv s
                                      userID title body data))) = channel_messages s).
Proof.
  intros ju jm client reads db.
  destruct (handleClientMessages_appends ju jm client reads db)
    as ((H1 & H2 & H3 & H4 & _ & _) & Happ).
  split; [repeat split; assumption|]. split; [exact Happ|].
  intros. apply SendUserNotification_frame.
Qed.

(** A peer frame followed by the dispatch its goroutine runs: the pump
    appends the message row, the dispatch writes a history row and nothing
    else of the chat tables. *)
Example sample_pump_then_dispatch :
  let db1 := fst (routeMessage sampleMarshal connA quietEnv staleDeviceStore samplePeerMsg) in
  let db2 := fst (fst (SendUserNotification sampleTokenCheck rejectingProvider sampleMarshalData
                         quietPushEnv db1 "20" "New message from User 10" "hi" None)) in
  peer_messages db2 = peer_messages db1 /\
  List.length (peer_messages db1) = 1%nat /\
  List.length (notification_histories db1) = 0%nat /\
  List.length (notification_histories db2) = 1%nat /\
  channel_admins db2 = channel_admins staleDeviceStore.
Proof. vm_compute. repeat split. Qed.
